(** * Slopboard Tracker: session lifecycle and offline delivery queue

    A shallow embedding of the tracker core of the Slopboard VS Code
    extension (extension.js, storageService.js, apiService.js, utils.js)
    and the properties of its session state machine, its offline queue,
    its batching and its week grouping.

    Conventions of the embedding:
    - a JavaScript [Date], and an ISO-8601 string produced by
      [toISOString], is its time value: milliseconds since the epoch, in
      [Z].  [toISOString] and [new Date(iso)] are inverse on such strings,
      so a timestamp string is identified with its time value;
    - local time is read through the time zone of the host, the
      [LocalTZA] of ECMA-262, whose offset from UTC may change with the
      date (daylight saving time);
    - durations, counts and language ids are integers in [Z];
    - module level [let] variables of extension.js and the extension's
      [globalState] are fields of one [State] record, threaded through a
      small state monad;
    - calls on external collaborators (the HTTP client, timers, VS Code
      notifications, the summary view) are recorded, in call order, in the
      [trace] field of the state. *)

From Stdlib Require Import ZArith String List Bool Lia Permutation Sorted.
Import ListNotations.
Open Scope Z_scope.

(* ===================================================================== *)
(** * Part I: the program *)
(* ===================================================================== *)

(** ** ECMAScript date arithmetic (ECMA-262, Date objects)

    The abstract operations behind [getDay], [getDate], [setDate] and
    [setHours].  Time values are taken inside the range where [TimeClip] is
    the identity. *)
Module JSDate.

Definition msPerDay : Z := 86400000.
Definition msPerHour : Z := 3600000.
Definition msPerMinute : Z := 60000.
Definition msPerSecond : Z := 1000.

Definition Day (t : Z) : Z := t / msPerDay.
Definition TimeWithinDay (t : Z) : Z := t mod msPerDay.

(** 0 is Sunday, 1 is Monday, ..., 6 is Saturday. *)
Definition WeekDay (t : Z) : Z := (Day t + 4) mod 7.

Definition DaysInYear (y : Z) : Z :=
  if negb (y mod 4 =? 0) then 365
  else if negb (y mod 100 =? 0) then 366
  else if negb (y mod 400 =? 0) then 365
  else 366.

Definition DayFromYear (y : Z) : Z :=
  365 * (y - 1970) + (y - 1969) / 4 - (y - 1901) / 100 + (y - 1601) / 400.

Definition TimeFromYear (y : Z) : Z := msPerDay * DayFromYear y.

(** The largest [y] with [TimeFromYear y <= t]: an estimate from the mean
    length of the Gregorian year, corrected by at most one year. *)
Definition YearFromTime (t : Z) : Z :=
  let y := 1970 + (400 * Day t) / 146097 in
  if TimeFromYear (y + 1) <=? t then y + 1
  else if TimeFromYear y <=? t then y
  else y - 1.

Definition InLeapYear (t : Z) : Z :=
  if DaysInYear (YearFromTime t) =? 366 then 1 else 0.

Definition DayWithinYear (t : Z) : Z :=
  Day t - DayFromYear (YearFromTime t).

(** Number of days of the year that precede month [m] (0 = January). *)
Definition DaysBeforeMonth (m leap : Z) : Z :=
  if m =? 0 then 0
  else if m =? 1 then 31
  else if m =? 2 then 59 + leap
  else if m =? 3 then 90 + leap
  else if m =? 4 then 120 + leap
  else if m =? 5 then 151 + leap
  else if m =? 6 then 181 + leap
  else if m =? 7 then 212 + leap
  else if m =? 8 then 243 + leap
  else if m =? 9 then 273 + leap
  else if m =? 10 then 304 + leap
  else 334 + leap.

Definition MonthFromTime (t : Z) : Z :=
  let d := DayWithinYear t in
  let leap := InLeapYear t in
  if d <? 31 then 0
  else if d <? 59 + leap then 1
  else if d <? 90 + leap then 2
  else if d <? 120 + leap then 3
  else if d <? 151 + leap then 4
  else if d <? 181 + leap then 5
  else if d <? 212 + leap then 6
  else if d <? 243 + leap then 7
  else if d <? 273 + leap then 8
  else if d <? 304 + leap then 9
  else if d <? 334 + leap then 10
  else 11.

Definition DateFromTime (t : Z) : Z :=
  DayWithinYear t - DaysBeforeMonth (MonthFromTime t) (InLeapYear t) + 1.

Definition HourFromTime (t : Z) : Z := (t / msPerHour) mod 24.
Definition MinFromTime (t : Z) : Z := (t / msPerMinute) mod 60.
Definition SecFromTime (t : Z) : Z := (t / msPerSecond) mod 60.
Definition msFromTime (t : Z) : Z := t mod msPerSecond.

Definition MakeTime (hour min sec ms : Z) : Z :=
  hour * msPerHour + min * msPerMinute + sec * msPerSecond + ms.

(** [MakeDay]: the day number of the first of month [month] of [year]
    (months outside 0..11 carry into the year), plus [date - 1]. *)
Definition MakeDay (year month date : Z) : Z :=
  let ym := year + month / 12 in
  let mn := month mod 12 in
  let leap := if DaysInYear ym =? 366 then 1 else 0 in
  DayFromYear ym + DaysBeforeMonth mn leap + date - 1.

Definition MakeDate (day time : Z) : Z := day * msPerDay + time.

(** The time zone of the host: [LocalTZA(t, isUTC)] of ECMA-262, the
    offset of local time from UTC in milliseconds.  [offsetAtUTC t] is
    [LocalTZA(t, true)], the offset in force at the instant [t];
    [offsetOfLocal t] is [LocalTZA(t, false)], the offset under which the
    local time [t] is read, which is the offset before the clock change
    for a local time that the change skips or repeats. *)
Record TimeZone := mkTimeZone {
  offsetAtUTC : Z -> Z;
  offsetOfLocal : Z -> Z
}.

Definition LocalTime (zone : TimeZone) (t : Z) : Z :=
  t + offsetAtUTC zone t.
Definition UTC (zone : TimeZone) (t : Z) : Z :=
  t - offsetOfLocal zone t.

(** A zone without clock changes: one offset [tza] at all times. *)
Definition fixed (tza : Z) : TimeZone :=
  mkTimeZone (fun _ => tza) (fun _ => tza).

(** A zone with one clock change: the offset is [before] up to the
    instant [change] and [after] from it on.  Local times up to the later
    of the two readings of [change] are read under [before]. *)
Definition transition (change before after : Z) : TimeZone :=
  mkTimeZone
    (fun t => if t <? change then before else after)
    (fun t => if t <? change + Z.max before after then before else after).

(** [Date.prototype] methods, on the time value of the receiver; a
    setter returns the new time value. *)
Definition getDay (zone : TimeZone) (tv : Z) : Z :=
  WeekDay (LocalTime zone tv).
Definition getDate (zone : TimeZone) (tv : Z) : Z :=
  DateFromTime (LocalTime zone tv).
Definition getHours (zone : TimeZone) (tv : Z) : Z :=
  HourFromTime (LocalTime zone tv).
Definition getMinutes (zone : TimeZone) (tv : Z) : Z :=
  MinFromTime (LocalTime zone tv).
Definition getSeconds (zone : TimeZone) (tv : Z) : Z :=
  SecFromTime (LocalTime zone tv).
Definition getMilliseconds (zone : TimeZone) (tv : Z) : Z :=
  msFromTime (LocalTime zone tv).

Definition setDate (zone : TimeZone) (tv dt : Z) : Z :=
  let t := LocalTime zone tv in
  let newDate :=
    MakeDate (MakeDay (YearFromTime t) (MonthFromTime t) dt)
             (TimeWithinDay t) in
  UTC zone newDate.

Definition setHours (zone : TimeZone) (tv hour min sec ms : Z) : Z :=
  let t := LocalTime zone tv in
  let date := MakeDate (Day t) (MakeTime hour min sec ms) in
  UTC zone date.

End JSDate.

(** ** utils.js *)
Module Utils.
Import JSDate.

(** [Utils.getWeekStart(date)] *)
Definition getWeekStart (zone : TimeZone) (date : Z) : Z :=
  let result := date in
  let day := getDay zone result in
  let diff := if day =? 0 then -6 else 1 - day in
  let result := setDate zone result (getDate zone result + diff) in
  let result := setHours zone result 0 0 0 0 in
  result.

(** [Utils.getWeekEnd(date)] *)
Definition getWeekEnd (zone : TimeZone) (date : Z) : Z :=
  let result := getWeekStart zone date in
  let result := setDate zone result (getDate zone result + 6) in
  let result := setHours zone result 23 59 59 999 in
  result.

(** [Utils.isInSameWeek(target, weekOf)] *)
Definition isInSameWeek (zone : TimeZone) (target weekOf : Z) : bool :=
  getWeekStart zone target =? getWeekStart zone weekOf.

End Utils.

(** ** languageService.js *)
Module LanguageService.
Local Open Scope string_scope.

Record Language := mkLanguage {
  id : Z;
  name : string;
  color : string
}.

(** A JavaScript [Map] with string keys: [get] finds the value of a key,
    [set] replaces the value of a present key and adds an absent one. *)
Definition StringMap : Type := list (string * Language).

Fixpoint map_get (m : StringMap) (k : string) : option Language :=
  match m with
  | [] => None
  | (k', v) :: rest => if String.eqb k' k then Some v else map_get rest k
  end.

Fixpoint map_set (m : StringMap) (k : string) (v : Language) : StringMap :=
  match m with
  | [] => [(k, v)]
  | (k', v') :: rest =>
      if String.eqb k' k then (k', v) :: rest
      else (k', v') :: map_set rest k v
  end.

(** The fields of the service object. *)
Record Service := mkService {
  languages : list Language;
  extensionMap : StringMap;
  languageIdMap : StringMap
}.

(** The names under which every object literal finds an inherited member
    instead of [undefined]. *)
Definition inherited_names : list string :=
  [ "constructor"; "hasOwnProperty"; "isPrototypeOf";
    "propertyIsEnumerable"; "toLocaleString"; "toString"; "valueOf";
    "__defineGetter__"; "__defineSetter__"; "__lookupGetter__";
    "__lookupSetter__"; "__proto__" ].

(** [getExtensionsForLanguage(language)]: [extensionMap[language] || []]
    on the literal table.  [None] is the inherited member found under one
    of [inherited_names]: a truthy value that is not an array. *)
Definition getExtensionsForLanguage (language : string)
    : option (list string) :=
  if String.eqb language "javascript" then Some [".js"; ".mjs"; ".cjs"]
  else if String.eqb language "typescript" then Some [".ts"; ".tsx"]
  else if String.eqb language "python" then Some [".py"; ".pyw"; ".pyx"]
  else if String.eqb language "java" then Some [".java"]
  else if String.eqb language "c#" then Some [".cs"]
  else if String.eqb language "c++"
       then Some [".cpp"; ".cc"; ".cxx"; ".hpp"; ".h"]
  else if String.eqb language "php" then Some [".php"]
  else if String.eqb language "ruby" then Some [".rb"]
  else if String.eqb language "go" then Some [".go"]
  else if String.eqb language "rust" then Some [".rs"]
  else if String.eqb language "html" then Some [".html"; ".htm"]
  else if String.eqb language "css" then Some [".css"]
  else if String.eqb language "swift" then Some [".swift"]
  else if String.eqb language "kotlin" then Some [".kt"; ".kts"]
  else if String.eqb language "dart" then Some [".dart"]
  else if existsb (String.eqb language) inherited_names then None
  else Some [].

(** The [defaultLanguages] of [initDefaultMappings]. *)
Definition defaultLanguages : list Language :=
  [ mkLanguage 1 "JavaScript" "#f7df1e";
    mkLanguage 2 "TypeScript" "#007acc";
    mkLanguage 3 "Python" "#3572A5";
    mkLanguage 4 "Java" "#b07219";
    mkLanguage 5 "C#" "#178600";
    mkLanguage 6 "C++" "#f34b7d";
    mkLanguage 7 "PHP" "#4F5D95";
    mkLanguage 8 "Ruby" "#701516";
    mkLanguage 9 "Go" "#00ADD8";
    mkLanguage 10 "Rust" "#dea584";
    mkLanguage 11 "HTML" "#e34c26";
    mkLanguage 12 "CSS" "#563d7c";
    mkLanguage 13 "Swift" "#ffac45";
    mkLanguage 14 "Kotlin" "#F18E33";
    mkLanguage 15 "Dart" "#00B4AB" ].

Section WithStrings.
(** [String.prototype.toLowerCase] and [path.extname]. *)
Variable toLowerCase : string -> string.
Variable extname : string -> string.

(** One iteration of the loop of [setLanguages]; [None] when the
    [for (const ext of extensions)] throws because [extensions] is not
    iterable. *)
Definition register (maps : StringMap * StringMap) (lang : Language)
    : option (StringMap * StringMap) :=
  let (extensionMap, languageIdMap) := maps in
  let normalizedName := toLowerCase lang.(name) in
  let languageIdMap := map_set languageIdMap normalizedName lang in
  match getExtensionsForLanguage normalizedName with
  | None => None
  | Some extensions =>
      let extensionMap :=
        fold_left (fun m ext => map_set m ext lang) extensions
          extensionMap in
      Some (extensionMap, languageIdMap)
  end.

Fixpoint register_all (maps : StringMap * StringMap)
    (languages : list Language) : option (StringMap * StringMap) :=
  match languages with
  | [] => Some maps
  | lang :: rest =>
      match register maps lang with
      | None => None
      | Some maps' => register_all maps' rest
      end
  end.

(** [setLanguages(languages)]: both maps are cleared and rebuilt; [None]
    when the loop throws. *)
Definition setLanguages (languages : list Language) : option Service :=
  match register_all ([], []) languages with
  | None => None
  | Some (extensionMap, languageIdMap) =>
      Some (mkService languages extensionMap languageIdMap)
  end.

(** [detectLanguage(filePath, languageId)]; the empty string is the falsy
    argument. *)
Definition detectLanguage (service : Service) (filePath languageId : string)
    : Language :=
  let byId :=
    if String.eqb languageId "" then None
    else map_get service.(languageIdMap) (toLowerCase languageId) in
  match byId with
  | Some lang => lang
  | None =>
      let byExtension :=
        if String.eqb filePath "" then None
        else
          let ext := toLowerCase (extname filePath) in
          map_get service.(extensionMap) ext in
      match byExtension with
      | Some lang => lang
      | None =>
          mkLanguage 0
            (if String.eqb languageId "" then "Unknown" else languageId)
            "#cccccc"
      end
  end.

End WithStrings.

(** [getAllLanguages()] *)
Definition getAllLanguages (service : Service) : list Language :=
  service.(languages).

(** [getLanguageById(id)]; [None] is [null]. *)
Definition getLanguageById (service : Service) (wanted : Z)
    : option Language :=
  find (fun lang => Z.eqb lang.(id) wanted) service.(languages).

End LanguageService.

(** ** The session object created by [startSession] in extension.js *)
Module Session.

Record t := mk {
  id : nat;                          (* uuidv4(): the n-th fresh identifier *)
  language : LanguageService.Language;
  projectName : string;
  filePath : string;
  startTime : Z;
  endTime : option Z;                (* null until the session is closed *)
  duration : Z
}.

End Session.

(** ** apiService.js *)
Module SessionData.

(** The [SessionData] typedef.  [end_time] is [None] for a JavaScript
    [null]; [project_name] and [file_path] are optional properties. *)
Record t := mk {
  language_id : Z;
  start_time : Z;
  end_time : option Z;
  duration : Z;
  project_name : option string;
  file_path : option string
}.

End SessionData.

Module ApiService.
Import JSDate.

(** [new Date(v)] for an ISO string or [null]: [null] converts to the
    number 0, the epoch. *)
Definition newDate (v : option Z) : Z :=
  match v with
  | Some t => t
  | None => 0
  end.

(** [a || b] on an optional string: [undefined] and the empty string are
    falsy. *)
Definition or_default (a : option string) (b : string) : string :=
  match a with
  | Some s => if String.eqb s EmptyString then b else s
  | None => b
  end.

(** [ApiService.getWeekStart(date)] *)
Definition getWeekStart (zone : TimeZone) (date : Z) : Z :=
  let result := date in
  let day := getDay zone result in
  let diff := if day =? 0 then -6 else 1 - day in
  let result := setDate zone result (getDate zone result + diff) in
  let result := setHours zone result 0 0 0 0 in
  result.

(** The key [`${language_id}_${weekStart.toISOString()}`]: the ISO string
    has a fixed shape without an underscore, so the string determines
    and is determined by the pair. *)
Definition Key : Type := Z * Z.

Definition key_eqb (a b : Key) : bool :=
  (fst a =? fst b) && (snd a =? snd b).

(** A JavaScript [Map] with its insertion order; [set] on a present key
    replaces the value in place. *)
Definition SessionMap : Type := list (Key * SessionData.t).

Fixpoint map_get (m : SessionMap) (k : Key) : option SessionData.t :=
  match m with
  | [] => None
  | (k', v) :: rest => if key_eqb k' k then Some v else map_get rest k
  end.

Definition map_has (m : SessionMap) (k : Key) : bool :=
  match map_get m k with
  | Some _ => true
  | None => false
  end.

Fixpoint map_set (m : SessionMap) (k : Key) (v : SessionData.t) : SessionMap :=
  match m with
  | [] => [(k, v)]
  | (k', v') :: rest =>
      if key_eqb k' k then (k', v) :: rest
      else (k', v') :: map_set rest k v
  end.

Definition map_values (m : SessionMap) : list SessionData.t := map snd m.

Definition session_key (zone : TimeZone) (session : SessionData.t)
    : Key :=
  let startTime := session.(SessionData.start_time) in
  let weekStart := getWeekStart zone startTime in
  (session.(SessionData.language_id), weekStart).

(** One iteration of the [for (const session of sessions)] loop.  The
    group object is mutated through the reference held by the map, which
    is a [map_set] at its key. *)
Definition group_step (zone : TimeZone) (sessionMap : SessionMap)
    (session : SessionData.t) : SessionMap :=
  let key := session_key zone session in
  let sessionMap :=
    if negb (map_has sessionMap key) then
      map_set sessionMap key
        (SessionData.mk
           session.(SessionData.language_id)
           (snd key)
           session.(SessionData.end_time)
           0
           (Some (or_default session.(SessionData.project_name) "Unknown"))
           (Some (or_default session.(SessionData.file_path) "")))
    else sessionMap in
  match map_get sessionMap key with
  | None => sessionMap
  | Some group =>
      let group :=
        SessionData.mk
          group.(SessionData.language_id)
          group.(SessionData.start_time)
          group.(SessionData.end_time)
          (group.(SessionData.duration) + session.(SessionData.duration))
          group.(SessionData.project_name)
          group.(SessionData.file_path) in
      let currentEndTime := newDate group.(SessionData.end_time) in
      let newEndTime := newDate session.(SessionData.end_time) in
      let group :=
        if newEndTime >? currentEndTime then
          SessionData.mk
            group.(SessionData.language_id)
            group.(SessionData.start_time)
            session.(SessionData.end_time)
            group.(SessionData.duration)
            group.(SessionData.project_name)
            group.(SessionData.file_path)
        else group in
      map_set sessionMap key group
  end.

(** [ApiService.groupSessionsByLanguage(sessions)] *)
Definition groupSessionsByLanguage (zone : TimeZone)
    (sessions : list SessionData.t) : list SessionData.t :=
  match sessions with
  | [] => []
  | _ => map_values (fold_left (group_step zone) sessions [])
  end.

End ApiService.

(** ** The host: VS Code, timers, the HTTP client, library functions *)
Module Env.

(** The values read through [vscode.workspace.getConfiguration]. *)
Record Config := mkConfig {
  apiKey : string;                   (* the empty string is "no key" *)
  enabled : bool;
  autoTrackEnabled : bool;
  idleThreshold : Z;
  uploadInterval : Z;
  uploadBatchSize : Z;
  minSessionDuration : Z;
  excludedProjects : list string;
  excludedFiles : list string
}.

(** The parts of a [vscode.TextDocument] that the tracker reads;
    [workspaceFolder] is the path of the folder that holds it, if any. *)
Record Document := mkDocument {
  isUntitled : bool;
  scheme : string;
  fsPath : string;
  workspaceFolder : option string;
  languageId : string
}.

(** How a promise settles. *)
Inductive Outcome := Fulfilled | Rejected.

Inductive Message :=
| MsgSetApiKeyFirst
| MsgTrackerStarted
| MsgTrackerStopped
| MsgSavedOffline
| MsgSynced (totalSessions : Z)
| MsgOfflineBacklog (count : Z)
| MsgIdleThresholdUpdated (newThreshold : Z)
| MsgUploadIntervalUpdated (newInterval : Z)
| MsgAutoTrackingEnabled
| MsgAutoTrackingDisabled.

(** Calls on the outside world, in the order they are made. *)
Inductive Effect :=
| HttpPostSession (sessionData : SessionData.t)
| HttpPostBatch (groupedSessions : list SessionData.t)
| SetTimeoutDrain (delay : Z)
| SetIntervalCheckActivity (idleThresholdSeconds period : Z)
| SetIntervalUpload (intervalMs : Z)
| ClearIntervalCheckActivity
| ClearIntervalUpload
| ShowInformationMessage (m : Message)
| ShowWarningMessage (m : Message)
| SetStatusBarMessage (remaining : Z)
| UpdateStatusBar
| ViewSetActiveSession (s : option Session.t)
| ViewAddCompletedSession (s : Session.t).

(** What the host supplies: the wall clock ([clock n] is the value of
    the n-th [new Date()]), the local time zone, [path.basename],
    [path.relative], [minimatch] and [languageService.detectLanguage]. *)
Record Host := mkHost {
  clock : nat -> Z;
  zone : JSDate.TimeZone;
  basename : string -> string;
  relative : string -> string -> string;
  minimatch : string -> string -> bool;
  detectLanguage : string -> string -> LanguageService.Language
}.

End Env.

(** ** storageService.js *)
Module OfflineSession.

(** The object pushed on the ['offlineSessions'] array. *)
Record t := mk {
  id : nat;
  language : LanguageService.Language;
  startTime : Z;
  endTime : option Z;
  duration : Z
}.

End OfflineSession.

Module StorageService.
Import Env.

(** [Array.prototype.slice(start, end)] on integer arguments. *)
Definition relative_index (len i : Z) : Z :=
  if i <? 0 then Z.max (len + i) 0 else Z.min i len.

Definition slice {A : Type} (l : list A) (start stop : Z) : list A :=
  let len := Z.of_nat (length l) in
  let k := relative_index len start in
  let final := relative_index len stop in
  let count := Z.max (final - k) 0 in
  firstn (Z.to_nat count) (skipn (Z.to_nat k) l).

(** [slice(start)]: up to the end of the array. *)
Definition slice_from {A : Type} (l : list A) (start : Z) : list A :=
  slice l start (Z.of_nat (length l)).

(** The value of [globalState.get('offlineSessions', [])].  An [update]
    that resolves replaces it.  An [update] that throws is taken to leave
    it as it was, as in a store that hands out copies of its values: the
    array that [addOfflineSession] pushes to is then not the stored one. *)
Definition Memento : Type := list OfflineSession.t.

(** [getOfflineSessions(limit = Infinity)]; [None] is [Infinity]. *)
Definition getOfflineSessions (limit : option Z) (g : Memento)
    : list OfflineSession.t :=
  match limit with
  | Some n => slice g 0 n
  | None => g
  end.

Definition getOfflineSessionCount (g : Memento) : Z :=
  Z.of_nat (length g).

Definition hasOfflineSessions (g : Memento) : bool :=
  getOfflineSessionCount g >? 0.

Definition thresholds : list Z := [10; 50; 100; 500].

(** [thresholds.includes(count)] *)
Definition includes (l : list Z) (x : Z) : bool :=
  existsb (fun y => y =? x) l.

(** [maybeTriggerOfflineWarning(count)]: the notifications it shows. *)
Definition maybeTriggerOfflineWarning (count : Z) : list Effect :=
  if includes thresholds count
  then [ShowWarningMessage (MsgOfflineBacklog count)]
  else [].

Definition to_offline (session : Session.t) : OfflineSession.t :=
  OfflineSession.mk
    session.(Session.id)
    session.(Session.language)
    session.(Session.startTime)
    session.(Session.endTime)
    session.(Session.duration).

(** [addOfflineSession(session)]; [update_ok] tells whether
    [globalState.update] resolves.  When it throws, the [catch] logs and
    the warning check is skipped. *)
Definition addOfflineSession (session : Session.t) (update_ok : bool)
    (g : Memento) : Memento * list Effect :=
  let offlineSessions := getOfflineSessions None g in
  let offlineSessions := offlineSessions ++ [to_offline session] in
  if update_ok then
    (offlineSessions,
     maybeTriggerOfflineWarning (Z.of_nat (length offlineSessions)))
  else (g, []).

(** [removeOfflineSessions(count)] *)
Definition removeOfflineSessions (count : Z) (update_ok : bool)
    (g : Memento) : Memento :=
  let offlineSessions := getOfflineSessions None g in
  let remainingSessions := slice_from offlineSessions count in
  if update_ok then remainingSessions else g.

End StorageService.

(** ** extension.js *)
Module Extension.
Import Env.

(** Ghost record of the session life cycle: [Opened s] when
    [startSession] binds [activeSession] to the new object [s],
    [Closed s] when [endSession] has stamped [s]. *)
Inductive Lifecycle :=
| Opened (s : Session.t)
| Closed (s : Session.t).

(** The captured locals of a [sendOfflineSessions] activation that is
    suspended at [await apiService.sendBatchSessions(...)]. *)
Record DrainFrame := mkDrainFrame {
  sessionsToSend : list OfflineSession.t;
  totalSessions : Z;
  batchSize : Z
}.

(** The module level variables of extension.js, the extension's
    [globalState], the activations of the two [async] functions that
    wait for a request to settle, the counters of the host oracles, and
    the two logs.  A suspended [saveSession] is its session, paired with
    whether its request was issued. *)
Record State := mkState {
  activeSession : option Session.t;
  lastActivityTime : option Z;
  activityCheckInterval : option Z;
  uploadInterval : option Z;
  isTracking : bool;
  pendingUpload : bool;
  uploadRetryCount : Z;
  offlineSessions : StorageService.Memento;
  pendingSaves : list (Session.t * bool);
  suspendedDrain : option DrainFrame;
  clockReads : nat;
  uuids : nat;
  trace : list Effect;
  history : list Lifecycle
}.

Definition initial : State :=
  mkState None None None None false false 0 [] [] None 0 0 [] [].

Definition set_activeSession (v : option Session.t) (s : State) : State :=
  mkState v s.(lastActivityTime) s.(activityCheckInterval)
    s.(uploadInterval) s.(isTracking) s.(pendingUpload)
    s.(uploadRetryCount) s.(offlineSessions) s.(pendingSaves)
    s.(suspendedDrain) s.(clockReads) s.(uuids) s.(trace) s.(history).

Definition set_lastActivityTime (v : option Z) (s : State) : State :=
  mkState s.(activeSession) v s.(activityCheckInterval) s.(uploadInterval)
    s.(isTracking) s.(pendingUpload) s.(uploadRetryCount)
    s.(offlineSessions) s.(pendingSaves) s.(suspendedDrain) s.(clockReads)
    s.(uuids) s.(trace) s.(history).

Definition set_activityCheckInterval (v : option Z) (s : State) : State :=
  mkState s.(activeSession) s.(lastActivityTime) v s.(uploadInterval)
    s.(isTracking) s.(pendingUpload) s.(uploadRetryCount)
    s.(offlineSessions) s.(pendingSaves) s.(suspendedDrain) s.(clockReads)
    s.(uuids) s.(trace) s.(history).

Definition set_uploadInterval (v : option Z) (s : State) : State :=
  mkState s.(activeSession) s.(lastActivityTime) s.(activityCheckInterval)
    v s.(isTracking) s.(pendingUpload) s.(uploadRetryCount)
    s.(offlineSessions) s.(pendingSaves) s.(suspendedDrain) s.(clockReads)
    s.(uuids) s.(trace) s.(history).

Definition set_isTracking (v : bool) (s : State) : State :=
  mkState s.(activeSession) s.(lastActivityTime) s.(activityCheckInterval)
    s.(uploadInterval) v s.(pendingUpload) s.(uploadRetryCount)
    s.(offlineSessions) s.(pendingSaves) s.(suspendedDrain) s.(clockReads)
    s.(uuids) s.(trace) s.(history).

Definition set_pendingUpload (v : bool) (s : State) : State :=
  mkState s.(activeSession) s.(lastActivityTime) s.(activityCheckInterval)
    s.(uploadInterval) s.(isTracking) v s.(uploadRetryCount)
    s.(offlineSessions) s.(pendingSaves) s.(suspendedDrain) s.(clockReads)
    s.(uuids) s.(trace) s.(history).

Definition set_uploadRetryCount (v : Z) (s : State) : State :=
  mkState s.(activeSession) s.(lastActivityTime) s.(activityCheckInterval)
    s.(uploadInterval) s.(isTracking) s.(pendingUpload) v
    s.(offlineSessions) s.(pendingSaves) s.(suspendedDrain) s.(clockReads)
    s.(uuids) s.(trace) s.(history).

Definition set_offlineSessions (v : StorageService.Memento) (s : State)
    : State :=
  mkState s.(activeSession) s.(lastActivityTime) s.(activityCheckInterval)
    s.(uploadInterval) s.(isTracking) s.(pendingUpload)
    s.(uploadRetryCount) v s.(pendingSaves) s.(suspendedDrain)
    s.(clockReads) s.(uuids) s.(trace) s.(history).

Definition set_pendingSaves (v : list (Session.t * bool)) (s : State)
    : State :=
  mkState s.(activeSession) s.(lastActivityTime) s.(activityCheckInterval)
    s.(uploadInterval) s.(isTracking) s.(pendingUpload)
    s.(uploadRetryCount) s.(offlineSessions) v s.(suspendedDrain)
    s.(clockReads) s.(uuids) s.(trace) s.(history).

Definition set_suspendedDrain (v : option DrainFrame) (s : State) : State :=
  mkState s.(activeSession) s.(lastActivityTime) s.(activityCheckInterval)
    s.(uploadInterval) s.(isTracking) s.(pendingUpload)
    s.(uploadRetryCount) s.(offlineSessions) s.(pendingSaves) v
    s.(clockReads) s.(uuids) s.(trace) s.(history).

Definition set_clockReads (v : nat) (s : State) : State :=
  mkState s.(activeSession) s.(lastActivityTime) s.(activityCheckInterval)
    s.(uploadInterval) s.(isTracking) s.(pendingUpload)
    s.(uploadRetryCount) s.(offlineSessions) s.(pendingSaves)
    s.(suspendedDrain) v s.(uuids) s.(trace) s.(history).

Definition set_uuids (v : nat) (s : State) : State :=
  mkState s.(activeSession) s.(lastActivityTime) s.(activityCheckInterval)
    s.(uploadInterval) s.(isTracking) s.(pendingUpload)
    s.(uploadRetryCount) s.(offlineSessions) s.(pendingSaves)
    s.(suspendedDrain) s.(clockReads) v s.(trace) s.(history).

Definition set_trace (v : list Effect) (s : State) : State :=
  mkState s.(activeSession) s.(lastActivityTime) s.(activityCheckInterval)
    s.(uploadInterval) s.(isTracking) s.(pendingUpload)
    s.(uploadRetryCount) s.(offlineSessions) s.(pendingSaves)
    s.(suspendedDrain) s.(clockReads) s.(uuids) v s.(history).

Definition set_history (v : list Lifecycle) (s : State) : State :=
  mkState s.(activeSession) s.(lastActivityTime) s.(activityCheckInterval)
    s.(uploadInterval) s.(isTracking) s.(pendingUpload)
    s.(uploadRetryCount) s.(offlineSessions) s.(pendingSaves)
    s.(suspendedDrain) s.(clockReads) s.(uuids) s.(trace) v.

(** *** The state monad of the handlers *)
Definition M (A : Type) : Type := State -> A * State.

Definition ret {A : Type} (a : A) : M A := fun s => (a, s).

Definition bind {A B : Type} (m : M A) (k : A -> M B) : M B :=
  fun s => let (a, s') := m s in k a s'.

Notation "x <- c ;; k" := (bind c (fun x => k))
  (at level 61, c at next level, right associativity).
Notation "c ;; k" := (bind c (fun _ => k))
  (at level 61, right associativity).

Definition gets {A : Type} (f : State -> A) : M A := fun s => (f s, s).
Definition modify (f : State -> State) : M unit := fun s => (tt, f s).
Definition skip : M unit := ret tt.

(** Final state of a computation. *)
Definition exec {A : Type} (m : M A) (s : State) : State := snd (m s).

Definition emit (e : Effect) : M unit :=
  modify (fun s => set_trace (s.(trace) ++ [e]) s).

Definition emit_all (es : list Effect) : M unit :=
  modify (fun s => set_trace (s.(trace) ++ es) s).

Definition record (e : Lifecycle) : M unit :=
  modify (fun s => set_history (s.(history) ++ [e]) s).

Section WithHost.
Variable host : Host.

(** [new Date()] *)
Definition newDate : M Z :=
  fun s => (clock host s.(clockReads),
            set_clockReads (S s.(clockReads)) s).

(** [uuidv4()] *)
Definition uuidv4 : M nat :=
  fun s => (s.(uuids), set_uuids (S s.(uuids)) s).

(** [shouldTrackDocument(document)]; [None] is a missing document. *)
Definition shouldTrackDocument (cfg : Config)
    (document : option Document) : M bool :=
  match document with
  | None => ret false
  | Some document =>
      if document.(isUntitled)
         || negb (String.eqb document.(scheme) "file")
      then ret false
      else
        let autoTrackEnabled := cfg.(Env.autoTrackEnabled) in
        if negb cfg.(Env.enabled) then ret false
        else
          tracking <- gets isTracking ;;
          if negb autoTrackEnabled && negb tracking then ret false
          else
            let filePath := document.(fsPath) in
            let projectName :=
              match document.(workspaceFolder) with
              | Some folder => basename host folder
              | None => "unknown"%string
              end in
            if existsb (String.eqb projectName)
                 cfg.(Env.excludedProjects)
            then ret false
            else if existsb (fun pattern => minimatch host filePath pattern)
                      cfg.(Env.excludedFiles)
            then ret false
            else ret true
  end.

(** The [sessionData] literal of [sendSession]. *)
Definition format_session (session : Session.t) (endTime : Z)
    : SessionData.t :=
  SessionData.mk
    session.(Session.language).(LanguageService.id)
    session.(Session.startTime)
    (Some endTime)
    session.(Session.duration)
    None None.

(** [sendSession(session)]: formats the record and hands it to
    [apiService.sendSession], which posts it.  The result tells whether
    the request was issued: [session.endTime.toISOString()] throws on a
    [null] end time, which rejects the promise without a request. *)
Definition sendSession (session : Session.t) : M bool :=
  match session.(Session.endTime) with
  | None => ret false
  | Some endTime =>
      let sessionData := format_session session endTime in
      emit (HttpPostSession sessionData) ;;
      ret true
  end.

(** [saveSession(session)], up to its [await sendSession(session)],
    where the activation is suspended. *)
Definition saveSession (session : Session.t) : M unit :=
  issued <- sendSession session ;;
  modify (fun s =>
    set_pendingSaves (s.(pendingSaves) ++ [(session, issued)]) s).

(** [storageService.addOfflineSession(session)] on [globalState]. *)
Definition addOfflineSession (session : Session.t) (update_ok : bool)
    : M unit :=
  g <- gets offlineSessions ;;
  let (g', notices) :=
    StorageService.addOfflineSession session update_ok g in
  modify (set_offlineSessions g') ;;
  emit_all notices.

(** The [catch] block of [saveSession]. *)
Definition saveSession_catch (session : Session.t) (update_ok : bool)
    : M unit :=
  addOfflineSession session update_ok ;;
  count <- gets (fun s =>
             StorageService.getOfflineSessionCount s.(offlineSessions)) ;;
  if count =? 1 then emit (ShowInformationMessage MsgSavedOffline)
  else skip.

(** [saveSession(session)], from the moment the send has settled. *)
Definition saveSession_resume (session : Session.t) (sent : Outcome)
    (update_ok : bool) : M unit :=
  match sent with
  | Fulfilled => skip
  | Rejected => saveSession_catch session update_ok
  end.

(** The two assignments of [endSession] to the session object:
    [endTime = now] and
    [duration = Math.floor((now - startTime) / 1000)]. *)
Definition stamp (a : Session.t) (now : Z) : Session.t :=
  Session.mk a.(Session.id) a.(Session.language)
    a.(Session.projectName) a.(Session.filePath)
    a.(Session.startTime)
    (Some now)
    ((now - a.(Session.startTime)) / 1000).

(** [endSession()] *)
Definition endSession (cfg : Config) : M unit :=
  active <- gets activeSession ;;
  match active with
  | None => skip
  | Some a =>
      now <- newDate ;;
      let closed := stamp a now in
      modify (set_activeSession (Some closed)) ;;
      record (Closed closed) ;;
      let minDuration := cfg.(Env.minSessionDuration) in
      (if closed.(Session.duration) >=? minDuration then
         saveSession closed ;;
         emit (ViewAddCompletedSession closed)
       else skip) ;;
      modify (set_activeSession None) ;;
      emit (ViewSetActiveSession None)
  end.

(** [startSession(document)] *)
Definition startSession (cfg : Config) (document : Document) : M unit :=
  active <- gets activeSession ;;
  (match active with
   | Some _ => endSession cfg
   | None => skip
   end) ;;
  let projectName :=
    match document.(workspaceFolder) with
    | Some folder => basename host folder
    | None => "unknown"%string
    end in
  let filePath := document.(fsPath) in
  let relativePath :=
    match document.(workspaceFolder) with
    | Some folder => relative host folder filePath
    | None => filePath
    end in
  let language := detectLanguage host filePath document.(languageId) in
  id <- uuidv4 ;;
  startTime <- newDate ;;
  let session :=
    Session.mk id language projectName relativePath startTime None 0 in
  modify (set_activeSession (Some session)) ;;
  record (Opened session) ;;
  emit (ViewSetActiveSession (Some session)).

(** [checkActivity(idleThresholdSeconds)].  The quotient
    [(now - lastActivityTime) / 1000] exceeds an integer threshold
    exactly when the difference exceeds a thousand times it. *)
Definition checkActivity (cfg : Config) (idleThresholdSeconds : Z)
    : M unit :=
  active <- gets activeSession ;;
  last <- gets lastActivityTime ;;
  match active, last with
  | Some _, Some lastActivity =>
      now <- newDate ;;
      if now - lastActivity >? idleThresholdSeconds * 1000
      then endSession cfg
      else skip
  | _, _ => skip
  end.

(** [onDocumentChange(event)] *)
Definition onDocumentChange (cfg : Config) (document : Document)
    : M unit :=
  tracking <- gets isTracking ;;
  if negb tracking then skip
  else
    now <- newDate ;;
    modify (set_lastActivityTime (Some now)) ;;
    active <- gets activeSession ;;
    match active with
    | Some _ => skip
    | None =>
        track <- shouldTrackDocument cfg (Some document) ;;
        if track then startSession cfg document else skip
    end.

(** [onEditorChange(editor)]; [None] is an undefined editor. *)
Definition onEditorChange (cfg : Config) (editor : option Document)
    : M unit :=
  tracking <- gets isTracking ;;
  match editor with
  | None => skip
  | Some document =>
      if negb tracking then skip
      else
        now <- newDate ;;
        modify (set_lastActivityTime (Some now)) ;;
        active <- gets activeSession ;;
        (match active with
         | Some _ => endSession cfg
         | None => skip
         end) ;;
        track <- shouldTrackDocument cfg (Some document) ;;
        if track then startSession cfg document else skip
  end.

(** [onWindowStateChange(state)]; [activeTextEditor] is the document of
    [vscode.window.activeTextEditor], if there is one. *)
Definition onWindowStateChange (cfg : Config) (focused : bool)
    (activeTextEditor : option Document) : M unit :=
  tracking <- gets isTracking ;;
  if negb tracking then skip
  else if focused then
    now <- newDate ;;
    modify (set_lastActivityTime (Some now)) ;;
    active <- gets activeSession ;;
    match active, activeTextEditor with
    | None, Some document =>
        track <- shouldTrackDocument cfg (Some document) ;;
        if track then startSession cfg document else skip
    | _, _ => skip
    end
  else
    active <- gets activeSession ;;
    match active with
    | Some _ => endSession cfg
    | None => skip
    end.

(** [setupUploadInterval(intervalSeconds)] *)
Definition setupUploadInterval (intervalSeconds : Z) : M unit :=
  current <- gets uploadInterval ;;
  (match current with
   | Some _ =>
       emit ClearIntervalUpload ;;
       modify (set_uploadInterval None)
   | None => skip
   end) ;;
  let intervalMs := intervalSeconds * 1000 in
  modify (set_uploadInterval (Some intervalMs)) ;;
  emit (SetIntervalUpload intervalMs).

(** [startTracking()] *)
Definition startTracking (cfg : Config)
    (activeTextEditor : option Document) : M unit :=
  tracking <- gets isTracking ;;
  if tracking then skip
  else if String.eqb cfg.(Env.apiKey) "" then
    emit (ShowWarningMessage MsgSetApiKeyFirst)
  else
    modify (set_isTracking true) ;;
    now <- newDate ;;
    modify (set_lastActivityTime (Some now)) ;;
    let idleThreshold := cfg.(Env.idleThreshold) in
    modify (set_activityCheckInterval (Some idleThreshold)) ;;
    emit (SetIntervalCheckActivity idleThreshold 10000) ;;
    setupUploadInterval cfg.(Env.uploadInterval) ;;
    (match activeTextEditor with
     | Some document =>
         track <- shouldTrackDocument cfg (Some document) ;;
         if track then startSession cfg document else skip
     | None => skip
     end) ;;
    emit UpdateStatusBar ;;
    emit (ShowInformationMessage MsgTrackerStarted).

(** [stopTracking()] *)
Definition stopTracking (cfg : Config) : M unit :=
  tracking <- gets isTracking ;;
  if negb tracking then skip
  else
    modify (set_isTracking false) ;;
    check <- gets activityCheckInterval ;;
    (match check with
     | Some _ =>
         emit ClearIntervalCheckActivity ;;
         modify (set_activityCheckInterval None)
     | None => skip
     end) ;;
    upload <- gets uploadInterval ;;
    (match upload with
     | Some _ =>
         emit ClearIntervalUpload ;;
         modify (set_uploadInterval None)
     | None => skip
     end) ;;
    active <- gets activeSession ;;
    (match active with
     | Some _ => endSession cfg
     | None => skip
     end) ;;
    emit UpdateStatusBar ;;
    emit (ShowInformationMessage MsgTrackerStopped).

(** [setIdleThreshold()], from the moment the new value is stored in the
    settings: the running idle timer is replaced by one that holds the new
    threshold. *)
Definition setIdleThreshold (newThreshold : Z) : M unit :=
  tracking <- gets isTracking ;;
  check <- gets activityCheckInterval ;;
  (match check with
   | Some _ =>
       if tracking then
         emit ClearIntervalCheckActivity ;;
         modify (set_activityCheckInterval (Some newThreshold)) ;;
         emit (SetIntervalCheckActivity newThreshold 10000)
       else skip
   | None => skip
   end) ;;
  emit (ShowInformationMessage (MsgIdleThresholdUpdated newThreshold)).

(** [setUploadInterval()], from the moment the new value is stored. *)
Definition setUploadInterval (newInterval : Z) : M unit :=
  tracking <- gets isTracking ;;
  (if tracking then setupUploadInterval newInterval else skip) ;;
  emit (ShowInformationMessage (MsgUploadIntervalUpdated newInterval)).

(** [toggleAutoTracking()], from the moment the flipped value is stored;
    [currentAutoTrack] is the value read before the flip, [cfg] the
    configuration after it. *)
Definition toggleAutoTracking (cfg : Config) (currentAutoTrack : bool)
    (activeTextEditor : option Document) : M unit :=
  if negb currentAutoTrack then
    emit (ShowInformationMessage MsgAutoTrackingEnabled) ;;
    tracking <- gets isTracking ;;
    match activeTextEditor with
    | Some document =>
        if tracking then
          track <- shouldTrackDocument cfg (Some document) ;;
          if track then startSession cfg document else skip
        else skip
    | None => skip
    end
  else
    emit (ShowInformationMessage MsgAutoTrackingDisabled) ;;
    active <- gets activeSession ;;
    match active with
    | Some _ => endSession cfg
    | None => skip
    end.

(** The record that [sendOfflineSessions] builds from a stored
    session. *)
Definition format_offline (session : OfflineSession.t) : SessionData.t :=
  SessionData.mk
    session.(OfflineSession.language).(LanguageService.id)
    session.(OfflineSession.startTime)
    session.(OfflineSession.endTime)
    session.(OfflineSession.duration)
    None None.

(** [apiService.sendBatchSessions(sessions)], up to its request. *)
Definition sendBatchSessions (sessions : list SessionData.t) : M unit :=
  let groupedSessions :=
    ApiService.groupSessionsByLanguage (zone host) sessions in
  emit (HttpPostBatch groupedSessions).

(** [sendOfflineSessions()], up to
    [await apiService.sendBatchSessions(formattedSessions)].  The
    result is the suspended activation, or [None] when the function
    returned.  Every [return] inside the [try] passes through the
    [finally]. *)
Definition sendOfflineSessions_start (cfg : Config)
    : M (option DrainFrame) :=
  has <- gets (fun s =>
           StorageService.hasOfflineSessions s.(offlineSessions)) ;;
  pending <- gets pendingUpload ;;
  if negb has || pending then ret None
  else
    modify (set_pendingUpload true) ;;
    if String.eqb cfg.(Env.apiKey) "" then
      modify (set_pendingUpload false) ;;
      modify (set_pendingUpload false) ;;
      ret None
    else
      totalSessions <- gets (fun s =>
        StorageService.getOfflineSessionCount s.(offlineSessions)) ;;
      let batchSize := cfg.(Env.uploadBatchSize) in
      let batchSize := if totalSessions >? 100 then 50 else batchSize in
      let batchSize := if totalSessions >? 500 then 100 else batchSize in
      sessionsToSend <- gets (fun s =>
        StorageService.getOfflineSessions (Some batchSize)
          s.(offlineSessions)) ;;
      if Z.of_nat (length sessionsToSend) =? 0 then
        modify (set_pendingUpload false) ;;
        modify (set_pendingUpload false) ;;
        ret None
      else
        let formattedSessions := map format_offline sessionsToSend in
        sendBatchSessions formattedSessions ;;
        ret (Some (mkDrainFrame sessionsToSend totalSessions batchSize)).

(** [storageService.removeOfflineSessions(count)] on [globalState]. *)
Definition removeOfflineSessions (count : Z) (update_ok : bool)
    : M unit :=
  modify (fun s =>
    set_offlineSessions
      (StorageService.removeOfflineSessions count update_ok
         s.(offlineSessions)) s).

(** [sendOfflineSessions()], from the moment the batch request has
    settled: the rest of the [try] when it was fulfilled, the [catch]
    when it was rejected, and the [finally]. *)
Definition sendOfflineSessions_resume (frame : DrainFrame)
    (sent : Outcome) (update_ok : bool) : M unit :=
  let totalSessions := frame.(totalSessions) in
  let batchSize := frame.(batchSize) in
  (match sent with
   | Fulfilled =>
       removeOfflineSessions
         (Z.of_nat (length frame.(sessionsToSend))) update_ok ;;
       (if totalSessions >? 100 then
          remaining <- gets (fun s =>
            StorageService.getOfflineSessionCount s.(offlineSessions)) ;;
          emit (SetStatusBarMessage remaining)
        else skip) ;;
       has <- gets (fun s =>
                StorageService.hasOfflineSessions s.(offlineSessions)) ;;
       (if has then
          let delay :=
            Z.min (Z.max 500 (if totalSessions >? 1000 then 500 else 2000))
                  5000 in
          emit (SetTimeoutDrain delay)
        else if totalSessions >=? batchSize then
          emit (ShowInformationMessage (MsgSynced totalSessions))
        else skip) ;;
       modify (set_uploadRetryCount 0)
   | Rejected =>
       retries <- gets uploadRetryCount ;;
       if retries <? 5 then
         modify (set_uploadRetryCount (retries + 1)) ;;
         emit (SetTimeoutDrain (1000 * 2 ^ (retries + 1)))
       else
         modify (set_uploadRetryCount 0)
   end) ;;
  modify (set_pendingUpload false).

(** One whole drain: the start and, if it suspended, the resumption
    with the outcome of the batch request. *)
Definition sendOfflineSessions (cfg : Config) (sent : Outcome)
    (update_ok : bool) : M unit :=
  frame <- sendOfflineSessions_start cfg ;;
  match frame with
  | Some frame => sendOfflineSessions_resume frame sent update_ok
  | None => skip
  end.

(** *** The event loop

    What the host can deliver to the extension: editor and window
    events, the commands (start, stop and the three settings commands that
    act on the tracker), the idle timer, a call of
    [sendOfflineSessions] (by the upload interval, a timeout, the
    activation or a new API key), and the settling of the batch request
    or of the [n]-th pending single send.  Each arrives with the
    configuration in force at that moment. *)
Inductive Event :=
| DocumentChange (document : Document)
| EditorChange (editor : option Document)
| WindowStateChange (focused : bool) (activeTextEditor : option Document)
| StartTracking (activeTextEditor : option Document)
| StopTracking
| SetIdleThreshold (newThreshold : Z)
| SetUploadInterval (newInterval : Z)
| ToggleAutoTracking (currentAutoTrack : bool)
    (activeTextEditor : option Document)
| ActivityTimer
| DrainTimer
| BatchSettled (sent : Outcome) (update_ok : bool)
| SaveSettled (n : nat) (sent : Outcome) (update_ok : bool).

Definition remove_nth {A : Type} (n : nat) (l : list A) : list A :=
  firstn n l ++ skipn (S n) l.

Definition handle (cfg : Config) (ev : Event) : M unit :=
  match ev with
  | DocumentChange document => onDocumentChange cfg document
  | EditorChange editor => onEditorChange cfg editor
  | WindowStateChange focused editor =>
      onWindowStateChange cfg focused editor
  | StartTracking editor => startTracking cfg editor
  | StopTracking => stopTracking cfg
  | SetIdleThreshold newThreshold => setIdleThreshold newThreshold
  | SetUploadInterval newInterval => setUploadInterval newInterval
  | ToggleAutoTracking currentAutoTrack editor =>
      toggleAutoTracking cfg currentAutoTrack editor
  | ActivityTimer =>
      check <- gets activityCheckInterval ;;
      match check with
      | Some idleThreshold => checkActivity cfg idleThreshold
      | None => skip
      end
  | DrainTimer =>
      frame <- sendOfflineSessions_start cfg ;;
      match frame with
      | Some frame => modify (set_suspendedDrain (Some frame))
      | None => skip
      end
  | BatchSettled sent update_ok =>
      suspended <- gets suspendedDrain ;;
      match suspended with
      | Some frame =>
          modify (set_suspendedDrain None) ;;
          sendOfflineSessions_resume frame sent update_ok
      | None => skip
      end
  | SaveSettled n sent update_ok =>
      pending <- gets pendingSaves ;;
      match nth_error pending n with
      | Some (session, issued) =>
          modify (set_pendingSaves (remove_nth n pending)) ;;
          saveSession_resume session
            (if issued then sent else Rejected) update_ok
      | None => skip
      end
  end.

Definition step (s : State) (ce : Config * Event) : State :=
  exec (handle (fst ce) (snd ce)) s.

Definition run (events : list (Config * Event)) (s : State) : State :=
  fold_left step events s.

End WithHost.

End Extension.

(** ** viewProvider.js *)
Module SummaryView.
Import JSDate.

(** The fields of the provider that hold sessions. *)
Record t := mk {
  activeSession : option Session.t;
  completedSessions : list Session.t;
  todaysSessions : list Session.t;
  weekSessions : list Session.t
}.

Definition empty : t := mk None [] [] [].

(** [setActiveSession(session)] *)
Definition setActiveSession (session : option Session.t) (v : t) : t :=
  mk session v.(completedSessions) v.(todaysSessions) v.(weekSessions).

(** [addCompletedSession(session)]; [now] is the value of its
    [new Date()].  [unshift] adds at the front, [pop] removes the last
    element. *)
Definition addCompletedSession (zone : TimeZone) (now : Z)
    (session : Session.t) (v : t) : t :=
  let completedSessions := session :: v.(completedSessions) in
  let completedSessions :=
    if Z.of_nat (length completedSessions) >? 10
    then removelast completedSessions
    else completedSessions in
  let today := setHours zone now 0 0 0 0 in
  let sessionDate := ApiService.newDate session.(Session.endTime) in
  let todaysSessions :=
    if sessionDate >=? today
    then v.(todaysSessions) ++ [session]
    else v.(todaysSessions) in
  let weekStart := Utils.getWeekStart zone today in
  let weekSessions :=
    if sessionDate >=? weekStart
    then v.(weekSessions) ++ [session]
    else v.(weekSessions) in
  mk v.(activeSession) completedSessions todaysSessions weekSessions.

(** [calculateTotalDuration(sessions)]: a [reduce] from the left. *)
Definition calculateTotalDuration (sessions : list Session.t) : Z :=
  fold_left (fun total session => total + session.(Session.duration))
    sessions 0.

(** An entry of the per-language summary. *)
Record Group := mkGroup {
  language : LanguageService.Language;
  duration : Z
}.

(** The [Map] from language id to group, in insertion order. *)
Definition GroupMap : Type := list (Z * Group).

Fixpoint map_get (m : GroupMap) (k : Z) : option Group :=
  match m with
  | [] => None
  | (k', v) :: rest => if k' =? k then Some v else map_get rest k
  end.

Definition map_has (m : GroupMap) (k : Z) : bool :=
  match map_get m k with
  | Some _ => true
  | None => false
  end.

Fixpoint map_set (m : GroupMap) (k : Z) (v : Group) : GroupMap :=
  match m with
  | [] => [(k, v)]
  | (k', v') :: rest =>
      if k' =? k then (k', v) :: rest else (k', v') :: map_set rest k v
  end.

(** [Array.prototype.sort(compare)]: the stable ordering by a comparator
    whose negative result puts its first argument first.  Every element is
    inserted into the sorted remainder of the array, before the first
    element it does not have to follow. *)
Fixpoint insert {A : Type} (compare : A -> A -> Z) (x : A) (l : list A)
    : list A :=
  match l with
  | [] => [x]
  | y :: rest =>
      if compare x y <=? 0 then x :: y :: rest
      else y :: insert compare x rest
  end.

Definition sort {A : Type} (compare : A -> A -> Z) (l : list A) : list A :=
  fold_right (insert compare) [] l.

(** One iteration of the loop of the view's [groupSessionsByLanguage]. *)
Definition group_step (groups : GroupMap) (session : Session.t) : GroupMap :=
  let key := session.(Session.language).(LanguageService.id) in
  let groups :=
    if negb (map_has groups key)
    then map_set groups key (mkGroup session.(Session.language) 0)
    else groups in
  match map_get groups key with
  | None => groups
  | Some group =>
      map_set groups key
        (mkGroup group.(language)
           (group.(duration) + session.(Session.duration)))
  end.

(** [groupSessionsByLanguage(sessions)] of the view: the groups in
    descending order of duration. *)
Definition groupSessionsByLanguage (sessions : list Session.t)
    : list Group :=
  sort (fun a b => b.(duration) - a.(duration))
    (map snd (fold_left group_step sessions [])).

End SummaryView.

(* ===================================================================== *)
(** * Part II: vocabulary of the statements *)
(* ===================================================================== *)

(** ** Vocabulary of the statements about local time *)
Module LocalClock.
Import JSDate.

(** The day number of the Monday of the week of the local time [t]. *)
Definition monday (t : Z) : Z := Day t - (WeekDay t + 6) mod 7.

(** A clock of the host shows the local time [t]: read as an instant and
    shown again, it is [t].  A clock change that moves the clocks forward
    skips the local times in between, and no clock shows them. *)
Definition on_the_clock (zone : TimeZone) (t : Z) : Prop :=
  LocalTime zone (UTC zone t) = t.

(** The host keeps the local time [t] on its calendar day, whatever time
    of day it shows for it. *)
Definition keeps_day (zone : TimeZone) (t : Z) : Prop :=
  Day (LocalTime zone (UTC zone t)) = Day t.

End LocalClock.

(** ** Vocabulary of the statements about grouping *)
Module Grouping.
Import ApiService.

(** The key under which a group record was filed, read back from it. *)
Definition group_key (g : SessionData.t) : Key :=
  (g.(SessionData.language_id), g.(SessionData.start_time)).

(** The sessions of a list that fall in the partition [k], in input
    order. *)
Definition members (zone : JSDate.TimeZone) (k : Key)
    (sessions : list SessionData.t) : list SessionData.t :=
  filter (fun s => key_eqb (session_key zone s) k) sessions.

Definition total_duration (l : list SessionData.t) : Z :=
  fold_right (fun s acc => s.(SessionData.duration) + acc) 0 l.

(** The same session with other project and path labels. *)
Definition with_labels (s : SessionData.t)
    (project path : option string) : SessionData.t :=
  SessionData.mk
    s.(SessionData.language_id) s.(SessionData.start_time)
    s.(SessionData.end_time) s.(SessionData.duration)
    project path.

End Grouping.

(** ** Vocabulary of the statements about the tracker and the queue *)
Module Observe.
Import Env Extension.

(** The identifiers of the sessions that a life cycle log leaves open:
    opened and not closed since. *)
Definition open_after (opened : list nat) (e : Lifecycle) : list nat :=
  match e with
  | Opened s => opened ++ [Session.id s]
  | Closed s => remove Nat.eq_dec (Session.id s) opened
  end.

Definition open_sessions (h : list Lifecycle) : list nat :=
  fold_left open_after h [].

(** The delays of the [setTimeout(sendOfflineSessions, delay)] calls of a
    trace, in order. *)
Definition timeouts (t : list Effect) : list Z :=
  flat_map (fun e => match e with
                     | SetTimeoutDrain delay => [delay]
                     | _ => []
                     end) t.

(** The payloads of the single-session requests of a trace. *)
Definition posted_sessions (t : list Effect) : list SessionData.t :=
  flat_map (fun e => match e with
                     | HttpPostSession d => [d]
                     | _ => []
                     end) t.

(** The payloads of the batch requests of a trace. *)
Definition posted_batches (t : list Effect) : list (list SessionData.t) :=
  flat_map (fun e => match e with
                     | HttpPostBatch groups => [groups]
                     | _ => []
                     end) t.

(** [n] drains in a row, each with a rejected batch request. *)
Fixpoint failed_drains (host : Host) (cfg : Config) (n : nat) (s : State)
    : State :=
  match n with
  | O => s
  | S n' =>
      failed_drains host cfg n'
        (exec (sendOfflineSessions host cfg Rejected true) s)
  end.

End Observe.

(** ** Invariant of the grouping loop *)
Section GroupingInvariant.
Import ApiService Grouping.

(** What a group record is, relative to the sessions seen so far. *)
Definition summarises (zone : JSDate.TimeZone)
    (seen : list SessionData.t) (k : Key) (g : SessionData.t) : Prop :=
  let ms := members zone k seen in
  group_key g = k /\
  g.(SessionData.duration) = total_duration ms /\
  In g.(SessionData.end_time) (map SessionData.end_time ms) /\
  Forall (fun s => newDate s.(SessionData.end_time)
                   <= newDate g.(SessionData.end_time)) ms /\
  exists f rest, ms = f :: rest /\
    g.(SessionData.project_name)
      = Some (or_default f.(SessionData.project_name) "Unknown") /\
    g.(SessionData.file_path)
      = Some (or_default f.(SessionData.file_path) "").

Definition map_inv (zone : JSDate.TimeZone)
    (seen : list SessionData.t) (m : SessionMap) : Prop :=
  NoDup (map fst m) /\
  forall k,
    match map_get m k with
    | Some g => summarises zone seen k g
    | None => members zone k seen = []
    end.

End GroupingInvariant.
(** ** Hoare triples over the handler monad, and the invariants *)
Section Triples.
Import Env Extension Observe.

(** *** Hoare triples over the handler monad *)
Definition hoare {A : Type} (P : State -> Prop) (m : M A)
    (Q : A -> State -> Prop) : Prop :=
  forall s, P s -> Q (fst (m s)) (snd (m s)).

(** A computation keeps [I] when it is a triple from [I] to [I]. *)
Definition keeps {A : Type} (I : State -> Prop) (m : M A) : Prop :=
  hoare I m (fun _ => I).

(** *** The tracker invariant *)
Definition active_ids (s : State) : list nat :=
  match activeSession s with
  | Some a => [Session.id a]
  | None => []
  end.

Definition tracker_inv (s : State) : Prop :=
  open_sessions (history s) = active_ids s.

(** A state change that touches neither [activeSession] nor [history]. *)
Definition tracker_frame (f : State -> State) : Prop :=
  forall s, activeSession (f s) = activeSession s
            /\ history (f s) = history s.

(** The batch size that [sendOfflineSessions] settles on. *)
Definition escalated (cfg : Config) (total : Z) : Z :=
  let batchSize := uploadBatchSize cfg in
  let batchSize := if total >? 100 then 50 else batchSize in
  if total >? 500 then 100 else batchSize.

(** When a call of [sendOfflineSessions] reaches its request. *)
Definition drain_ready (cfg : Config) (s : State) : Prop :=
  StorageService.hasOfflineSessions (offlineSessions s) = true /\
  pendingUpload s = false /\
  apiKey cfg <> ""%string /\
  StorageService.getOfflineSessions
    (Some (escalated cfg
             (StorageService.getOfflineSessionCount (offlineSessions s))))
    (offlineSessions s) <> [].

Definition drain_frame (cfg : Config) (s : State) : DrainFrame :=
  let total := StorageService.getOfflineSessionCount (offlineSessions s) in
  mkDrainFrame
    (StorageService.getOfflineSessions (Some (escalated cfg total))
       (offlineSessions s))
    total (escalated cfg total).

End Triples.
(** ** Concrete time zones for examples *)
Module Zones.
Import JSDate.

(** US Eastern time around 12 March 2023: at 07:00 UTC the clocks go from
    02:00 (UTC-5) to 03:00 (UTC-4). *)
Definition eastern : TimeZone :=
  transition 1678604400000 (-5 * msPerHour) (-4 * msPerHour).

(** Tehran time around 22 March 2010, a Monday: at 20:30 UTC of the Sunday
    the clocks go from 00:00 (UTC+3:30) to 01:00 (UTC+4:30). *)
Definition tehran : TimeZone :=
  transition 1269203400000 (3 * msPerHour + 30 * msPerMinute)
    (4 * msPerHour + 30 * msPerMinute).

End Zones.

(** ** Concrete values for examples *)
Module Demo.
Import Env Extension.
Local Open Scope string_scope.

Definition javascript : LanguageService.Language :=
  LanguageService.mkLanguage 1 "JavaScript" "#f7df1e".

(** A host whose clock advances one second per reading, in UTC. *)
Definition host : Host :=
  mkHost (fun n => 1000 * Z.of_nat n) (JSDate.fixed 0)
    (fun folder => folder) (fun _ path => path) (fun _ _ => false)
    (fun _ _ => javascript).

Definition cfg : Config := mkConfig "key" true true 120 300 10 5 [] [].

Definition document : Document :=
  mkDocument false "file" "/work/app/main.js" (Some "/work/app")
    "javascript".

(** A session opened at the epoch, and the same session closed after half
    an hour. *)
Definition open_session : Session.t :=
  Session.mk 0 javascript "app" "main.js" 0 None 0.

Definition closed_session : Session.t :=
  Session.mk 0 javascript "app" "main.js" 0 (Some 1800000) 1800.

(** Tracking, with [open_session] open and [reads] clock readings made. *)
Definition tracking (reads : nat) : State :=
  mkState (Some open_session) (Some 0) (Some 120) (Some 300000) true false
    0 [] [] None reads 1 [] [Opened open_session].

(** Idle, with one session in the offline queue. *)
Definition queued : State :=
  set_offlineSessions [StorageService.to_offline closed_session] initial.

(** Two sessions of the same language in the week of 2023-01-02. *)
Definition monday_session : SessionData.t :=
  SessionData.mk 1 1672650000000 (Some 1672650030000) 30 None None.

Definition tuesday_session : SessionData.t :=
  SessionData.mk 1 1672740000000 (Some 1672740045000) 45
    (Some "app") (Some "main.js").

End Demo.
(** ** Further invariants of the event loop *)
Section EventVocabulary.
Import Env Extension Observe.

Definition timers_follow_tracking (s : State) : Prop :=
  (isTracking s = false ->
   activeSession s = None /\ activityCheckInterval s = None
   /\ uploadInterval s = None) /\
  (isTracking s = true ->
   activityCheckInterval s <> None /\ uploadInterval s <> None
   /\ lastActivityTime s <> None).

(** Number of batch settlements among the events. *)
Definition batch_settlements (events : list (Config * Event)) : nat :=
  length (filter (fun ce => match snd ce with
                            | BatchSettled _ _ => true
                            | _ => false
                            end) events).

Definition in_flight (s : State) : nat :=
  match suspendedDrain s with
  | Some _ => 1
  | None => 0
  end.

Definition drain_flag_inv (s : State) : Prop :=
  pendingUpload s = true <-> suspendedDrain s <> None.

(** A request that carries no project name and no file path of the
    user: absent in a single record, the defaults in a group. *)
Definition label_free (e : Effect) : Prop :=
  match e with
  | HttpPostSession d =>
      SessionData.project_name d = None /\ SessionData.file_path d = None
  | HttpPostBatch groups =>
      Forall (fun g =>
        SessionData.project_name g = Some "Unknown"%string /\
        SessionData.file_path g = Some ""%string) groups
  | _ => True
  end.

(** The session of a life cycle entry. *)
Definition session_of (e : Lifecycle) : Session.t :=
  match e with
  | Opened s => s
  | Closed s => s
  end.

Definition avoids_projects (excluded : list string) (s : State) : Prop :=
  (forall a, activeSession s = Some a
             -> ~ In (Session.projectName a) excluded) /\
  Forall (fun e => ~ In (Session.projectName (session_of e)) excluded)
    (history s).

(** Sessions that passed the minimum duration [m]. *)
Definition long_enough (m : Z) (s : State) : Prop :=
  Forall (fun e => match e with
                   | HttpPostSession d => m <= SessionData.duration d
                   | _ => True
                   end) (trace s) /\
  Forall (fun p => m <= Session.duration (fst p)) (pendingSaves s) /\
  Forall (fun o => m <= OfflineSession.duration o) (offlineSessions s).

Definition editor_event (ev : Event) : Prop :=
  match ev with
  | DocumentChange _ | EditorChange _ | WindowStateChange _ _
  | ActivityTimer | StopTracking => True
  | _ => False
  end.

End EventVocabulary.

(** ** Further vocabulary of grouping *)
Section GroupingVocabulary.
Import ApiService Grouping.

(** A record that grouping would produce for itself alone. *)
Definition settled (zone : JSDate.TimeZone) (g : SessionData.t) : Prop :=
  session_key zone g = group_key g /\
  exists p f,
    SessionData.project_name g = Some p /\ p <> ""%string /\
    SessionData.file_path g = Some f.

End GroupingVocabulary.

(** ** Vocabulary of the summary view *)
Section ViewVocabulary.
Import SummaryView.

(** The provider after a series of [addCompletedSession] calls, each with
    the time of the call. *)
Definition add_all (zone : JSDate.TimeZone) (calls : list (Z * Session.t))
    (v : t) : t :=
  fold_left (fun v call => addCompletedSession zone (fst call) (snd call) v)
    calls v.

(** Sum of the durations of the groups of a summary. *)
Definition groups_total (l : list Group) : Z :=
  fold_right (fun g acc => duration g + acc) 0 l.

(** The sessions of a language, in input order. *)
Definition of_language (k : Z) (sessions : list Session.t)
    : list Session.t :=
  filter (fun s => LanguageService.id (Session.language s) =? k) sessions.

Definition descending (a b : Group) : Prop := duration b <= duration a.

Definition sessions_total (l : list Session.t) : Z :=
  fold_right (fun s acc => Session.duration s + acc) 0 l.

Definition view_inv (seen : list Session.t) (m : GroupMap) : Prop :=
  NoDup (map fst m) /\
  forall k,
    match map_get m k with
    | Some g =>
        LanguageService.id (language g) = k /\
        duration g = sessions_total (of_language k seen) /\
        of_language k seen <> []
    | None => of_language k seen = []
    end.

End ViewVocabulary.

(** ** Vocabulary of language detection *)
Section LanguageVocabulary.
Import LanguageService.

(** The language that [detectLanguage] makes up when nothing matches. *)
Definition unknown_language (languageId : string) : Language :=
  mkLanguage 0
    (if String.eqb languageId "" then "Unknown"%string else languageId)
    "#cccccc".

(** The last language of a list whose lower-cased name is [key]. *)
Definition last_named (toLowerCase : string -> string) (key : string)
    (languages : list Language) : option Language :=
  find (fun l => String.eqb (toLowerCase (name l)) key) (rev languages).

End LanguageVocabulary.

(** ** Concrete runs for examples *)
Module Scenario.
Import Env Extension.
Local Open Scope string_scope.

(** Tracking is started on a document and the editor then shows it. *)
Definition events : list (Config * Event) :=
  [(Demo.cfg, StartTracking (Some Demo.document));
   (Demo.cfg, EditorChange (Some Demo.document))].

(** The configuration of [Demo.cfg] with the project of [Demo.document]
    excluded. *)
Definition private_cfg : Config :=
  mkConfig "key" true true 120 300 10 5 ["/work/app"] [].

Definition private_events : list (Config * Event) :=
  [(private_cfg, StartTracking (Some Demo.document));
   (private_cfg, EditorChange (Some Demo.document))].

(** A host like [Demo.host] whose clock advances ten seconds per
    reading. *)
Definition slow_host : Host :=
  mkHost (fun n => 10000 * Z.of_nat n) (JSDate.fixed 0)
    (fun folder => folder) (fun _ path => path) (fun _ _ => false)
    (fun _ _ => Demo.javascript).

(** A session is opened, closed by [stopTracking], and its send is
    rejected. *)
Definition rejected_events : list (Config * Event) :=
  [(Demo.cfg, StartTracking (Some Demo.document));
   (Demo.cfg, StopTracking);
   (Demo.cfg, SaveSettled 0 Rejected true)].


(** The drain of [Demo.queued] at its request, and the state it leaves. *)
Definition frame : DrainFrame := drain_frame Demo.cfg Demo.queued.

Definition in_flight_state : State :=
  snd (sendOfflineSessions_start Demo.host Demo.cfg Demo.queued).

Definition typescript : LanguageService.Language :=
  LanguageService.mkLanguage 2 "typescript" "#3178c6".

Definition shadow : LanguageService.Language :=
  LanguageService.mkLanguage 3 "typescript" "#000000".

End Scenario.

(* ===================================================================== *)
(** * Part III: properties *)
(* ===================================================================== *)

(** ** Calendar arithmetic and the week boundaries *)
Module DateFacts.
Import JSDate LocalClock.

Lemma DayFromYear_step y : DayFromYear (y + 1) = DayFromYear y + DaysInYear y.
Proof.
  unfold DayFromYear, DaysInYear.
  destruct (Z.eqb_spec (y mod 4) 0); destruct (Z.eqb_spec (y mod 100) 0);
  destruct (Z.eqb_spec (y mod 400) 0); cbn [negb];
  Z.div_mod_to_equations; lia.
Qed.

Lemma YearFromTime_spec t :
  TimeFromYear (YearFromTime t) <= t < TimeFromYear (YearFromTime t + 1).
Proof.
  unfold YearFromTime, TimeFromYear.
  set (y := 1970 + 400 * Day t / 146097).
  destruct (Z.leb_spec (msPerDay * DayFromYear (y + 1)) t);
  [| destruct (Z.leb_spec (msPerDay * DayFromYear y) t)].
  - split; [assumption|].
    subst y. unfold DayFromYear, Day, msPerDay in *.
    Z.div_mod_to_equations. lia.
  - split; [assumption|lia].
  - replace (y - 1 + 1) with y by lia. split; [|assumption].
    subst y. unfold DayFromYear, Day, msPerDay in *.
    Z.div_mod_to_equations. lia.
Qed.

Lemma MonthFromTime_range t : 0 <= MonthFromTime t <= 11.
Proof.
  unfold MonthFromTime.
  repeat match goal with
         | |- context [if ?c then _ else _] => destruct c
         end; lia.
Qed.

Lemma MakeDay_DateFromTime t d :
  MakeDay (YearFromTime t) (MonthFromTime t) (DateFromTime t + d) = Day t + d.
Proof.
  pose proof (MonthFromTime_range t) as Hm.
  unfold MakeDay, DateFromTime, DayWithinYear, InLeapYear.
  rewrite Z.div_small, Z.mod_small by lia.
  rewrite Z.add_0_r. lia.
Qed.

Lemma setDate_zone zone tv d :
  setDate zone tv (getDate zone tv + d)
  = UTC zone (LocalTime zone tv + d * msPerDay).
Proof.
  unfold setDate, getDate, MakeDate. rewrite MakeDay_DateFromTime.
  f_equal. unfold Day, TimeWithinDay, msPerDay.
  Z.div_mod_to_equations. lia.
Qed.

Lemma setHours_zone zone tv h m s ms :
  setHours zone tv h m s ms
  = UTC zone (Day (LocalTime zone tv) * msPerDay + MakeTime h m s ms).
Proof. reflexivity. Qed.

Lemma WeekDay_range t : 0 <= WeekDay t < 7.
Proof. unfold WeekDay. apply Z.mod_pos_bound. lia. Qed.

Lemma week_diff day :
  0 <= day < 7 ->
  (if day =? 0 then -6 else 1 - day) = - ((day + 6) mod 7).
Proof.
  intros H. destruct (Z.eqb_spec day 0) as [->|Hne]; [reflexivity|].
  replace (day + 6) with ((day - 1) + 1 * 7) by lia.
  rewrite Z.mod_add by lia. rewrite Z.mod_small by lia. lia.
Qed.

Lemma week_diff_range day :
  0 <= day < 7 -> -6 <= (if day =? 0 then -6 else 1 - day) <= 0.
Proof. intros H. destruct (Z.eqb_spec day 0); lia. Qed.

Lemma monday_shift t :
  t - (WeekDay t + 6) mod 7 * msPerDay
  = monday t * msPerDay + TimeWithinDay t.
Proof.
  unfold monday, Day, TimeWithinDay, msPerDay.
  generalize ((WeekDay t + 6) mod 7). intros k.
  Z.div_mod_to_equations. lia.
Qed.

Lemma Day_of_day m r : 0 <= r < msPerDay -> Day (m * msPerDay + r) = m.
Proof.
  intros H. unfold Day, msPerDay in *. Z.div_mod_to_equations. lia.
Qed.

Lemma TimeWithinDay_range t : 0 <= TimeWithinDay t < msPerDay.
Proof. unfold TimeWithinDay. apply Z.mod_pos_bound. reflexivity. Qed.

(** The week start on any host: the instant at which the host reads the
    local midnight of the Monday, provided it keeps the time of day of the
    date on that Monday's calendar day. *)
Lemma getWeekStart_zone zone d :
  let local := LocalTime zone d in
  keeps_day zone (monday local * msPerDay + TimeWithinDay local) ->
  Utils.getWeekStart zone d = UTC zone (monday local * msPerDay).
Proof.
  cbv zeta. intros Hk. unfold Utils.getWeekStart.
  rewrite setHours_zone. unfold getDay.
  rewrite (week_diff _ (WeekDay_range (LocalTime zone d))).
  rewrite setDate_zone.
  replace (LocalTime zone d
           + - ((WeekDay (LocalTime zone d) + 6) mod 7) * msPerDay)
    with (monday (LocalTime zone d) * msPerDay
          + TimeWithinDay (LocalTime zone d))
    by (rewrite <- monday_shift; ring).
  unfold keeps_day in Hk. rewrite Hk.
  rewrite Day_of_day by apply TimeWithinDay_range.
  unfold MakeTime. f_equal. ring.
Qed.

(** The week end on any host, likewise. *)
Lemma getWeekEnd_zone zone d :
  let local := LocalTime zone d in
  let m := monday local in
  keeps_day zone (m * msPerDay + TimeWithinDay local) ->
  on_the_clock zone (m * msPerDay) ->
  keeps_day zone ((m + 6) * msPerDay) ->
  Utils.getWeekEnd zone d
  = UTC zone ((m + 6) * msPerDay + MakeTime 23 59 59 999).
Proof.
  cbv zeta. intros Hk Hc Hs. unfold Utils.getWeekEnd.
  rewrite (getWeekStart_zone zone d Hk).
  rewrite setHours_zone, setDate_zone.
  unfold on_the_clock in Hc. rewrite Hc.
  replace (monday (LocalTime zone d) * msPerDay + 6 * msPerDay)
    with ((monday (LocalTime zone d) + 6) * msPerDay) by ring.
  unfold keeps_day in Hs. rewrite Hs.
  rewrite <- (Z.add_0_r ((monday (LocalTime zone d) + 6) * msPerDay)) at 1.
  rewrite Day_of_day by (unfold msPerDay; lia).
  reflexivity.
Qed.

Lemma on_the_clock_fixed tza t : on_the_clock (fixed tza) t.
Proof. unfold on_the_clock, LocalTime, UTC, fixed. cbn. lia. Qed.

Lemma keeps_day_fixed tza t : keeps_day (fixed tza) t.
Proof. unfold keeps_day. rewrite on_the_clock_fixed. reflexivity. Qed.

Lemma LocalTime_fixed tza t : LocalTime (fixed tza) t = t + tza.
Proof. reflexivity. Qed.

Lemma UTC_fixed tza t : UTC (fixed tza) t = t - tza.
Proof. reflexivity. Qed.

Lemma setDate_getDate tza tv d :
  setDate (fixed tza) tv (getDate (fixed tza) tv + d) = tv + d * msPerDay.
Proof.
  rewrite setDate_zone, UTC_fixed, LocalTime_fixed. lia.
Qed.

Lemma setHours_local tza tv h m s ms :
  LocalTime (fixed tza) (setHours (fixed tza) tv h m s ms) =
  Day (LocalTime (fixed tza) tv) * msPerDay + MakeTime h m s ms.
Proof. rewrite setHours_zone. apply on_the_clock_fixed. Qed.

Lemma getWeekStart_local tza date :
  LocalTime (fixed tza) (Utils.getWeekStart (fixed tza) date) =
  monday (LocalTime (fixed tza) date) * msPerDay.
Proof.
  rewrite getWeekStart_zone by apply keeps_day_fixed.
  apply on_the_clock_fixed.
Qed.

Lemma getWeekEnd_local tza date :
  LocalTime (fixed tza) (Utils.getWeekEnd (fixed tza) date) =
  LocalTime (fixed tza) (Utils.getWeekStart (fixed tza) date)
  + 6 * msPerDay + MakeTime 23 59 59 999.
Proof.
  rewrite getWeekEnd_zone
    by (try apply keeps_day_fixed; apply on_the_clock_fixed).
  rewrite getWeekStart_local.
  rewrite (on_the_clock_fixed tza). ring.
Qed.

Lemma fields_of_midnight m :
  WeekDay (m * msPerDay) = (m + 4) mod 7 /\
  HourFromTime (m * msPerDay) = 0 /\ MinFromTime (m * msPerDay) = 0 /\
  SecFromTime (m * msPerDay) = 0 /\ msFromTime (m * msPerDay) = 0.
Proof.
  unfold WeekDay, Day, HourFromTime, MinFromTime, SecFromTime, msFromTime,
    msPerDay, msPerHour, msPerMinute, msPerSecond.
  repeat split.
  - rewrite Z.div_mul by lia. reflexivity.
  - replace (m * 86400000) with (m * 24 * 3600000) by lia.
    rewrite Z.div_mul by lia. apply Z.mod_mul; lia.
  - replace (m * 86400000) with (m * 1440 * 60000) by lia.
    rewrite Z.div_mul by lia.
    replace (m * 1440) with (m * 24 * 60) by lia. apply Z.mod_mul; lia.
  - replace (m * 86400000) with (m * 86400 * 1000) by lia.
    rewrite Z.div_mul by lia.
    replace (m * 86400) with (m * 1440 * 60) by lia. apply Z.mod_mul; lia.
  - replace (m * 86400000) with (m * 86400 * 1000) by lia.
    apply Z.mod_mul; lia.
Qed.

Lemma fields_of_last_ms m :
  let t := m * msPerDay + MakeTime 23 59 59 999 in
  Day t = m /\
  HourFromTime t = 23 /\ MinFromTime t = 59 /\
  SecFromTime t = 59 /\ msFromTime t = 999.
Proof.
  unfold Day, HourFromTime, MinFromTime, SecFromTime, msFromTime, MakeTime,
    msPerDay, msPerHour, msPerMinute, msPerSecond. cbv zeta.
  repeat split.
  - Z.div_mod_to_equations; lia.
  - replace (m * 86400000 + (23 * 3600000 + 59 * 60000 + 59 * 1000 + 999))
      with ((m * 24 + 23) * 3600000 + 3599999) by lia.
    assert ((((m * 24 + 23) * 3600000 + 3599999) / 3600000) = m * 24 + 23)
      as -> by (Z.div_mod_to_equations; lia).
    Z.div_mod_to_equations; lia.
  - assert ((m * 86400000 + (23 * 3600000 + 59 * 60000 + 59 * 1000 + 999))
            / 60000 = m * 1440 + 1439)
      as -> by (Z.div_mod_to_equations; lia).
    Z.div_mod_to_equations; lia.
  - assert ((m * 86400000 + (23 * 3600000 + 59 * 60000 + 59 * 1000 + 999))
            / 1000 = m * 86400 + 86399)
      as -> by (Z.div_mod_to_equations; lia).
    Z.div_mod_to_equations; lia.
  - Z.div_mod_to_equations; lia.
Qed.

Lemma monday_of_week x :
  let m := x / msPerDay - ((x / msPerDay + 4) mod 7 + 6) mod 7 in
  (m + 4) mod 7 = 1 /\ m * msPerDay <= x < m * msPerDay + 7 * msPerDay.
Proof.
  unfold msPerDay. cbv zeta.
  set (q := x / 86400000).
  assert (Hq : 86400000 * q <= x < 86400000 * q + 86400000).
  { subst q. Z.div_mod_to_equations; lia. }
  clearbody q.
  set (w := (q + 4) mod 7).
  assert (Hw : 0 <= w < 7 /\ exists k, q + 4 = 7 * k + w).
  { subst w. split; [apply Z.mod_pos_bound; lia|].
    exists ((q + 4) / 7). apply Z.div_mod; lia. }
  clearbody w. destruct Hw as (Hw & k & Hk).
  assert (Hr : (w + 6) mod 7 = if w =? 0 then 6 else w - 1).
  { destruct (Z.eqb_spec w 0); [subst; reflexivity|].
    replace (w + 6) with ((w - 1) + 1 * 7) by lia.
    rewrite Z.mod_add by lia. apply Z.mod_small; lia. }
  rewrite Hr. split.
  - destruct (Z.eqb_spec w 0).
    + replace (q - 6 + 4) with (1 + (k - 1) * 7) by lia.
      rewrite Z.mod_add by lia. reflexivity.
    + replace (q - (w - 1) + 4) with (1 + k * 7) by lia.
      rewrite Z.mod_add by lia. reflexivity.
  - destruct (Z.eqb_spec w 0); lia.
Qed.

Lemma monday_spec x :
  (monday x + 4) mod 7 = 1 /\
  monday x * msPerDay <= x < monday x * msPerDay + 7 * msPerDay.
Proof. exact (monday_of_week x). Qed.

Lemma api_getWeekStart_eq zone d :
  ApiService.getWeekStart zone d = Utils.getWeekStart zone d.
Proof. unfold ApiService.getWeekStart, Utils.getWeekStart. reflexivity. Qed.

Lemma fields_of_monday zone ws m :
  LocalTime zone ws = m * msPerDay ->
  (m + 4) mod 7 = 1 ->
  getDay zone ws = 1 /\ getHours zone ws = 0 /\ getMinutes zone ws = 0 /\
  getSeconds zone ws = 0 /\ getMilliseconds zone ws = 0.
Proof.
  intros Hs Hm.
  destruct (fields_of_midnight m) as (Hwd & Hh & Hmi & Hse & Hms).
  unfold getDay, getHours, getMinutes, getSeconds, getMilliseconds.
  rewrite Hs, Hwd, Hm. repeat split; assumption.
Qed.

Lemma fields_of_sunday zone we m :
  LocalTime zone we = (m + 6) * msPerDay + MakeTime 23 59 59 999 ->
  (m + 4) mod 7 = 1 ->
  getDay zone we = 0 /\ getHours zone we = 23 /\ getMinutes zone we = 59 /\
  getSeconds zone we = 59 /\ getMilliseconds zone we = 999.
Proof.
  intros He Hm.
  pose proof (fields_of_last_ms (m + 6)) as Hl. cbv zeta in Hl.
  destruct Hl as (Hd' & Hh' & Hmi' & Hse' & Hms').
  unfold getDay, getHours, getMinutes, getSeconds, getMilliseconds.
  rewrite He. repeat split; try assumption.
  unfold WeekDay. rewrite Hd'.
  replace (m + 6 + 4) with ((m + 4) + 6) by ring.
  rewrite <- Zplus_mod_idemp_l, Hm. reflexivity.
Qed.

Lemma week_contract_local tza d ws we m :
  LocalTime (fixed tza) ws = m * msPerDay ->
  LocalTime (fixed tza) we
  = LocalTime (fixed tza) ws + 6 * msPerDay + MakeTime 23 59 59 999 ->
  (m + 4) mod 7 = 1 ->
  m * msPerDay <= LocalTime (fixed tza) d < m * msPerDay + 7 * msPerDay ->
  ws <= d < ws + 7 * msPerDay /\
  we = ws + 6 * msPerDay + MakeTime 23 59 59 999.
Proof.
  intros Hs He Hm Hb. rewrite !LocalTime_fixed in *. lia.
Qed.

(** Claim C5, as the code has it.  For every date [d] and every time
    zone of the host, the week start used by the queue's grouping
    ([ApiService.getWeekStart]) and the one used by the display side
    ([Utils.getWeekStart]) are the same time value.  Where the host keeps
    the time of day of [d] on the Monday of [d]'s week and its clocks show
    that Monday's midnight, the week start is that Monday at 00:00:00.000
    local time, the first of the seven local days that hold [d].  Where
    the host also keeps the following Sunday and its clocks show that
    Sunday's last millisecond, the week end is that Sunday at 23:59:59.999
    local time, six days after the Monday on the local clock; the time
    that elapses between the two is 6 days 23:59:59.999 less the change
    of the offset between them. *)
Theorem week_start_contract (zone : TimeZone) (d : Z) :
  let ws := ApiService.getWeekStart zone d in
  let we := Utils.getWeekEnd zone d in
  let local := LocalTime zone d in
  let m := monday local in
  ws = Utils.getWeekStart zone d /\
  (keeps_day zone (m * msPerDay + TimeWithinDay local) ->
   on_the_clock zone (m * msPerDay) ->
   (getDay zone ws = 1 /\ getHours zone ws = 0 /\ getMinutes zone ws = 0 /\
    getSeconds zone ws = 0 /\ getMilliseconds zone ws = 0) /\
   LocalTime zone ws <= local < LocalTime zone ws + 7 * msPerDay /\
   (keeps_day zone ((m + 6) * msPerDay) ->
    on_the_clock zone ((m + 6) * msPerDay + MakeTime 23 59 59 999) ->
    LocalTime zone we
    = LocalTime zone ws + 6 * msPerDay + MakeTime 23 59 59 999 /\
    (getDay zone we = 0 /\ getHours zone we = 23 /\
     getMinutes zone we = 59 /\ getSeconds zone we = 59 /\
     getMilliseconds zone we = 999) /\
    we - ws
    = 6 * msPerDay + MakeTime 23 59 59 999
      - (offsetAtUTC zone we - offsetAtUTC zone ws))).
Proof.
  cbv zeta. rewrite api_getWeekStart_eq.
  split; [reflexivity|].
  intros Hk Hc.
  destruct (monday_spec (LocalTime zone d)) as (Hm & Hb).
  assert (Hs : LocalTime zone (Utils.getWeekStart zone d)
               = monday (LocalTime zone d) * msPerDay).
  { rewrite (getWeekStart_zone zone d Hk). exact Hc. }
  split; [exact (fields_of_monday _ _ _ Hs Hm)|].
  split; [rewrite Hs; exact Hb|].
  intros Hk' Hc'.
  assert (He : LocalTime zone (Utils.getWeekEnd zone d)
               = (monday (LocalTime zone d) + 6) * msPerDay
                 + MakeTime 23 59 59 999).
  { rewrite (getWeekEnd_zone zone d Hk Hc Hk'). exact Hc'. }
  split; [rewrite He, Hs; ring|].
  split; [exact (fields_of_sunday _ _ _ He Hm)|].
  revert Hs He. unfold LocalTime.
  generalize (Utils.getWeekStart zone d) (Utils.getWeekEnd zone d).
  intros ws we Hs He. lia.
Qed.

End DateFacts.
(** ** Grouping of a batch *)
Module GroupingFacts.
Import JSDate ApiService Grouping.

Lemma key_eqb_eq a b : key_eqb a b = true <-> a = b.
Proof.
  destruct a as [a1 a2], b as [b1 b2]. unfold key_eqb. cbn.
  rewrite andb_true_iff, !Z.eqb_eq. split.
  - intros [-> ->]. reflexivity.
  - intros E. inversion E. auto.
Qed.

Lemma key_eqb_refl a : key_eqb a a = true.
Proof. apply key_eqb_eq. reflexivity. Qed.

Lemma key_eqb_neq a b : a <> b -> key_eqb a b = false.
Proof.
  intros H. destruct (key_eqb a b) eqn:E; [|reflexivity].
  apply key_eqb_eq in E. contradiction.
Qed.

Lemma key_eq_dec (a b : Key) : {a = b} + {a <> b}.
Proof.
  destruct (key_eqb a b) eqn:E.
  - left. apply key_eqb_eq. exact E.
  - right. intros H. apply key_eqb_eq in H. congruence.
Qed.

Lemma map_get_set_same m k v : map_get (map_set m k v) k = Some v.
Proof.
  induction m as [|[k' v'] m IH]; cbn.
  - rewrite key_eqb_refl. reflexivity.
  - destruct (key_eqb k' k) eqn:E; cbn; rewrite E; auto.
Qed.

Lemma map_get_set_other m k v k' :
  k' <> k -> map_get (map_set m k v) k' = map_get m k'.
Proof.
  intros Hne. induction m as [|[k1 v1] m IH]; cbn.
  - rewrite key_eqb_neq by congruence. reflexivity.
  - destruct (key_eqb k1 k) eqn:E; cbn.
    + apply key_eqb_eq in E. subst k1.
      rewrite key_eqb_neq by congruence. reflexivity.
    + destruct (key_eqb k1 k'); auto.
Qed.

Lemma map_set_keys m k v :
  map fst (map_set m k v) =
  if map_has m k then map fst m else map fst m ++ [k].
Proof.
  unfold map_has. induction m as [|[k1 v1] m IH]; cbn.
  - reflexivity.
  - destruct (key_eqb k1 k) eqn:E; cbn.
    + reflexivity.
    + rewrite IH. destruct (map_get m k); reflexivity.
Qed.

Lemma map_get_None_keys m k : map_get m k = None -> ~ In k (map fst m).
Proof.
  induction m as [|[k1 v1] m IH]; cbn; [tauto|].
  destruct (key_eqb k1 k) eqn:E; [discriminate|].
  intros H [H1|H1].
  - subst. rewrite key_eqb_refl in E. discriminate.
  - exact (IH H H1).
Qed.

Lemma map_get_In m k v :
  NoDup (map fst m) -> In (k, v) m -> map_get m k = Some v.
Proof.
  induction m as [|[k1 v1] m IH]; cbn; [tauto|].
  intros Hnd [H|H].
  - inversion H; subst. rewrite key_eqb_refl. reflexivity.
  - inversion Hnd as [|? ? Hnot Hnd']; subst.
    destruct (key_eqb k1 k) eqn:E.
    + apply key_eqb_eq in E. subst k1. exfalso. apply Hnot.
      apply (in_map fst) in H. exact H.
    + auto.
Qed.

Lemma map_get_Some_In m k v : map_get m k = Some v -> In (k, v) m.
Proof.
  induction m as [|[k1 v1] m IH]; cbn; [discriminate|].
  destruct (key_eqb k1 k) eqn:E.
  - apply key_eqb_eq in E. subst. intros [= ->]. auto.
  - auto.
Qed.

Lemma members_app zone k l1 l2 :
  members zone k (l1 ++ l2) = members zone k l1 ++ members zone k l2.
Proof. apply filter_app. Qed.

Lemma total_duration_app l1 l2 :
  total_duration (l1 ++ l2) = total_duration l1 + total_duration l2.
Proof.
  unfold total_duration. induction l1 as [|a l1 IH]; cbn; [reflexivity|].
  rewrite IH. lia.
Qed.

Lemma map_inv_nil zone : map_inv zone [] [].
Proof. split; [constructor|]. intros k. reflexivity. Qed.

Lemma members_snoc_same zone seen x :
  members zone (session_key zone x) (seen ++ [x])
  = members zone (session_key zone x) seen ++ [x].
Proof.
  rewrite members_app. unfold members at 2. cbn.
  rewrite key_eqb_refl. reflexivity.
Qed.

Lemma members_snoc_other zone seen x k :
  k <> session_key zone x ->
  members zone k (seen ++ [x]) = members zone k seen.
Proof.
  intros H. rewrite members_app. unfold members at 2. cbn.
  rewrite key_eqb_neq by congruence. apply app_nil_r.
Qed.

Lemma map_inv_step zone seen m x :
  map_inv zone seen m -> map_inv zone (seen ++ [x]) (group_step zone m x).
Proof.
  intros [Hnd Hget].
  unfold group_step. set (k0 := session_key zone x).
  pose proof (Hget k0) as H0. unfold map_has.
  destruct (map_get m k0) as [g|] eqn:Eg; cbn [negb].
  - (* the partition already has a record *)
    rewrite Eg. split.
    + rewrite map_set_keys. unfold map_has. rewrite Eg. exact Hnd.
    + intros k. destruct (key_eq_dec k k0) as [->|Hne].
      * rewrite map_get_set_same.
        destruct H0 as (Hk & Hd & Hin & Hmax & f & rest & Hms & Hp & Hf).
        unfold summarises. subst k0. rewrite members_snoc_same.
        fold (session_key zone x) in *.
        set (ms := members zone (session_key zone x) seen) in *.
        cbn.
        destruct (Z.gtb_spec (newDate (SessionData.end_time x))
                             (newDate (SessionData.end_time g))) as [Hgt|Hle];
          cbn.
        -- repeat split.
           ++ exact Hk.
           ++ rewrite total_duration_app. cbn. lia.
           ++ rewrite map_app. apply in_or_app. right. cbn. auto.
           ++ apply Forall_app. split.
              ** eapply Forall_impl; [|exact Hmax]. cbn. intros; lia.
              ** constructor; [lia|constructor].
           ++ exists f, (rest ++ [x]). rewrite Hms. auto.
        -- repeat split.
           ++ exact Hk.
           ++ rewrite total_duration_app. cbn. lia.
           ++ rewrite map_app. apply in_or_app. left. exact Hin.
           ++ apply Forall_app. split; [exact Hmax|].
              constructor; [lia|constructor].
           ++ exists f, (rest ++ [x]). rewrite Hms. auto.
      * rewrite map_get_set_other by exact Hne.
        specialize (Hget k). destruct (map_get m k).
        -- unfold summarises in *. rewrite members_snoc_other by exact Hne.
           exact Hget.
        -- rewrite members_snoc_other by exact Hne. exact Hget.
  - (* first session of its partition *)
    rewrite map_get_set_same.
    rewrite Z.gtb_ltb, Z.ltb_irrefl. cbn.
    assert (Hset : forall v v', map_set (map_set m k0 v) k0 v' = map_set m k0 v').
    { intros v v'. clear - Eg. induction m as [|[k1 v1] m IH]; cbn.
      - rewrite key_eqb_refl. reflexivity.
      - cbn in Eg. destruct (key_eqb k1 k0) eqn:E; [discriminate|].
        cbn. rewrite E. f_equal. apply IH. exact Eg. }
    rewrite Hset. split.
    + rewrite map_set_keys. unfold map_has. rewrite Eg.
      apply NoDup_app; [exact Hnd|repeat constructor; cbn; tauto|].
      intros k Hin [<-|[]]. exact (map_get_None_keys _ _ Eg Hin).
    + intros k. destruct (key_eq_dec k k0) as [->|Hne].
      * rewrite map_get_set_same. unfold summarises. subst k0.
        rewrite members_snoc_same. fold (session_key zone x) in *.
        rewrite H0. cbn. repeat split.
        -- lia.
        -- auto.
        -- constructor; [lia|constructor].
        -- exists x, []. auto.
      * rewrite map_get_set_other by exact Hne.
        specialize (Hget k). destruct (map_get m k).
        -- unfold summarises in *. rewrite members_snoc_other by exact Hne.
           exact Hget.
        -- rewrite members_snoc_other by exact Hne. exact Hget.
Qed.

Lemma map_inv_fold zone sessions :
  map_inv zone sessions (fold_left (group_step zone) sessions []).
Proof.
  induction sessions as [|x l IH] using rev_ind.
  - apply map_inv_nil.
  - rewrite fold_left_app. cbn. apply map_inv_step. exact IH.
Qed.

Lemma grouped_values zone sessions :
  groupSessionsByLanguage zone sessions
  = map_values (fold_left (group_step zone) sessions []).
Proof. destruct sessions; reflexivity. Qed.

Lemma grouped_summarises zone sessions g :
  In g (groupSessionsByLanguage zone sessions) ->
  summarises zone sessions (group_key g) g.
Proof.
  rewrite grouped_values. unfold map_values.
  destruct (map_inv_fold zone sessions) as [Hnd Hget].
  intros Hin. apply in_map_iff in Hin. destruct Hin as ([k g'] & Hg & Hin).
  cbn in Hg. subst g'.
  pose proof (map_get_In _ _ _ Hnd Hin) as E.
  specialize (Hget k). rewrite E in Hget.
  assert (Hk : group_key g = k) by apply Hget.
  rewrite Hk. exact Hget.
Qed.


Lemma grouped_covers zone sessions s :
  In s sessions ->
  exists g, In g (groupSessionsByLanguage zone sessions)
            /\ group_key g = session_key zone s.
Proof.
  intros Hin. rewrite grouped_values. unfold map_values.
  destruct (map_inv_fold zone sessions) as [Hnd Hget].
  specialize (Hget (session_key zone s)).
  destruct (map_get _ _) as [g|] eqn:E.
  - exists g. split; [|apply Hget].
    apply in_map_iff. exists (session_key zone s, g). split; [reflexivity|].
    apply map_get_Some_In. exact E.
  - exfalso.
    assert (In s (members zone (session_key zone s) sessions)).
    { apply filter_In. split; [exact Hin|apply key_eqb_refl]. }
    rewrite Hget in H. exact H.
Qed.





Lemma group_step_has zone m x :
  map_has (group_step zone m x) (session_key zone x) = true.
Proof.
  unfold group_step, map_has.
  destruct (map_get m (session_key zone x)) eqn:E; cbn [negb].
  - rewrite E. rewrite map_get_set_same. reflexivity.
  - rewrite map_get_set_same. rewrite map_get_set_same. reflexivity.
Qed.

Lemma map_has_set m k v k' :
  map_has m k' = true -> map_has (map_set m k v) k' = true.
Proof.
  unfold map_has. intros H.
  destruct (key_eq_dec k' k) as [->|Hne].
  - rewrite map_get_set_same. reflexivity.
  - rewrite map_get_set_other by exact Hne. exact H.
Qed.

Lemma group_step_has_mono zone m x k :
  map_has m k = true -> map_has (group_step zone m x) k = true.
Proof.
  intros H. unfold group_step.
  match goal with
  | |- context [if ?c then ?a else ?b] =>
      assert (Hm : map_has (if c then a else b) k = true)
        by (destruct c; [apply map_has_set|]; exact H);
      generalize dependent (if c then a else b)
  end.
  intros m' Hm'. destruct (map_get m' (session_key zone x)).
  - apply map_has_set. exact Hm'.
  - exact Hm'.
Qed.

Lemma fold_has_mono zone l m k :
  map_has m k = true -> map_has (fold_left (group_step zone) l m) k = true.
Proof.
  revert m. induction l as [|x l IH]; cbn; intros m H; [exact H|].
  apply IH. apply group_step_has_mono. exact H.
Qed.

Lemma fold_has_member zone l m y :
  In y l ->
  map_has (fold_left (group_step zone) l m) (session_key zone y) = true.
Proof.
  revert m. induction l as [|x l IH]; cbn; intros m Hin; [contradiction|].
  destruct Hin as [->|Hin].
  - apply fold_has_mono. apply group_step_has.
  - apply IH. exact Hin.
Qed.

Lemma group_step_labels zone m x project path :
  map_has m (session_key zone x) = true ->
  group_step zone m (with_labels x project path) = group_step zone m x.
Proof.
  intros H. unfold group_step.
  change (session_key zone (with_labels x project path))
    with (session_key zone x).
  rewrite H. reflexivity.
Qed.

Lemma members_find zone k sessions f rest :
  members zone k sessions = f :: rest ->
  find (fun s => key_eqb (session_key zone s) k) sessions = Some f.
Proof.
  unfold members. induction sessions as [|x l IH]; cbn; [discriminate|].
  destruct (key_eqb (session_key zone x) k).
  - intros [= -> _]. reflexivity.
  - exact IH.
Qed.

(** Claim C10.  Every session belongs to a group record, and the
    [project_name] and [file_path] of a group record are those of the
    first session of its partition in input order: a project name that is
    present and not empty is taken as it is, and ["Unknown"] stands for
    one that is absent or empty; a file path that is present is taken as
    it is, and the empty string stands for one that is absent.  The labels
    of every later member are discarded: replacing the two labels of any
    session that is not the first of its partition leaves the grouped
    batch unchanged. *)
Theorem group_labels_from_first_member (zone : TimeZone)
    (sessions : list SessionData.t) :
  let out := groupSessionsByLanguage zone sessions in
  (forall s, In s sessions ->
     exists g, In g out /\ group_key g = session_key zone s) /\
  (forall g, In g out ->
     exists f,
       find (fun s => key_eqb (session_key zone s) (group_key g)) sessions
         = Some f /\
       (forall project,
          f.(SessionData.project_name) = Some project ->
          project <> ""%string ->
          g.(SessionData.project_name) = Some project) /\
       (f.(SessionData.project_name) = None \/
        f.(SessionData.project_name) = Some ""%string ->
        g.(SessionData.project_name) = Some "Unknown"%string) /\
       (forall path,
          f.(SessionData.file_path) = Some path ->
          g.(SessionData.file_path) = Some path) /\
       (f.(SessionData.file_path) = None ->
        g.(SessionData.file_path) = Some ""%string)) /\
  (forall before x after y project path,
     sessions = before ++ x :: after ->
     In y before -> session_key zone y = session_key zone x ->
     groupSessionsByLanguage zone
       (before ++ with_labels x project path :: after)
     = out).
Proof.
  cbv zeta. split; [|split].
  - intros s Hin. apply grouped_covers. exact Hin.
  - intros g Hin. apply grouped_summarises in Hin.
    destruct Hin as (_ & _ & _ & _ & f & rest & Hms & Hp & Hf).
    exists f. split; [eapply members_find; exact Hms|].
    rewrite Hp, Hf. unfold or_default.
    split; [|split; [|split]].
    + intros project -> Hne.
      destruct (String.eqb_spec project ""); [contradiction|reflexivity].
    + intros [->| ->]; reflexivity.
    + intros path ->.
      destruct (String.eqb_spec path "") as [->|]; reflexivity.
    + intros ->. reflexivity.
  - intros before x after y project path -> Hy Hk.
    rewrite !grouped_values. f_equal.
    rewrite !fold_left_app. cbn [fold_left].
    rewrite group_step_labels; [reflexivity|].
    rewrite <- Hk. apply fold_has_member. exact Hy.
Qed.

End GroupingFacts.
(** ** The session tracker *)
Module TrackerFacts.
Import Env Extension Observe.

Ltac unfold_m :=
  unfold exec, step, handle,
    onDocumentChange, onEditorChange, onWindowStateChange,
    setIdleThreshold, setUploadInterval, toggleAutoTracking,
    startTracking, stopTracking, setupUploadInterval, checkActivity,
    startSession, endSession, saveSession, sendSession,
    saveSession_resume, saveSession_catch, addOfflineSession,
    sendOfflineSessions, sendOfflineSessions_start,
    sendOfflineSessions_resume, sendBatchSessions, removeOfflineSessions,
    shouldTrackDocument, newDate, uuidv4, record, emit, emit_all, skip,
    modify, gets, bind, ret in *.

Lemma endSession_active host cfg st a :
  activeSession st = Some a ->
  let now := clock host (clockReads st) in
  let closed := stamp a now in
  let st' := exec (endSession host cfg) st in
  activeSession st' = None /\
  history st' = history st ++ [Closed closed] /\
  offlineSessions st' = offlineSessions st /\
  clockReads st' = S (clockReads st) /\
  (if Session.duration closed >=? minSessionDuration cfg
   then trace st' = trace st ++ [HttpPostSession (format_session closed now);
                                 ViewAddCompletedSession closed;
                                 ViewSetActiveSession None]
        /\ pendingSaves st' = pendingSaves st ++ [(closed, true)]
   else trace st' = trace st ++ [ViewSetActiveSession None]
        /\ pendingSaves st' = pendingSaves st).
Proof.
  intros H. cbv zeta. destruct st. cbn in H. subst.
  unfold_m. cbn.
  destruct (_ >=? _); cbn; rewrite <- ?app_assoc; cbn; auto 10.
Qed.

Lemma hoare_ret {A} (P : State -> Prop) (a : A) (Q : A -> State -> Prop) :
  (forall s, P s -> Q a s) -> hoare P (ret a) Q.
Proof. intros H s Hs. apply H. exact Hs. Qed.

Lemma hoare_bind {A B} (P : State -> Prop) (m : M A) (k : A -> M B)
    (R : A -> State -> Prop) (Q : B -> State -> Prop) :
  hoare P m R -> (forall a, hoare (R a) (k a) Q) -> hoare P (bind m k) Q.
Proof.
  intros Hm Hk s Hs. unfold bind. specialize (Hm s Hs).
  destruct (m s) as [a s']. apply Hk. exact Hm.
Qed.

Lemma hoare_gets {A} (P : State -> Prop) (f : State -> A)
    (Q : A -> State -> Prop) :
  (forall s, P s -> Q (f s) s) -> hoare P (gets f) Q.
Proof. intros H s Hs. apply H. exact Hs. Qed.

Lemma hoare_modify (P : State -> Prop) (f : State -> State)
    (Q : unit -> State -> Prop) :
  (forall s, P s -> Q tt (f s)) -> hoare P (modify f) Q.
Proof. intros H s Hs. apply H. exact Hs. Qed.

Lemma hoare_weaken {A} (P P' : State -> Prop) (m : M A)
    (Q Q' : A -> State -> Prop) :
  hoare P' m Q' -> (forall s, P s -> P' s) ->
  (forall a s, Q' a s -> Q a s) -> hoare P m Q.
Proof. intros H HP HQ s Hs. apply HQ, H, HP, Hs. Qed.

Lemma keeps_ret {A} I (a : A) : keeps I (ret a).
Proof. intros s Hs. exact Hs. Qed.

Lemma keeps_bind {A B} I (m : M A) (k : A -> M B) :
  keeps I m -> (forall a, keeps I (k a)) -> keeps I (bind m k).
Proof. intros Hm Hk. eapply hoare_bind; [exact Hm|exact Hk]. Qed.

Lemma keeps_gets {A} I (f : State -> A) : keeps I (gets f).
Proof. intros s Hs. exact Hs. Qed.

Lemma keeps_exec {A} I (m : M A) s : keeps I m -> I s -> I (exec m s).
Proof. intros H Hs. exact (H s Hs). Qed.

Lemma open_sessions_snoc h e :
  open_sessions (h ++ [e]) = open_after (open_sessions h) e.
Proof. unfold open_sessions. rewrite fold_left_app. reflexivity. Qed.

Lemma remove_single n : remove Nat.eq_dec n [n] = [].
Proof. cbn. destruct (Nat.eq_dec n n); [reflexivity|contradiction]. Qed.

Lemma keeps_modify_frame f : tracker_frame f -> keeps tracker_inv (modify f).
Proof.
  intros Hf s Hs. unfold tracker_inv, active_ids in *. cbn.
  destruct (Hf s) as [-> ->]. exact Hs.
Qed.

Lemma keeps_emit e : keeps tracker_inv (emit e).
Proof. apply keeps_modify_frame. intros s. split; reflexivity. Qed.

Lemma keeps_emit_all es : keeps tracker_inv (emit_all es).
Proof. apply keeps_modify_frame. intros s. split; reflexivity. Qed.

Lemma keeps_newDate host : keeps tracker_inv (newDate host).
Proof. intros s Hs. exact Hs. Qed.

Lemma keeps_uuidv4 : keeps tracker_inv uuidv4.
Proof. intros s Hs. exact Hs. Qed.

Lemma endSession_idle host cfg st :
  activeSession st = None -> exec (endSession host cfg) st = st.
Proof. intros H. unfold exec, endSession, gets, bind. cbn. rewrite H. reflexivity. Qed.

Lemma endSession_closes host cfg :
  hoare tracker_inv (endSession host cfg)
    (fun _ s => tracker_inv s /\ activeSession s = None).
Proof.
  intros s Hs. change (snd (endSession host cfg s))
    with (exec (endSession host cfg) s).
  destruct (activeSession s) as [a|] eqn:E.
  - destruct (endSession_active host cfg s a E) as (Ha & Hh & _).
    split; [|exact Ha].
    unfold tracker_inv, active_ids in *. rewrite Ha, Hh, E in *.
    rewrite open_sessions_snoc, Hs. cbn [open_after stamp Session.id].
    apply remove_single.
  - rewrite endSession_idle by exact E. split; [exact Hs|exact E].
Qed.

Lemma keeps_endSession host cfg : keeps tracker_inv (endSession host cfg).
Proof.
  eapply hoare_weaken; [apply endSession_closes|auto|].
  intros _ s [H _]. exact H.
Qed.

Lemma startSession_opens host cfg document :
  hoare tracker_inv (startSession host cfg document)
    (fun _ s => tracker_inv s /\ activeSession s <> None).
Proof.
  unfold startSession.
  eapply hoare_bind with (R := fun active s =>
    tracker_inv s /\ active = activeSession s).
  { apply hoare_gets. auto. }
  intros active.
  eapply hoare_bind with (R := fun _ s =>
    tracker_inv s /\ activeSession s = None).
  { destruct active.
    - eapply hoare_weaken; [apply endSession_closes| |]; cbn; tauto.
    - apply hoare_ret. intros s [H1 H2]. auto. }
  intros _ s [Hs Hn]. unfold tracker_inv, active_ids in *.
  destruct s. cbn in Hs, Hn. subst. unfold_m. cbn.
  rewrite fold_left_app, Hs. cbn. split; [reflexivity|discriminate].
Qed.

Lemma keeps_startSession host cfg document :
  keeps tracker_inv (startSession host cfg document).
Proof.
  eapply hoare_weaken; [apply startSession_opens|auto|].
  intros _ s [H _]. exact H.
Qed.

Lemma keeps_shouldTrackDocument host cfg document :
  keeps tracker_inv (shouldTrackDocument host cfg document).
Proof. intros s Hs. unfold shouldTrackDocument.
  destruct document; [|exact Hs].
  repeat match goal with
         | |- context [if ?c then _ else _] => destruct c
         end; try exact Hs.
  all: unfold bind, gets, ret; cbn;
    repeat match goal with
           | |- context [if ?c then _ else _] => destruct c
           end; exact Hs.
Qed.

Ltac frame_solve :=
  intros ?; split; reflexivity.

Ltac keeps_step :=
  lazymatch goal with
  | |- keeps _ (ret _) => apply keeps_ret
  | |- keeps _ (gets _) => apply keeps_gets
  | |- keeps _ (emit _) => apply keeps_emit
  | |- keeps _ (emit_all _) => apply keeps_emit_all
  | |- keeps _ (newDate _) => apply keeps_newDate
  | |- keeps _ uuidv4 => apply keeps_uuidv4
  | |- keeps _ (endSession _ _) => apply keeps_endSession
  | |- keeps _ (startSession _ _ _) => apply keeps_startSession
  | |- keeps _ (shouldTrackDocument _ _ _) =>
      apply keeps_shouldTrackDocument
  | |- keeps _ (modify _) => apply keeps_modify_frame; frame_solve
  | |- keeps _ (bind _ _) => apply keeps_bind; [|intros ?]
  | |- keeps _ (if ?c then _ else _) => destruct c
  | |- keeps _ (match ?x with _ => _ end) => destruct x
  end.

Ltac keeps_auto := unfold skip; repeat keeps_step.

Lemma keeps_handle host cfg ev : keeps tracker_inv (handle host cfg ev).
Proof.
  destruct ev; cbn [handle];
    unfold onDocumentChange, onEditorChange, onWindowStateChange,
      setIdleThreshold, setUploadInterval, toggleAutoTracking,
      startTracking, stopTracking, setupUploadInterval, checkActivity,
      saveSession_resume, saveSession_catch, addOfflineSession,
      sendOfflineSessions_start, sendOfflineSessions_resume,
      sendBatchSessions, removeOfflineSessions;
    keeps_auto.
Qed.

Lemma tracker_inv_run host events s :
  tracker_inv s -> tracker_inv (run host events s).
Proof.
  revert s. induction events as [|[cfg ev] events IH]; cbn; intros s Hs.
  - exact Hs.
  - apply IH. unfold step. cbn. apply keeps_exec; [apply keeps_handle|exact Hs].
Qed.

Lemma tracker_inv_initial : tracker_inv initial.
Proof. reflexivity. Qed.

Lemma startSession_history host cfg document st a :
  activeSession st = Some a ->
  exists opened,
    history (exec (startSession host cfg document) st)
    = history st
      ++ [Closed (stamp a (clock host (clockReads st))); Opened opened]
    /\ activeSession (exec (startSession host cfg document) st)
       = Some opened
    /\ Session.endTime opened = None.
Proof.
  intros H. destruct st. cbn in H. subst.
  unfold_m. cbn.
  destruct (_ >=? _); cbn; eexists; rewrite <- ?app_assoc; cbn;
    repeat split; reflexivity.
Qed.

(** Claim C6.  After every sequence of events, the sessions that were
    opened and not closed are exactly the session held in
    [activeSession], so there is at most one; and [startSession] on a
    state with an open session first closes that session (stamps it and
    logs it closed) and only then opens the new one. *)
Theorem at_most_one_open_session (host : Host)
    (events : list (Config * Event)) :
  let st := run host events initial in
  open_sessions (history st) = active_ids st /\
  (length (open_sessions (history st)) <= 1)%nat /\
  (forall cfg document a,
     activeSession st = Some a ->
     exists opened,
       history (exec (startSession host cfg document) st)
       = history st
         ++ [Closed (stamp a (clock host (clockReads st))); Opened opened]
       /\ activeSession (exec (startSession host cfg document) st)
          = Some opened
       /\ Session.endTime opened = None).
Proof.
  cbv zeta.
  pose proof (tracker_inv_run host events initial tracker_inv_initial) as H.
  unfold tracker_inv in H. split; [exact H|]. split.
  - rewrite H. unfold active_ids. destruct (activeSession _); cbn; lia.
  - intros cfg document a Ha. apply startSession_history. exact Ha.
Qed.

(** Claim C2.  [endSession] stamps the open session with the current
    time as its end time and with
    [floor((endTime - startTime) / 1000)] as its duration, which is not
    negative when the end time is not before the start time.  When the
    duration is below [minSessionDuration], nothing is posted, no send is
    left pending and the offline queue is unchanged; otherwise exactly the
    stamped session is posted and left pending. *)
Theorem endSession_duration_and_filter (host : Host) (cfg : Config)
    (st : State) (a : Session.t) :
  activeSession st = Some a ->
  let now := clock host (clockReads st) in
  let st' := exec (endSession host cfg) st in
  exists closed,
    history st' = history st ++ [Closed closed] /\
    Session.endTime closed = Some now /\
    Session.startTime closed = Session.startTime a /\
    Session.duration closed = (now - Session.startTime a) / 1000 /\
    (Session.startTime a <= now -> 0 <= Session.duration closed) /\
    (Session.duration closed < minSessionDuration cfg ->
       posted_sessions (trace st') = posted_sessions (trace st) /\
       pendingSaves st' = pendingSaves st /\
       offlineSessions st' = offlineSessions st) /\
    (minSessionDuration cfg <= Session.duration closed ->
       posted_sessions (trace st')
       = posted_sessions (trace st) ++ [format_session closed now] /\
       pendingSaves st' = pendingSaves st ++ [(closed, true)]).
Proof.
  intros Ha. cbv zeta.
  destruct (endSession_active host cfg st a Ha) as (_ & Hh & Hq & _ & Hs).
  exists (stamp a (clock host (clockReads st))).
  split; [exact Hh|]. cbn [stamp Session.endTime Session.startTime
                           Session.duration] in *.
  repeat split.
  - intros. apply Z.div_pos; lia.
  - destruct (Z.geb_spec ((clock host (clockReads st) - Session.startTime a)
                          / 1000) (minSessionDuration cfg)); [lia|].
    destruct Hs as [-> _]. unfold posted_sessions.
    rewrite flat_map_app. cbn. apply app_nil_r.
  - destruct (Z.geb_spec ((clock host (clockReads st) - Session.startTime a)
                          / 1000) (minSessionDuration cfg)); [lia|].
    apply Hs.
  - exact Hq.
  - destruct (Z.geb_spec ((clock host (clockReads st) - Session.startTime a)
                          / 1000) (minSessionDuration cfg)); [|lia].
    destruct Hs as [-> _]. unfold posted_sessions.
    rewrite flat_map_app. reflexivity.
  - destruct (Z.geb_spec ((clock host (clockReads st) - Session.startTime a)
                          / 1000) (minSessionDuration cfg)); [|lia].
    apply Hs.
Qed.

(** Claim C9.  When the idle check fires, the session is closed at the
    time read by [endSession] during that tick, not at the last activity:
    its duration is [floor((close - startTime) / 1000)], which is at least
    the active time up to the last activity plus the whole idle
    threshold. *)
Theorem idle_close_counts_idle_gap (host : Host) (cfg : Config)
    (idleThresholdSeconds : Z) (st : State) (a : Session.t)
    (lastActivity : Z) :
  activeSession st = Some a ->
  lastActivityTime st = Some lastActivity ->
  let tick := clock host (clockReads st) in
  let close := clock host (S (clockReads st)) in
  tick - lastActivity > idleThresholdSeconds * 1000 ->
  let st' := exec (checkActivity host cfg idleThresholdSeconds) st in
  activeSession st' = None /\
  history st' = history st ++ [Closed (stamp a close)] /\
  Session.endTime (stamp a close) = Some close /\
  Session.duration (stamp a close)
    = (close - Session.startTime a) / 1000 /\
  (tick <= close ->
     (lastActivity - Session.startTime a) / 1000 + idleThresholdSeconds
     <= Session.duration (stamp a close)).
Proof.
  intros Ha Hl. cbv zeta. intros Hidle.
  assert (E : exec (checkActivity host cfg idleThresholdSeconds) st
              = exec (endSession host cfg)
                  (set_clockReads (S (clockReads st)) st)).
  { unfold exec, checkActivity, bind, gets, newDate. cbn -[endSession].
    rewrite Ha, Hl. cbn -[endSession].
    destruct (Z.gtb_spec (clock host (clockReads st) - lastActivity)
                         (idleThresholdSeconds * 1000)); [reflexivity|lia]. }
  rewrite E.
  destruct (endSession_active host cfg
              (set_clockReads (S (clockReads st)) st) a Ha)
    as (H1 & H2 & _).
  cbn [set_clockReads clockReads history] in H1, H2.
  split; [exact H1|]. split; [exact H2|].
  cbn [stamp Session.endTime Session.duration Session.startTime].
  repeat split.
  intros Hmono.
  replace ((lastActivity - Session.startTime a) / 1000 + idleThresholdSeconds)
    with ((lastActivity - Session.startTime a + idleThresholdSeconds * 1000)
          / 1000) by (rewrite Z.div_add by lia; reflexivity).
  apply Z.div_le_mono; lia.
Qed.

End TrackerFacts.
(** ** The offline queue *)
Module QueueFacts.
Import Env Extension Observe.
Import TrackerFacts.

(** Claim C8.  A successful [addOfflineSession] appends the session, and
    shows the backlog warning exactly when the new count is one of 10, 50,
    100, 500: going from 9 to 10 warns, going from 10 to 11 does not. *)
Theorem backlog_warning_exact_match (session : Session.t)
    (g : StorageService.Memento) :
  let count := StorageService.getOfflineSessionCount g + 1 in
  let result := StorageService.addOfflineSession session true g in
  fst result = g ++ [StorageService.to_offline session] /\
  StorageService.getOfflineSessionCount (fst result) = count /\
  (count = 10 \/ count = 50 \/ count = 100 \/ count = 500 ->
   snd result = [ShowWarningMessage (MsgOfflineBacklog count)]) /\
  (~ (count = 10 \/ count = 50 \/ count = 100 \/ count = 500) ->
   snd result = []) /\
  (StorageService.getOfflineSessionCount g = 9 ->
   snd result = [ShowWarningMessage (MsgOfflineBacklog 10)]) /\
  (StorageService.getOfflineSessionCount g = 10 -> snd result = []).
Proof.
  cbv zeta. unfold StorageService.addOfflineSession,
    StorageService.getOfflineSessions, StorageService.getOfflineSessionCount,
    StorageService.maybeTriggerOfflineWarning, StorageService.includes,
    StorageService.thresholds.
  cbn [fst snd existsb].
  rewrite length_app, Nat2Z.inj_add. cbn [length Z.of_nat Pos.of_succ_nat].
  set (c := Z.of_nat (length g) + 1).
  assert (Hc : c = Z.of_nat (length g) + 1) by reflexivity. clearbody c.
  split; [reflexivity|]. split; [reflexivity|].
  destruct (Z.eqb_spec 10 c); destruct (Z.eqb_spec 50 c);
    destruct (Z.eqb_spec 100 c); destruct (Z.eqb_spec 500 c);
    cbn [orb]; repeat split; intros; subst; try reflexivity;
    try (exfalso; lia); repeat f_equal; lia.
Qed.

Lemma addOfflineSession_exec session st :
  let st' := exec (addOfflineSession session true) st in
  offlineSessions st'
  = offlineSessions st ++ [StorageService.to_offline session] /\
  trace st'
  = trace st ++ StorageService.maybeTriggerOfflineWarning
                  (StorageService.getOfflineSessionCount (offlineSessions st)
                   + 1) /\
  activeSession st' = activeSession st /\
  pendingSaves st' = pendingSaves st.
Proof.
  cbv zeta. destruct st. unfold_m. cbn.
  unfold StorageService.getOfflineSessionCount.
  rewrite length_app, Nat2Z.inj_add. cbn. auto.
Qed.

Lemma posted_sessions_app t1 t2 :
  posted_sessions (t1 ++ t2) = posted_sessions t1 ++ posted_sessions t2.
Proof. apply flat_map_app. Qed.

Lemma posted_batches_app t1 t2 :
  posted_batches (t1 ++ t2) = posted_batches t1 ++ posted_batches t2.
Proof. apply flat_map_app. Qed.

Lemma timeouts_app t1 t2 : timeouts (t1 ++ t2) = timeouts t1 ++ timeouts t2.
Proof. apply flat_map_app. Qed.

Lemma warning_posts_nothing count :
  posted_sessions (StorageService.maybeTriggerOfflineWarning count) = [] /\
  posted_batches (StorageService.maybeTriggerOfflineWarning count) = [].
Proof.
  unfold StorageService.maybeTriggerOfflineWarning.
  destruct (StorageService.includes _ _); split; reflexivity.
Qed.

Lemma settle_last_save host cfg st session sent update_ok :
  let st1 := exec (saveSession session) st in
  Session.endTime session <> None ->
  step host st1
    (cfg, SaveSettled (length (pendingSaves st)) sent update_ok)
  = exec (saveSession_resume session sent update_ok)
      (set_pendingSaves (pendingSaves st) st1).
Proof.
  cbv zeta. intros He.
  destruct (Session.endTime session) as [endTime|] eqn:E;
    [clear He|contradiction].
  unfold step. cbn [fst snd handle].
  unfold exec at 1, bind, gets. cbn [fst snd].
  assert (Hp : pendingSaves (exec (saveSession session) st)
               = pendingSaves st ++ [(session, true)]).
  { destruct st. unfold_m. rewrite E. reflexivity. }
  rewrite Hp.
  rewrite nth_error_app2, Nat.sub_diag by apply Nat.le_refl.
  cbn [nth_error]. unfold remove_nth.
  rewrite firstn_app, Nat.sub_diag, firstn_all. cbn [firstn].
  rewrite app_nil_r.
  rewrite skipn_all2 by (rewrite length_app; cbn; lia).
  rewrite app_nil_r. unfold modify. cbn [fst snd]. reflexivity.
Qed.

(** Claim C7.  [saveSession] makes exactly one send attempt, whose
    payload is the language id, start time, end time and duration of the
    session, and queues nothing by itself.  When that attempt is
    fulfilled, the continuation changes nothing: the session is not
    queued.  When it is rejected (and the store accepts the update), the
    record of the session (its id, language, start time, end time and
    duration) is appended once to the tail of the queue and no further
    request is made.  Through the event loop: once the send of the saved
    session has settled, the queue is as before when it was fulfilled and
    is longer by that one record when it was rejected, and the request
    made is the only one either way. *)
Theorem save_sends_once_or_queues_once (st : State) (session : Session.t)
    (endTime : Z) :
  Session.endTime session = Some endTime ->
  let st1 := exec (saveSession session) st in
  let payload :=
    SessionData.mk
      (LanguageService.id (Session.language session))
      (Session.startTime session) (Some endTime)
      (Session.duration session) None None in
  let queued :=
    OfflineSession.mk (Session.id session) (Session.language session)
      (Session.startTime session) (Some endTime)
      (Session.duration session) in
  (trace st1 = trace st ++ [HttpPostSession payload]
   /\ offlineSessions st1 = offlineSessions st
   /\ pendingSaves st1 = pendingSaves st ++ [(session, true)]) /\
  (forall st2 update_ok,
     exec (saveSession_resume session Fulfilled update_ok) st2 = st2) /\
  (forall st2,
     let st3 := exec (saveSession_resume session Rejected true) st2 in
     offlineSessions st3 = offlineSessions st2 ++ [queued] /\
     posted_sessions (trace st3) = posted_sessions (trace st2) /\
     posted_batches (trace st3) = posted_batches (trace st2)) /\
  (forall host cfg,
     let settled sent update_ok :=
       step host st1
         (cfg, SaveSettled (length (pendingSaves st)) sent update_ok) in
     (forall update_ok,
        offlineSessions (settled Fulfilled update_ok) = offlineSessions st /\
        posted_sessions (trace (settled Fulfilled update_ok))
        = posted_sessions (trace st) ++ [payload]) /\
     offlineSessions (settled Rejected true)
     = offlineSessions st ++ [queued] /\
     posted_sessions (trace (settled Rejected true))
     = posted_sessions (trace st) ++ [payload]).
Proof.
  intros He. cbv zeta.
  assert (H1 : trace (exec (saveSession session) st)
               = trace st
                 ++ [HttpPostSession
                       (SessionData.mk
                          (LanguageService.id (Session.language session))
                          (Session.startTime session) (Some endTime)
                          (Session.duration session) None None)]
               /\ offlineSessions (exec (saveSession session) st)
                  = offlineSessions st
               /\ pendingSaves (exec (saveSession session) st)
                  = pendingSaves st ++ [(session, true)]).
  { destruct st. unfold_m. rewrite He. cbn. auto. }
  assert (H2 : forall st2 update_ok,
             exec (saveSession_resume session Fulfilled update_ok) st2
             = st2).
  { intros st2 update_ok. destruct st2. reflexivity. }
  assert (H3 : forall st2,
             offlineSessions
               (exec (saveSession_resume session Rejected true) st2)
             = offlineSessions st2
               ++ [OfflineSession.mk (Session.id session)
                     (Session.language session)
                     (Session.startTime session) (Some endTime)
                     (Session.duration session)] /\
             posted_sessions
               (trace (exec (saveSession_resume session Rejected true) st2))
             = posted_sessions (trace st2) /\
             posted_batches
               (trace (exec (saveSession_resume session Rejected true) st2))
             = posted_batches (trace st2)).
  { intros st2.
    unfold saveSession_resume, saveSession_catch, exec, bind.
    pose proof (addOfflineSession_exec session st2) as H. cbv zeta in H.
    unfold exec in H.
    destruct (addOfflineSession session true st2) as [[] s3].
    cbn [snd] in H.
    destruct H as (Hq & Ht & _).
    unfold StorageService.to_offline in Hq. rewrite He in Hq.
    destruct (warning_posts_nothing
                (StorageService.getOfflineSessionCount (offlineSessions st2)
                 + 1)) as [W1 W2].
    unfold gets. cbn [fst snd].
    destruct (_ =? 1); unfold emit, skip, modify, ret; cbn [fst snd];
      destruct s3; cbn in *; subst;
      rewrite ?posted_sessions_app, ?posted_batches_app, ?W1, ?W2; cbn;
      rewrite ?app_nil_r; auto. }
  split; [exact H1|]. split; [exact H2|]. split; [exact H3|].
  intros host cfg.
  assert (Hne : Session.endTime session <> None) by (rewrite He; discriminate).
  destruct H1 as (Ht & Hq & _).
  assert (Hbase : forall s0,
             s0 = set_pendingSaves (pendingSaves st)
                    (exec (saveSession session) st) ->
             offlineSessions s0 = offlineSessions st /\
             posted_sessions (trace s0)
             = posted_sessions (trace st)
               ++ [SessionData.mk
                     (LanguageService.id (Session.language session))
                     (Session.startTime session) (Some endTime)
                     (Session.duration session) None None]).
  { intros s0 ->. split.
    - rewrite <- Hq. destruct (exec (saveSession session) st). reflexivity.
    - replace (trace (set_pendingSaves (pendingSaves st)
                        (exec (saveSession session) st)))
        with (trace (exec (saveSession session) st))
        by (destruct (exec (saveSession session) st); reflexivity).
      rewrite Ht, posted_sessions_app. reflexivity. }
  split.
  - intros update_ok.
    rewrite (settle_last_save host cfg st session Fulfilled update_ok Hne).
    rewrite H2. apply Hbase. reflexivity.
  - rewrite (settle_last_save host cfg st session Rejected true Hne).
    destruct (H3 (set_pendingSaves (pendingSaves st)
                    (exec (saveSession session) st))) as (Q & P & _).
    destruct (Hbase _ eq_refl) as (Bq & Bp).
    rewrite Q, P, Bq, Bp. auto.
Qed.

Lemma slice_prefix {A} (l : list A) (n : Z) :
  StorageService.slice l 0 n
  = firstn (length (StorageService.slice l 0 n)) l.
Proof.
  unfold StorageService.slice.
  set (relative := StorageService.relative_index (Z.of_nat (length l))).
  assert (H0 : relative 0 = 0).
  { subst relative. unfold StorageService.relative_index.
    cbn [Z.ltb Z.compare]. lia. }
  rewrite H0. cbn [Z.to_nat skipn]. rewrite Z.sub_0_r.
  rewrite length_firstn.
  destruct (Nat.min_spec (Z.to_nat (Z.max (relative n) 0)) (length l))
    as [[_ ->]|[Hle ->]]; [reflexivity|].
  rewrite firstn_all. apply firstn_all2. exact Hle.
Qed.

Lemma length_zero_iff {A} (l : list A) :
  (Z.of_nat (length l) =? 0) = true <-> l = [].
Proof.
  rewrite Z.eqb_eq. destruct l; cbn; split; try reflexivity; discriminate.
Qed.

Lemma start_ready host cfg s :
  drain_ready cfg s ->
  sendOfflineSessions_start host cfg s =
  (Some (drain_frame cfg s),
   set_trace
     (trace s ++
      [HttpPostBatch
         (ApiService.groupSessionsByLanguage (zone host)
            (map format_offline (sessionsToSend (drain_frame cfg s))))])
     (set_pendingUpload true s)).
Proof.
  intros (Hh & Hp & Hk & Hb).
  unfold sendOfflineSessions_start, sendBatchSessions, bind, gets, modify,
    emit, ret.
  cbn [fst snd]. rewrite Hh, Hp. cbn [negb orb].
  destruct (String.eqb_spec (apiKey cfg) ""); [contradiction|].
  destruct s. cbn in *.
  fold (escalated cfg (StorageService.getOfflineSessionCount offlineSessions0)).
  destruct (Z.eqb_spec
    (Z.of_nat (length
      (StorageService.slice offlineSessions0 0
        (escalated cfg
          (StorageService.getOfflineSessionCount offlineSessions0))))) 0)
    as [E|E].
  - exfalso. apply Hb. apply length_zero_iff. apply Z.eqb_eq. exact E.
  - reflexivity.
Qed.

Lemma start_Some host cfg s frame s1 :
  sendOfflineSessions_start host cfg s = (Some frame, s1) ->
  drain_ready cfg s.
Proof.
  unfold sendOfflineSessions_start, sendBatchSessions, bind, gets, modify,
    emit, ret, drain_ready.
  cbn [fst snd].
  destruct (StorageService.hasOfflineSessions (offlineSessions s)) eqn:Hh;
    cbn [negb orb]; [|discriminate].
  destruct (pendingUpload s) eqn:Hp; [discriminate|].
  destruct (String.eqb_spec (apiKey cfg) ""); [discriminate|].
  destruct s. cbn in *.
  fold (escalated cfg (StorageService.getOfflineSessionCount offlineSessions0)).
  destruct (Z.eqb_spec
    (Z.of_nat (length
      (StorageService.slice offlineSessions0 0
        (escalated cfg
          (StorageService.getOfflineSessionCount offlineSessions0))))) 0)
    as [E|E]; [discriminate|].
  intros _. repeat split; auto.
  intros H. rewrite H in E. apply E. reflexivity.
Qed.

Lemma resume_rejected frame update_ok s :
  let s' := exec (sendOfflineSessions_resume frame Rejected update_ok) s in
  offlineSessions s' = offlineSessions s /\
  pendingUpload s' = false /\
  uploadRetryCount s'
  = (if uploadRetryCount s <? 5 then uploadRetryCount s + 1 else 0) /\
  trace s'
  = trace s ++ (if uploadRetryCount s <? 5
                then [SetTimeoutDrain (1000 * 2 ^ (uploadRetryCount s + 1))]
                else []) /\
  activeSession s' = activeSession s /\
  pendingSaves s' = pendingSaves s.
Proof.
  cbv zeta. destruct s. unfold_m. cbn.
  destruct (uploadRetryCount0 <? 5); cbn; rewrite ?app_nil_r; auto 10.
Qed.

Lemma failed_drain host cfg s :
  drain_ready cfg s ->
  let s' := exec (sendOfflineSessions host cfg Rejected true) s in
  drain_ready cfg s' /\
  offlineSessions s' = offlineSessions s /\
  uploadRetryCount s'
  = (if uploadRetryCount s <? 5 then uploadRetryCount s + 1 else 0) /\
  timeouts (trace s')
  = timeouts (trace s)
    ++ (if uploadRetryCount s <? 5
        then [1000 * 2 ^ (uploadRetryCount s + 1)] else []).
Proof.
  intros Hr. cbv zeta.
  unfold sendOfflineSessions, exec, bind.
  rewrite (start_ready host cfg s Hr).
  pose proof (resume_rejected (drain_frame cfg s) true
    (set_trace
       (trace s ++
        [HttpPostBatch
           (ApiService.groupSessionsByLanguage (zone host)
              (map format_offline (sessionsToSend (drain_frame cfg s))))])
       (set_pendingUpload true s))) as H.
  cbv zeta in H. unfold exec in H.
  destruct H as (Hq & Hp & Hc & Ht & _).
  cbn [set_trace set_pendingUpload offlineSessions uploadRetryCount trace]
    in Hq, Hc, Ht.
  destruct Hr as (Hh & _ & Hk & Hb).
  split; [|split; [exact Hq|split; [exact Hc|]]].
  - unfold drain_ready. rewrite Hq, Hp. auto.
  - rewrite Ht, !timeouts_app. cbn [timeouts flat_map app].
    rewrite app_nil_r. destruct (uploadRetryCount s <? 5); reflexivity.
Qed.

(** Claim C1.  A drain whose batch request is rejected leaves the offline
    queue as it was: the batch it tried is the first [k] queued sessions
    in order, neither the start nor the failure path touches the queue,
    and the next drain under the same configuration tries the same
    batch. *)
Theorem failed_drain_keeps_queue (host : Host) (cfg : Config) (st : State)
    (frame : DrainFrame) (st1 : State) (update_ok : bool) :
  sendOfflineSessions_start host cfg st = (Some frame, st1) ->
  let k := length (sessionsToSend frame) in
  let st2 := exec (sendOfflineSessions_resume frame Rejected update_ok) st1 in
  sessionsToSend frame = firstn k (offlineSessions st) /\
  offlineSessions st1 = offlineSessions st /\
  offlineSessions st2 = offlineSessions st /\
  (forall s,
     offlineSessions
       (exec (sendOfflineSessions_resume frame Rejected update_ok) s)
     = offlineSessions s) /\
  pendingUpload st2 = false /\
  fst (sendOfflineSessions_start host cfg st2) = Some frame.
Proof.
  intros Hs. cbv zeta.
  pose proof (start_Some host cfg st frame st1 Hs) as Hr.
  rewrite (start_ready host cfg st Hr) in Hs.
  injection Hs as Hf H1.
  assert (Hq1 : offlineSessions st1 = offlineSessions st)
    by (rewrite <- H1; reflexivity).
  destruct (resume_rejected frame update_ok st1) as (Hq & Hp & _).
  set (st2 := exec (sendOfflineSessions_resume frame Rejected update_ok) st1)
    in *.
  clearbody st2. rewrite Hq1 in Hq.
  split; [rewrite <- Hf; apply slice_prefix|].
  split; [exact Hq1|].
  split; [exact Hq|].
  split; [intros s; apply (resume_rejected _ update_ok s)|].
  split; [exact Hp|].
  rewrite start_ready.
  - cbn [fst]. rewrite <- Hf. unfold drain_frame. rewrite Hq. reflexivity.
  - destruct Hr as (Hh & _ & Hk & Hb). unfold drain_ready.
    rewrite Hq, Hp. auto.
Qed.

Lemma failed_drains_S host cfg n s :
  failed_drains host cfg (S n) s
  = failed_drains host cfg n
      (exec (sendOfflineSessions host cfg Rejected true) s).
Proof. reflexivity. Qed.

(** Claim C3, as the code has it.  From a zero retry counter, the first
    five consecutive failed drains schedule retries after 2000, 4000,
    8000, 16000 and 32000 ms and raise the counter to 5; the sixth failure
    schedules nothing and resets the counter to zero.  The queue is
    untouched throughout. *)
Theorem backoff_delays_start_at_2000 (host : Host) (cfg : Config)
    (st : State) (frame : DrainFrame) (st1 : State) :
  sendOfflineSessions_start host cfg st = (Some frame, st1) ->
  uploadRetryCount st = 0 ->
  let st5 := failed_drains host cfg 5 st in
  let st6 := failed_drains host cfg 6 st in
  timeouts (trace st5)
  = timeouts (trace st) ++ [2000; 4000; 8000; 16000; 32000] /\
  uploadRetryCount st5 = 5 /\
  timeouts (trace st6) = timeouts (trace st5) /\
  uploadRetryCount st6 = 0 /\
  offlineSessions st6 = offlineSessions st.
Proof.
  intros Hs H0. cbv zeta.
  pose proof (start_Some host cfg st frame st1 Hs) as Hr.
  change (failed_drains host cfg 6 st)
    with (failed_drains host cfg 5
            (exec (sendOfflineSessions host cfg Rejected true) st)).
  rewrite !failed_drains_S. cbn [failed_drains].
  destruct (failed_drain host cfg _ Hr) as (Hr1 & Hq1 & Hc1 & Ht1).
  rewrite H0 in Hc1, Ht1. cbn in Hc1, Ht1.
  destruct (failed_drain host cfg _ Hr1) as (Hr2 & Hq2 & Hc2 & Ht2).
  rewrite Hc1 in Hc2, Ht2. cbn in Hc2, Ht2.
  destruct (failed_drain host cfg _ Hr2) as (Hr3 & Hq3 & Hc3 & Ht3).
  rewrite Hc2 in Hc3, Ht3. cbn in Hc3, Ht3.
  destruct (failed_drain host cfg _ Hr3) as (Hr4 & Hq4 & Hc4 & Ht4).
  rewrite Hc3 in Hc4, Ht4. cbn in Hc4, Ht4.
  destruct (failed_drain host cfg _ Hr4) as (Hr5 & Hq5 & Hc5 & Ht5).
  rewrite Hc4 in Hc5, Ht5. cbn in Hc5, Ht5.
  destruct (failed_drain host cfg _ Hr5) as (Hr6 & Hq6 & Hc6 & Ht6).
  rewrite Hc5 in Hc6, Ht6. cbn in Hc6, Ht6.
  rewrite app_nil_r in Ht6.
  repeat split.
  - rewrite Ht5, Ht4, Ht3, Ht2, Ht1. rewrite <- !app_assoc. reflexivity.
  - exact Hc5.
  - exact Ht6.
  - exact Hc6.
  - congruence.
Qed.

End QueueFacts.

(** ** More on the week boundaries *)
Module DateMore.
Import JSDate LocalClock DateFacts.

Lemma monday_unique m1 m2 x :
  (m1 + 4) mod 7 = 1 -> (m2 + 4) mod 7 = 1 ->
  m1 * msPerDay <= x < m1 * msPerDay + 7 * msPerDay ->
  m2 * msPerDay <= x < m2 * msPerDay + 7 * msPerDay ->
  m1 = m2.
Proof.
  unfold msPerDay. intros H1 H2 B1 B2.
  assert (Hd : -7 < m1 - m2 < 7) by lia.
  pose proof (Z.div_mod (m1 + 4) 7 ltac:(lia)) as E1.
  pose proof (Z.div_mod (m2 + 4) 7 ltac:(lia)) as E2.
  rewrite H1 in E1. rewrite H2 in E2. lia.
Qed.

Lemma getWeekStart_monday tza d :
  exists m,
    LocalTime (fixed tza) (Utils.getWeekStart (fixed tza) d) = m * msPerDay /\
    (m + 4) mod 7 = 1 /\
    m * msPerDay <= LocalTime (fixed tza) d < m * msPerDay + 7 * msPerDay.
Proof.
  destruct (monday_of_week (LocalTime (fixed tza) d)) as (Hm & Hb).
  eexists. split; [|split; [exact Hm|exact Hb]].
  rewrite getWeekStart_local. reflexivity.
Qed.

Lemma week_start_unique tza x ws m :
  LocalTime (fixed tza) ws = m * msPerDay ->
  (m + 4) mod 7 = 1 ->
  m * msPerDay <= LocalTime (fixed tza) x < m * msPerDay + 7 * msPerDay ->
  Utils.getWeekStart (fixed tza) x = ws.
Proof.
  intros Hws Hm Hb.
  destruct (getWeekStart_monday tza x) as (m' & Hs & Hm' & Hb').
  assert (m' = m) by (eapply monday_unique; eassumption). subst m'.
  revert Hs. generalize (Utils.getWeekStart (fixed tza) x). intros w Hs.
  rewrite !LocalTime_fixed in *. lia.
Qed.

Lemma getWeekEnd_from_start tza :
  exists F, forall a,
    Utils.getWeekEnd (fixed tza) a = F (Utils.getWeekStart (fixed tza) a).
Proof.
  exists (fun r => setHours (fixed tza)
                     (setDate (fixed tza) r (getDate (fixed tza) r + 6))
                     23 59 59 999).
  intros a. unfold Utils.getWeekEnd. reflexivity.
Qed.

Lemma getWeekStart_idempotent tza d :
  Utils.getWeekStart (fixed tza) (Utils.getWeekStart (fixed tza) d)
  = Utils.getWeekStart (fixed tza) d.
Proof.
  destruct (getWeekStart_monday tza d) as (m & Hs & Hm & Hb).
  apply (week_start_unique tza _ _ m Hs Hm). rewrite Hs.
  unfold msPerDay. lia.
Qed.

(** Property X13.  On a host with a fixed local time zone offset, the
    week boundaries of a date enclose it: the start is not after the date,
    the end not before it, and the end is the last millisecond of the
    seven days from the start.  The start and the end lie in the same
    week: their week start is the same start, and the week end of the
    start is the same end. *)
Theorem week_boundaries_enclose_the_date (tza d : Z) :
  let start := Utils.getWeekStart (fixed tza) d in
  let stop := Utils.getWeekEnd (fixed tza) d in
  start <= d <= stop /\
  stop - start = 7 * msPerDay - 1 /\
  Utils.getWeekStart (fixed tza) start = start /\
  Utils.getWeekStart (fixed tza) stop = start /\
  Utils.getWeekEnd (fixed tza) start = stop.
Proof.
  cbv zeta.
  destruct (getWeekStart_monday tza d) as (m & Hs & Hm & Hb).
  pose proof (getWeekEnd_local tza d) as He.
  unfold MakeTime, msPerHour, msPerMinute, msPerSecond in He.
  pose proof (getWeekStart_idempotent tza d) as Hstart.
  assert (Hstop : Utils.getWeekStart (fixed tza)
                    (Utils.getWeekEnd (fixed tza) d)
                  = Utils.getWeekStart (fixed tza) d).
  { apply (week_start_unique tza _ _ m Hs Hm). rewrite He, Hs.
    unfold msPerDay. lia. }
  assert (Hend : Utils.getWeekEnd (fixed tza) (Utils.getWeekStart (fixed tza) d)
                 = Utils.getWeekEnd (fixed tza) d).
  { destruct (getWeekEnd_from_start tza) as [F HF].
    rewrite (HF (Utils.getWeekStart (fixed tza) d)), (HF d).
    f_equal. exact Hstart. }
  split; [|split; [|split; [exact Hstart|split; [exact Hstop|exact Hend]]]];
    clear Hstart Hstop Hend; revert Hs He;
    generalize (Utils.getWeekStart (fixed tza) d)
               (Utils.getWeekEnd (fixed tza) d);
    intros ws we Hs He; rewrite !LocalTime_fixed in *;
    unfold msPerDay in *; lia.
Qed.

(** With a fixed offset, the week of [weekOf] is the seven days from its
    week start. *)
Lemma isInSameWeek_window (tza target weekOf : Z) :
  Utils.isInSameWeek (fixed tza) target weekOf = true <->
  Utils.getWeekStart (fixed tza) weekOf <= target
  < Utils.getWeekStart (fixed tza) weekOf + 7 * msPerDay.
Proof.
  unfold Utils.isInSameWeek. rewrite Z.eqb_eq.
  destruct (getWeekStart_monday tza target) as (m & Hs & Hm & Hb).
  destruct (getWeekStart_monday tza weekOf) as (m' & Hs' & Hm' & Hb').
  split.
  - intros E. rewrite <- E. clear E Hs'. revert Hs.
    generalize (Utils.getWeekStart (fixed tza) target). intros w Hs.
    rewrite !LocalTime_fixed in *. lia.
  - intros B. apply (week_start_unique tza _ _ m' Hs' Hm').
    revert Hs' B. generalize (Utils.getWeekStart (fixed tza) weekOf).
    intros w Hs' B. rewrite !LocalTime_fixed in *. lia.
Qed.


(** Property X14.  [isInSameWeek(target, weekOf)] holds exactly when the
    local dates of [target] and [weekOf] have the same Monday, that is,
    lie in the same week from Monday to Sunday of the local calendar.
    This holds on every host that keeps the time of day of either date on
    its Monday and whose clocks show the midnight of either Monday. *)
Theorem isInSameWeek_spec (zone : TimeZone) (target weekOf : Z) :
  let t := LocalTime zone target in
  let w := LocalTime zone weekOf in
  keeps_day zone (monday t * msPerDay + TimeWithinDay t) ->
  keeps_day zone (monday w * msPerDay + TimeWithinDay w) ->
  on_the_clock zone (monday t * msPerDay) ->
  on_the_clock zone (monday w * msPerDay) ->
  (Utils.isInSameWeek zone target weekOf = true <-> monday t = monday w).
Proof.
  cbv zeta. intros Kt Kw Ct Cw.
  unfold Utils.isInSameWeek. rewrite Z.eqb_eq.
  rewrite (getWeekStart_zone zone target Kt).
  rewrite (getWeekStart_zone zone weekOf Kw).
  split.
  - intros E. unfold on_the_clock in Ct, Cw.
    assert (E' : monday (LocalTime zone target) * msPerDay
                 = monday (LocalTime zone weekOf) * msPerDay)
      by (rewrite <- Ct, <- Cw, E; reflexivity).
    unfold msPerDay in E'. lia.
  - intros ->. reflexivity.
Qed.

End DateMore.

(** ** More on grouping *)
Module GroupingMore.
Import JSDate ApiService Grouping GroupingFacts.

Lemma map_set_absent m k v :
  map_get m k = None -> map_set m k v = m ++ [(k, v)].
Proof.
  induction m as [|[k1 v1] m IH]; cbn; [reflexivity|].
  destruct (key_eqb k1 k); [discriminate|].
  intros H. rewrite IH by exact H. reflexivity.
Qed.

Lemma map_set_present m k g v :
  map_get m k = Some g ->
  total_duration (map snd (map_set m k v))
  = total_duration (map snd m) - SessionData.duration g
    + SessionData.duration v /\
  length (map_set m k v) = length m.
Proof.
  unfold total_duration.
  induction m as [|[k1 v1] m IH]; cbn; [discriminate|].
  destruct (key_eqb k1 k).
  - intros [= ->]. cbn. split; [lia|reflexivity].
  - intros H. destruct (IH H) as [I1 I2]. cbn. split; [lia|congruence].
Qed.

Lemma map_set_twice m k v v' :
  map_set (map_set m k v) k v' = map_set m k v'.
Proof.
  induction m as [|[k1 v1] m IH]; cbn.
  - rewrite key_eqb_refl. reflexivity.
  - destruct (key_eqb k1 k) eqn:E; cbn; rewrite E; [reflexivity|].
    f_equal. exact IH.
Qed.

Lemma group_step_total zone m x :
  total_duration (map snd (group_step zone m x))
  = total_duration (map snd m) + SessionData.duration x /\
  (length (group_step zone m x) <= S (length m))%nat.
Proof.
  unfold group_step, map_has. set (k := session_key zone x).
  destruct (map_get m k) as [g|] eqn:E; cbn [negb].
  - rewrite E.
    match goal with
    | |- context [map_set m k ?v] =>
        destruct (map_set_present m k g v E) as [H1 H2];
        rewrite H1, H2
    end.
    split; [|lia].
    destruct (newDate (SessionData.end_time x) >? _);
      unfold total_duration in *; cbn; lia.
  - rewrite map_get_set_same, map_set_twice.
    rewrite map_set_absent by exact E.
    rewrite map_app, total_duration_app, length_app. cbn.
    split; [|lia].
    destruct (newDate (SessionData.end_time x) >? _);
      unfold total_duration in *; cbn; lia.
Qed.

Lemma fold_total zone l m :
  total_duration (map snd (fold_left (group_step zone) l m))
  = total_duration (map snd m) + total_duration l /\
  (length (fold_left (group_step zone) l m) <= length m + length l)%nat.
Proof.
  revert m. induction l as [|x l IH]; intros m; cbn.
  - unfold total_duration. cbn. split; lia.
  - destruct (IH (group_step zone m x)) as [I1 I2].
    destruct (group_step_total zone m x) as [S1 S2].
    unfold total_duration in *. cbn in *. split; lia.
Qed.

(** Property X15.  Grouping loses no time: the durations of the group
    records add up to the durations of the sessions, and there are never
    more records than sessions. *)
Theorem grouping_keeps_total_duration (zone : TimeZone)
    (sessions : list SessionData.t) :
  total_duration (groupSessionsByLanguage zone sessions)
  = total_duration sessions /\
  (length (groupSessionsByLanguage zone sessions) <= length sessions)%nat.
Proof.
  rewrite grouped_values. unfold map_values.
  destruct (fold_total zone sessions []) as [H1 H2].
  rewrite length_map. cbn in *. split; lia.
Qed.









End GroupingMore.

(** ** More on the queue and the drain *)
Module QueueMore.
Import Env Extension Observe.
Import TrackerFacts QueueFacts.

Lemma slice_cut {A} (l : list A) (n : Z) :
  let cut := Z.to_nat (StorageService.relative_index
                         (Z.of_nat (length l)) n) in
  StorageService.slice l 0 n = firstn cut l /\
  StorageService.slice_from l n = skipn cut l.
Proof.
  cbv zeta. unfold StorageService.slice_from, StorageService.slice.
  set (len := Z.of_nat (length l)).
  assert (H0 : StorageService.relative_index len 0 = 0).
  { unfold StorageService.relative_index. cbn [Z.ltb Z.compare]. lia. }
  assert (Hl : StorageService.relative_index len len = len).
  { unfold StorageService.relative_index.
    destruct (Z.ltb_spec len 0); lia. }
  assert (Hn : 0 <= StorageService.relative_index len n <= len).
  { unfold StorageService.relative_index.
    destruct (Z.ltb_spec n 0); lia. }
  rewrite H0, Hl. set (r := StorageService.relative_index len n) in *.
  cbn [Z.to_nat skipn]. split.
  - f_equal. lia.
  - replace (Z.to_nat (Z.max (len - r) 0))
      with (length (skipn (Z.to_nat r) l)).
    + apply firstn_all.
    + rewrite length_skipn. subst len. lia.
Qed.

Lemma removeOfflineSessions_skipn (g : StorageService.Memento) (n : Z) :
  StorageService.removeOfflineSessions n true g
  = skipn (Z.to_nat (StorageService.relative_index
                       (Z.of_nat (length g)) n)) g.
Proof.
  unfold StorageService.removeOfflineSessions. cbv zeta.
  change (StorageService.getOfflineSessions None g) with g.
  apply (slice_cut g n).
Qed.

(** Property X1.  For every integer [n], also a negative one,
    [getOfflineSessions(n)] and [removeOfflineSessions(n)] cut the queue
    at the same index: the first is the part before it, the second the
    part from it on, and together they are the whole queue in order.  A
    removal whose store update fails leaves the queue as it is. *)
Theorem queue_split_at_limit (g : StorageService.Memento) (n : Z) :
  let cut := Z.to_nat (StorageService.relative_index
                         (Z.of_nat (length g)) n) in
  StorageService.getOfflineSessions (Some n) g = firstn cut g /\
  StorageService.removeOfflineSessions n true g = skipn cut g /\
  StorageService.getOfflineSessions (Some n) g
    ++ StorageService.removeOfflineSessions n true g = g /\
  StorageService.removeOfflineSessions n false g = g.
Proof.
  cbv zeta. unfold StorageService.getOfflineSessions,
    StorageService.removeOfflineSessions.
  cbv zeta.
  change (StorageService.getOfflineSessions None g) with g.
  destruct (slice_cut g n) as [H1 H2]. rewrite H1, H2.
  repeat split. apply firstn_skipn.
Qed.

Lemma has_sessions_iff (g : StorageService.Memento) :
  StorageService.hasOfflineSessions g = false <-> g = [].
Proof.
  unfold StorageService.hasOfflineSessions,
    StorageService.getOfflineSessionCount.
  destruct g; cbn; split; intros H; try reflexivity; discriminate.
Qed.

Lemma set_pendingUpload_same s :
  pendingUpload s = false -> set_pendingUpload false s = s.
Proof. destruct s. cbn. intros ->. reflexivity. Qed.

(** Property X3.  With an empty queue, with a drain already in flight, or
    without an API key, [sendOfflineSessions] does nothing at all: the
    state, the retry counter and the trace are unchanged and no request is
    made, whatever the outcome passed to it. *)
Theorem drain_guards_do_nothing (host : Host) (cfg : Config) (s : State) :
  offlineSessions s = [] \/ pendingUpload s = true
  \/ apiKey cfg = ""%string ->
  sendOfflineSessions_start host cfg s = (None, s) /\
  (forall sent update_ok,
     exec (sendOfflineSessions host cfg sent update_ok) s = s).
Proof.
  intros H.
  assert (E : sendOfflineSessions_start host cfg s = (None, s)).
  { unfold sendOfflineSessions_start, bind, gets, modify, ret.
    cbn [fst snd].
    destruct (StorageService.hasOfflineSessions (offlineSessions s)) eqn:Hh;
      cbn [negb orb]; [|reflexivity].
    destruct (pendingUpload s) eqn:Hp; [reflexivity|].
    destruct H as [H|[H|H]].
    - apply has_sessions_iff in H. congruence.
    - discriminate.
    - rewrite H. cbn [String.eqb]. f_equal.
      destruct s. cbn in *. subst. reflexivity. }
  split; [exact E|].
  intros sent update_ok. unfold sendOfflineSessions, exec, bind.
  rewrite E. reflexivity.
Qed.

Lemma escalated_cases cfg total :
  escalated cfg total
  = if total >? 500 then 100
    else if total >? 100 then 50 else uploadBatchSize cfg.
Proof. unfold escalated. destruct (total >? 500); reflexivity. Qed.

(** Property X4.  A drain that reaches its request uses a batch size of 100
    when more than 500 sessions are queued, of 50 when more than 100 are,
    and the configured size otherwise; with a non-negative size it sends
    the first [min(size, total)] queued sessions, posts their grouping as
    one batch and raises [pendingUpload]. *)
Theorem drain_batch_size (host : Host) (cfg : Config) (st : State)
    (frame : DrainFrame) (st1 : State) :
  sendOfflineSessions_start host cfg st = (Some frame, st1) ->
  let total := Z.of_nat (length (offlineSessions st)) in
  totalSessions frame = total /\
  batchSize frame
  = (if total >? 500 then 100
     else if total >? 100 then 50 else uploadBatchSize cfg) /\
  (0 <= batchSize frame ->
   sessionsToSend frame
   = firstn (Z.to_nat (batchSize frame)) (offlineSessions st) /\
   Z.of_nat (length (sessionsToSend frame))
   = Z.min (batchSize frame) total) /\
  trace st1
  = trace st
    ++ [HttpPostBatch
          (ApiService.groupSessionsByLanguage (zone host)
             (map format_offline (sessionsToSend frame)))] /\
  pendingUpload st1 = true.
Proof.
  intros Hs. cbv zeta.
  pose proof (start_Some host cfg st frame st1 Hs) as Hr.
  rewrite (start_ready host cfg st Hr) in Hs.
  injection Hs as Hf H1. rewrite <- Hf, <- H1.
  unfold drain_frame. cbn [totalSessions batchSize sessionsToSend
    set_trace set_pendingUpload trace pendingUpload].
  unfold StorageService.getOfflineSessionCount.
  split; [reflexivity|]. split; [apply escalated_cases|].
  split; [|split; reflexivity].
  intros Hb. unfold StorageService.getOfflineSessions.
  destruct (slice_cut (offlineSessions st)
              (escalated cfg (Z.of_nat (length (offlineSessions st)))))
    as [-> _].
  unfold StorageService.relative_index.
  destruct (Z.ltb_spec
    (escalated cfg (Z.of_nat (length (offlineSessions st)))) 0); [lia|].
  split.
  - destruct (Z.min_spec
      (escalated cfg (Z.of_nat (length (offlineSessions st))))
      (Z.of_nat (length (offlineSessions st)))) as [[Hlt ->]|[Hge ->]].
    + reflexivity.
    + rewrite Nat2Z.id, firstn_all. symmetry. apply firstn_all2. lia.
  - rewrite length_firstn. lia.
Qed.





End QueueMore.

(** ** Invariants of the event loop *)
Module EventFacts.
Import Env Extension Observe.
Import TrackerFacts QueueFacts GroupingFacts QueueMore.

(** Case analysis on every test of an unfolded handler. *)
Ltac innermost_test x :=
  lazymatch x with
  | context [match _ with _ => _ end] => fail
  | _ => destruct x eqn:?
  end.

Ltac split_tests :=
  repeat (cbn -[String.eqb];
          match goal with
          | |- context [match ?x with _ => _ end] => innermost_test x
          end).

Lemma timers_follow_tracking_step host s ce :
  timers_follow_tracking s -> timers_follow_tracking (step host s ce).
Proof.
  destruct ce as [cfg ev]. unfold timers_follow_tracking.
  destruct s. cbn [isTracking activeSession activityCheckInterval
                   uploadInterval lastActivityTime].
  intros [H1 H2].
  destruct isTracking0;
    [destruct (H2 eq_refl) as (Ha & Hu & Hl); clear H1 H2
    |destruct (H1 eq_refl) as (Ha & Hc & Hu); clear H1 H2; subst];
    unfold step; cbn [fst snd]; destruct ev; unfold_m;
    unfold StorageService.addOfflineSession;
    split_tests; cbn; repeat split; intros; congruence.
Qed.

Lemma timers_follow_tracking_run host events s :
  timers_follow_tracking s -> timers_follow_tracking (run host events s).
Proof.
  revert s. induction events as [|ce events IH]; cbn; intros s Hs.
  - exact Hs.
  - apply IH. apply timers_follow_tracking_step. exact Hs.
Qed.

(** Property X8.  After every sequence of events: while tracking is off
    there is no open session and neither timer is set; while tracking is
    on both timers are set and a last activity time is recorded. *)
Theorem tracking_flag_governs_timers_and_session (host : Host)
    (events : list (Config * Event)) :
  let st := run host events initial in
  (isTracking st = false ->
   activeSession st = None /\ activityCheckInterval st = None
   /\ uploadInterval st = None) /\
  (isTracking st = true ->
   activityCheckInterval st <> None /\ uploadInterval st <> None
   /\ lastActivityTime st <> None).
Proof.
  apply (timers_follow_tracking_run host events initial).
  split; intros H; [repeat split|discriminate].
Qed.

Ltac unfold_step :=
  unfold step; cbn [fst snd]; unfold_m;
  unfold StorageService.addOfflineSession.

(** Property X7.  One event changes the offline queue in one of three
    ways only: not at all, by appending one session at the tail, or by
    dropping a prefix.  Queued sessions are never reordered, replaced or
    removed from the middle. *)
Theorem queue_changes_only_at_its_ends (host : Host) (s : State)
    (ce : Config * Event) :
  let q := offlineSessions s in
  let q' := offlineSessions (step host s ce) in
  q' = q \/ (exists x, q' = q ++ [x]) \/ (exists k, q' = skipn k q).
Proof.
  cbv zeta. destruct ce as [cfg ev]. destruct s.
  destruct ev; unfold_step; split_tests; cbn; auto;
    try (right; left; eexists; reflexivity).
  all: right; right;
    unfold StorageService.removeOfflineSessions;
    change (StorageService.getOfflineSessions None offlineSessions0)
      with offlineSessions0;
    match goal with
    | |- context [if ?b then _ else _] => destruct b
    end;
    [ eexists; apply (proj2 (slice_cut _ _))
    | exists 0%nat; reflexivity ].
Qed.

Lemma length_posted_batches_snoc t e :
  length (posted_batches (t ++ [e]))
  = (length (posted_batches t)
     + match e with HttpPostBatch _ => 1 | _ => 0 end)%nat.
Proof.
  rewrite posted_batches_app, length_app. destruct e; reflexivity.
Qed.

Lemma drain_flag_step host s ce :
  drain_flag_inv s ->
  drain_flag_inv (step host s ce) /\
  (length (posted_batches (trace (step host s ce)))
   + in_flight s
   <= length (posted_batches (trace s)) + in_flight (step host s ce)
      + batch_settlements [ce])%nat.
Proof.
  destruct ce as [cfg ev]. unfold drain_flag_inv, in_flight,
    batch_settlements.
  destruct s. cbn [pendingUpload suspendedDrain trace].
  intros H.
  assert (Hp : pendingUpload0
               = match suspendedDrain0 with Some _ => true | None => false end).
  { destruct suspendedDrain0, pendingUpload0; try reflexivity.
    - exfalso. destruct H as [_ H]. assert (true = false -> False) by discriminate.
      specialize (H ltac:(discriminate)). discriminate.
    - exfalso. destruct H as [H _]. apply (H eq_refl). reflexivity. }
  subst pendingUpload0. clear H.
  destruct suspendedDrain0;
    destruct ev; unfold_step; rewrite ?orb_true_r, ?orb_false_r;
    split_tests; cbn;
    rewrite <- ?app_assoc; cbn;
    repeat rewrite ?length_posted_batches_snoc, ?posted_batches_app,
      ?length_app; cbn;
    (split; [split; intros Hx; try congruence; exfalso; apply Hx; reflexivity|]);
    repeat match goal with
           | |- context [StorageService.maybeTriggerOfflineWarning ?c] =>
               rewrite (proj2 (warning_posts_nothing c))
           end; cbn; unfold posted_batches; lia.
Qed.

Lemma batch_settlements_cons ce events :
  batch_settlements (ce :: events)
  = (batch_settlements [ce] + batch_settlements events)%nat.
Proof.
  unfold batch_settlements. cbn.
  destruct (match snd ce with BatchSettled _ _ => true | _ => false end);
    reflexivity.
Qed.

Lemma drain_flag_run host events s :
  drain_flag_inv s ->
  drain_flag_inv (run host events s) /\
  (length (posted_batches (trace (run host events s))) + in_flight s
   <= length (posted_batches (trace s)) + in_flight (run host events s)
      + batch_settlements events)%nat.
Proof.
  revert s. induction events as [|ce events IH]; cbn [run fold_left];
    intros s Hs.
  - split; [exact Hs|]. cbn. lia.
  - destruct (drain_flag_step host s ce Hs) as [H1 H2].
    destruct (IH _ H1) as [H3 H4]. split; [exact H3|].
    rewrite batch_settlements_cons.
    change (fold_left (step host) events (step host s ce))
      with (run host events (step host s ce)).
    lia.
Qed.

(** Property X6.  After every sequence of events, [pendingUpload] is set
    exactly while a batch request waits to settle, and the number of batch
    requests made is at most the number of settlements delivered plus the
    one request in flight: drains never overlap. *)
Theorem at_most_one_batch_in_flight (host : Host)
    (events : list (Config * Event)) :
  let st := run host events initial in
  (pendingUpload st = true <-> suspendedDrain st <> None) /\
  (length (posted_batches (trace st))
   <= batch_settlements events
      + match suspendedDrain st with Some _ => 1 | None => 0 end)%nat.
Proof.
  cbv zeta.
  assert (H0 : drain_flag_inv initial).
  { split; intros H; [discriminate|]. exfalso. apply H. reflexivity. }
  destruct (drain_flag_run host events initial H0) as [H1 H2].
  split; [exact H1|]. unfold in_flight in H2. cbn in H2. lia.
Qed.

Lemma grouped_offline_label_free zone batch :
  Forall (fun g =>
    SessionData.project_name g = Some "Unknown"%string /\
    SessionData.file_path g = Some ""%string)
    (ApiService.groupSessionsByLanguage zone (map format_offline batch)).
Proof.
  apply Forall_forall. intros g Hg.
  apply grouped_summarises in Hg.
  destruct Hg as (_ & _ & _ & _ & f & rest & Hms & Hp & Hpath).
  assert (Hf : In f (map format_offline batch)).
  { assert (Hin : In f (Grouping.members zone (Grouping.group_key g)
                          (map format_offline batch)))
      by (rewrite Hms; left; reflexivity).
    apply filter_In in Hin. apply Hin. }
  apply in_map_iff in Hf.
  destruct Hf as (o & <- & _). cbn in Hp, Hpath. auto.
Qed.

Lemma label_free_step host s ce :
  Forall label_free (trace s) -> Forall label_free (trace (step host s ce)).
Proof.
  destruct ce as [cfg ev]. destruct s. cbn [trace]. intros H.
  destruct ev; unfold_step; split_tests; cbn;
    rewrite <- ?app_assoc; cbn;
    repeat (apply Forall_app; split); try exact H;
    repeat constructor;
    try apply grouped_offline_label_free.
  all: unfold StorageService.maybeTriggerOfflineWarning;
    match goal with
    | |- context [if ?b then _ else _] => destruct b
    end; repeat constructor.
Qed.

Lemma label_free_run host events s :
  Forall label_free (trace s) ->
  Forall label_free (trace (run host events s)).
Proof.
  revert s. induction events as [|ce events IH]; cbn; intros s Hs.
  - exact Hs.
  - apply IH. apply label_free_step. exact Hs.
Qed.

(** Property X10.  After every sequence of events, no request carries a
    project name or a file path of the user: every single-session payload
    has neither field, and every group of every batch has the default
    project name ["Unknown"] and the empty file path. *)
Theorem requests_carry_no_labels (host : Host)
    (events : list (Config * Event)) :
  let st := run host events initial in
  Forall (fun d => SessionData.project_name d = None
                   /\ SessionData.file_path d = None)
    (posted_sessions (trace st)) /\
  Forall (Forall (fun g =>
            SessionData.project_name g = Some "Unknown"%string /\
            SessionData.file_path g = Some ""%string))
    (posted_batches (trace st)).
Proof.
  cbv zeta.
  pose proof (label_free_run host events initial (Forall_nil _)) as H.
  induction (trace (run host events initial)) as [|e t IH]; cbn.
  - split; constructor.
  - inversion H as [|? ? He Ht]; subst. destruct (IH Ht) as [I1 I2].
    destruct e; cbn; auto.
Qed.

Lemma existsb_eqb_false p l :
  existsb (String.eqb p) l = false -> ~ In p l.
Proof.
  intros H Hin.
  assert (existsb (String.eqb p) l = true).
  { apply existsb_exists. exists p. split; [exact Hin|apply String.eqb_refl]. }
  congruence.
Qed.

Lemma avoids_projects_step host excluded s ce :
  excludedProjects (fst ce) = excluded ->
  avoids_projects excluded s -> avoids_projects excluded (step host s ce).
Proof.
  destruct ce as [cfg ev]. cbn [fst]. intros <-.
  unfold avoids_projects. destruct s. cbn [activeSession history].
  intros [Ha Hh].
  destruct ev; unfold_step; split_tests; cbn -[String.eqb];
    (split;
     [ intros a' Heq;
       first [ discriminate
             | exact (Ha _ Heq)
             | injection Heq as <-; cbn;
               first [ apply Ha; reflexivity
                     | apply existsb_eqb_false; assumption ] ]
     | rewrite <- ?app_assoc;
       repeat (apply Forall_app; split); try exact Hh;
       repeat constructor; cbn;
       try (apply Ha; reflexivity);
       try (apply existsb_eqb_false; assumption) ]).
Qed.

Lemma avoids_projects_run host excluded events s :
  Forall (fun ce => excludedProjects (fst ce) = excluded) events ->
  avoids_projects excluded s ->
  avoids_projects excluded (run host events s).
Proof.
  revert s. induction events as [|ce events IH]; cbn; intros s He Hs.
  - exact Hs.
  - inversion He as [|? ? H1 H2]. apply IH; [exact H2|].
    apply avoids_projects_step; assumption.
Qed.

(** Property X11.  While the list of excluded projects stays the same,
    no session of an excluded project is ever opened: neither the open
    session nor any session in the life cycle log belongs to one. *)
Theorem excluded_projects_are_never_tracked (host : Host)
    (excluded : list string) (events : list (Config * Event)) :
  Forall (fun ce => excludedProjects (fst ce) = excluded) events ->
  let st := run host events initial in
  (forall a, activeSession st = Some a
             -> ~ In (Session.projectName a) excluded) /\
  Forall (fun e => ~ In (Session.projectName (session_of e)) excluded)
    (history st).
Proof.
  intros He. apply avoids_projects_run; [exact He|].
  split; [discriminate|constructor].
Qed.

Lemma Forall_prefix {A} (P : A -> Prop) n l :
  Forall P l -> Forall P (firstn n l).
Proof.
  revert l. induction n as [|n IH]; intros l H; cbn; [constructor|].
  destruct H; constructor; auto.
Qed.

Lemma Forall_suffix {A} (P : A -> Prop) n l :
  Forall P l -> Forall P (skipn n l).
Proof.
  revert l. induction n as [|n IH]; intros l H; cbn; [exact H|].
  destruct H; [constructor|auto].
Qed.

Lemma Forall_remove_nth {A} (P : A -> Prop) n l :
  Forall P l -> Forall P (remove_nth n l).
Proof.
  intros H. unfold remove_nth. apply Forall_app. split.
  - apply Forall_prefix. exact H.
  - apply Forall_suffix. exact H.
Qed.

Lemma Forall_nth_error {A} (P : A -> Prop) n l x :
  Forall P l -> nth_error l n = Some x -> P x.
Proof.
  intros H E. apply nth_error_In in E.
  rewrite Forall_forall in H. apply H. exact E.
Qed.

Lemma Forall_removeOfflineSessions (P : OfflineSession.t -> Prop)
    count update_ok g :
  Forall P g ->
  Forall P (StorageService.removeOfflineSessions count update_ok g).
Proof.
  intros H. destruct update_ok.
  - rewrite removeOfflineSessions_skipn.
    apply Forall_suffix. exact H.
  - exact H.
Qed.

Lemma long_enough_step host m s ce :
  m <= minSessionDuration (fst ce) ->
  long_enough m s -> long_enough m (step host s ce).
Proof.
  destruct ce as [cfg ev]. cbn [fst]. intros Hm.
  unfold long_enough. destruct s. cbn [trace pendingSaves offlineSessions].
  intros (Ht & Hp & Hq).
  destruct ev; unfold_step; split_tests; cbn;
    rewrite <- ?app_assoc; cbn;
    repeat match goal with
           | H : (_ >=? _) = true |- _ => apply Z.geb_le in H
           | H : nth_error pendingSaves0 _ = Some _ |- _ =>
               apply (Forall_nth_error _ _ _ _ Hp) in H; cbn in H
           end;
    (split; [|split]);
    repeat (apply Forall_app; split);
    try apply Forall_remove_nth;
    try assumption;
    repeat constructor; cbn; try lia.
  all: try (unfold StorageService.maybeTriggerOfflineWarning;
            match goal with
            | |- context [if ?b then _ else _] => destruct b
            end; repeat constructor).
  all: first [ apply Forall_removeOfflineSessions; assumption
             | apply Forall_prefix; assumption
             | apply Forall_suffix; assumption
             | match goal with
               | k : nat |- _ => exact (Forall_suffix _ (S k) _ Hp)
               end ].
Qed.

Lemma long_enough_run host m events s :
  Forall (fun ce => m <= minSessionDuration (fst ce)) events ->
  long_enough m s -> long_enough m (run host events s).
Proof.
  revert s. induction events as [|ce events IH]; cbn; intros s He Hs.
  - exact Hs.
  - inversion He as [|? ? H1 H2]. apply IH; [exact H2|].
    apply long_enough_step; assumption.
Qed.

(** Property X12.  When every event arrives with a minimum session
    duration of at least [m], every session that was posted, that waits
    for its send to settle, or that sits in the offline queue lasted at
    least [m] seconds. *)
Theorem short_sessions_never_leave_the_tracker (host : Host) (m : Z)
    (events : list (Config * Event)) :
  Forall (fun ce => m <= minSessionDuration (fst ce)) events ->
  let st := run host events initial in
  Forall (fun d => m <= SessionData.duration d)
    (posted_sessions (trace st)) /\
  Forall (fun p => m <= Session.duration (fst p)) (pendingSaves st) /\
  Forall (fun o => m <= OfflineSession.duration o) (offlineSessions st).
Proof.
  intros He. cbv zeta.
  destruct (long_enough_run host m events initial He) as (Ht & Hp & Hq).
  { repeat split; constructor. }
  split; [|split; assumption].
  induction (trace (run host events initial)) as [|e t IH]; cbn.
  - constructor.
  - inversion Ht as [|? ? H1 H2]; subst. specialize (IH H2).
    destruct e; cbn; auto.
Qed.

(** Property X9.  The idle check closes nothing unless the idle time is
    strictly above the threshold: without an open session or a recorded
    activity it leaves the state untouched, and with an idle time of at
    most the threshold it only reads the clock. *)
Theorem idle_check_closes_only_past_threshold (host : Host) (cfg : Config)
    (idleThresholdSeconds : Z) (st : State) :
  (activeSession st = None \/ lastActivityTime st = None ->
   exec (checkActivity host cfg idleThresholdSeconds) st = st) /\
  (forall a lastActivity,
     activeSession st = Some a ->
     lastActivityTime st = Some lastActivity ->
     clock host (clockReads st) - lastActivity
     <= idleThresholdSeconds * 1000 ->
     exec (checkActivity host cfg idleThresholdSeconds) st
     = set_clockReads (S (clockReads st)) st).
Proof.
  split.
  - intros H. unfold exec, checkActivity, bind, gets, skip, ret.
    cbn [fst snd].
    destruct (activeSession st); destruct (lastActivityTime st);
      try reflexivity.
    destruct H; discriminate.
  - intros a lastActivity Ha Hl Hle.
    unfold exec, checkActivity, bind, gets, skip, ret, newDate.
    cbn [fst snd]. rewrite Ha, Hl. cbn [fst snd].
    destruct (Z.gtb_spec (clock host (clockReads st) - lastActivity)
                         (idleThresholdSeconds * 1000)); [lia|reflexivity].
Qed.

(** Property X17.  While tracking is off, document, editor and window
    events, the idle timer and the stop command change nothing at all. *)
Theorem events_are_ignored_while_not_tracking (host : Host)
    (events : list (Config * Event)) (cfg : Config) (ev : Event) :
  let st := run host events initial in
  isTracking st = false ->
  editor_event ev ->
  step host st (cfg, ev) = st.
Proof.
  cbv zeta. intros Ht Hev.
  destruct (timers_follow_tracking_run host events initial) as [H1 _].
  { split; intros H; [repeat split|discriminate]. }
  destruct (H1 Ht) as (Ha & Hc & Hu).
  destruct (run host events initial). cbn in *. subst.
  destruct ev; try contradiction; unfold_step; cbn;
    try reflexivity; destruct editor; reflexivity.
Qed.

(** Property X18.  [stopTracking] does nothing when tracking is off.
    When it is on, it turns tracking off, clears both timers, closes the
    open session if there is one (stamped with the current time), and a
    second [stopTracking] changes nothing more. *)
Theorem stopTracking_closes_and_clears (host : Host) (cfg : Config)
    (st : State) :
  (isTracking st = false -> exec (stopTracking host cfg) st = st) /\
  (isTracking st = true ->
   let st' := exec (stopTracking host cfg) st in
   isTracking st' = false /\
   activeSession st' = None /\
   activityCheckInterval st' = None /\
   uploadInterval st' = None /\
   history st'
   = history st
     ++ match activeSession st with
        | Some a => [Closed (stamp a (clock host (clockReads st)))]
        | None => []
        end /\
   exec (stopTracking host cfg) st' = st').
Proof.
  split.
  - intros H. unfold exec, stopTracking, bind, gets, skip, ret.
    cbn [fst snd]. rewrite H. reflexivity.
  - intros H. cbv zeta. destruct st. cbn in H. subst.
    unfold_m. split_tests; cbn; rewrite ?app_nil_r; auto 10.
Qed.


End EventFacts.

(** ** The summary view *)
Module ViewFacts.
Import JSDate DateFacts SummaryView.

Lemma cap_ten {A} (x : A) (l : list A) :
  (length l <= 10)%nat ->
  (if Z.of_nat (length (x :: l)) >? 10 then removelast (x :: l) else x :: l)
  = firstn 10 (x :: l).
Proof.
  intros H. destruct (Z.gtb_spec (Z.of_nat (length (x :: l))) 10) as [G|G].
  - rewrite removelast_firstn_len. f_equal. cbn [length] in *. lia.
  - symmetry. apply firstn_all2. cbn [length] in *. lia.
Qed.

Lemma completed_after zone calls v :
  completedSessions (add_all zone calls v)
  = firstn 10 (rev (map snd calls) ++ completedSessions v)
  \/ (length (completedSessions v) > 10)%nat.
Proof.
  destruct (Nat.le_gt_cases (length (completedSessions v)) 10) as [Hle|Hgt];
    [left|right; exact Hgt].
  revert v Hle. induction calls as [|[now s] calls IH]; intros v Hle.
  - unfold add_all. cbn [fold_left map rev app]. symmetry.
    apply firstn_all2. exact Hle.
  - cbn [add_all fold_left fst snd map rev].
    change (fold_left _ calls ?v') with (add_all zone calls v').
    rewrite IH.
    + unfold addCompletedSession. cbn [completedSessions].
      rewrite cap_ten by exact Hle.
      rewrite <- app_assoc. cbn [app].
      set (r := rev (map snd calls)).
      clearbody r. clear IH.
      (* firstn 10 (r ++ firstn 10 (s :: cs)) = firstn 10 (r ++ s :: cs) *)
      rewrite !firstn_app. f_equal.
      rewrite firstn_firstn. f_equal. lia.
    + unfold addCompletedSession. cbn [completedSessions].
      rewrite cap_ten by exact Hle. rewrite length_firstn. lia.
Qed.

(** Property X20.  After any series of [addCompletedSession] calls on a
    fresh provider, [completedSessions] holds the ten most recently added
    sessions, newest first, and never more than ten. *)
Theorem completed_sessions_are_the_ten_latest (zone : TimeZone)
    (calls : list (Z * Session.t)) :
  let v := add_all zone calls empty in
  completedSessions v = firstn 10 (rev (map snd calls)) /\
  (length (completedSessions v) <= 10)%nat.
Proof.
  cbv zeta. destruct (completed_after zone calls empty) as [H|H].
  - rewrite H. cbn [completedSessions empty]. rewrite app_nil_r.
    split; [reflexivity|]. rewrite length_firstn. lia.
  - cbn in H. lia.
Qed.

Lemma setHours_midnight_le tza now :
  setHours (fixed tza) now 0 0 0 0 <= now.
Proof.
  rewrite setHours_zone, UTC_fixed, LocalTime_fixed.
  unfold MakeTime, Day, msPerDay, msPerHour, msPerMinute, msPerSecond.
  Z.div_mod_to_equations. lia.
Qed.




Lemma insert_perm {A} (cmp : A -> A -> Z) x l :
  Permutation (insert cmp x l) (x :: l).
Proof.
  induction l as [|y l IH]; cbn; [apply Permutation_refl|].
  destruct (cmp x y <=? 0); [apply Permutation_refl|].
  etransitivity; [apply perm_skip, IH|apply perm_swap].
Qed.

Lemma sort_perm {A} (cmp : A -> A -> Z) l : Permutation (sort cmp l) l.
Proof.
  induction l as [|x l IH]; cbn; [constructor|].
  etransitivity; [apply insert_perm|apply perm_skip, IH].
Qed.

Lemma insert_sorted x l :
  Sorted descending l ->
  Sorted descending (insert (fun a b => duration b - duration a) x l).
Proof.
  induction l as [|y l IH]; intros Hs; cbn.
  - repeat constructor.
  - destruct (Z.leb_spec (duration y - duration x) 0) as [H|H].
    + constructor; [exact Hs|]. constructor. unfold descending. lia.
    + inversion Hs as [|? ? Hs' Hhd]; subst.
      constructor; [apply IH; exact Hs'|].
      destruct l as [|z l]; cbn.
      * constructor. unfold descending. lia.
      * destruct (duration z - duration x <=? 0); constructor;
          unfold descending; try lia.
        inversion Hhd; assumption.
Qed.

Lemma sort_sorted l :
  Sorted descending (sort (fun a b => duration b - duration a) l).
Proof.
  induction l as [|x l IH]; cbn; [constructor|].
  apply insert_sorted. exact IH.
Qed.

Lemma calculateTotalDuration_spec sessions :
  calculateTotalDuration sessions
  = fold_right (fun s acc => Session.duration s + acc) 0 sessions.
Proof.
  unfold calculateTotalDuration.
  assert (G : forall acc,
    fold_left (fun total s => total + Session.duration s) sessions acc
    = acc + fold_right (fun s a => Session.duration s + a) 0 sessions).
  { induction sessions as [|x l IH]; intros acc; cbn; [lia|].
    rewrite IH. lia. }
  rewrite G. lia.
Qed.

Lemma vget_set_same m k v : map_get (map_set m k v) k = Some v.
Proof.
  induction m as [|[k' v'] m IH]; cbn.
  - rewrite Z.eqb_refl. reflexivity.
  - destruct (k' =? k) eqn:E; cbn; rewrite E; auto.
Qed.

Lemma vget_set_other m k v k' :
  k' <> k -> map_get (map_set m k v) k' = map_get m k'.
Proof.
  intros Hne. induction m as [|[k1 v1] m IH]; cbn.
  - destruct (Z.eqb_spec k k'); [congruence|reflexivity].
  - destruct (Z.eqb_spec k1 k); cbn.
    + subst. destruct (Z.eqb_spec k k'); [congruence|reflexivity].
    + destruct (k1 =? k'); auto.
Qed.

Lemma vset_keys m k v :
  map fst (map_set m k v)
  = if map_has m k then map fst m else map fst m ++ [k].
Proof.
  unfold map_has. induction m as [|[k1 v1] m IH]; cbn; [reflexivity|].
  destruct (k1 =? k) eqn:E; cbn; [reflexivity|].
  rewrite IH. destruct (map_get m k); reflexivity.
Qed.

Lemma vget_none_keys m k : map_get m k = None -> ~ In k (map fst m).
Proof.
  induction m as [|[k1 v1] m IH]; cbn; [tauto|].
  destruct (Z.eqb_spec k1 k); [discriminate|].
  intros H [H1|H1]; [contradiction|exact (IH H H1)].
Qed.

Lemma vget_in m k v :
  NoDup (map fst m) -> In (k, v) m -> map_get m k = Some v.
Proof.
  induction m as [|[k1 v1] m IH]; cbn; [tauto|].
  intros Hnd [H|H].
  - inversion H; subst. rewrite Z.eqb_refl. reflexivity.
  - inversion Hnd as [|? ? Hnot Hnd']; subst.
    destruct (Z.eqb_spec k1 k).
    + subst. exfalso. apply Hnot. apply (in_map fst) in H. exact H.
    + auto.
Qed.

Lemma vset_twice m k v v' : map_set (map_set m k v) k v' = map_set m k v'.
Proof.
  induction m as [|[k1 v1] m IH]; cbn.
  - rewrite Z.eqb_refl. reflexivity.
  - destruct (k1 =? k) eqn:E; cbn; rewrite E; [reflexivity|].
    f_equal. exact IH.
Qed.

Lemma sessions_total_app l1 l2 :
  sessions_total (l1 ++ l2) = sessions_total l1 + sessions_total l2.
Proof.
  unfold sessions_total. induction l1 as [|a l1 IH]; cbn; [reflexivity|].
  rewrite IH. lia.
Qed.

Lemma of_language_snoc k seen x :
  of_language k (seen ++ [x])
  = of_language k seen
    ++ (if LanguageService.id (Session.language x) =? k then [x] else []).
Proof. unfold of_language. rewrite filter_app. reflexivity. Qed.

Lemma view_inv_step seen m x :
  view_inv seen m -> view_inv (seen ++ [x]) (group_step m x).
Proof.
  intros [Hnd Hget]. unfold group_step, map_has.
  set (k0 := LanguageService.id (Session.language x)).
  pose proof (Hget k0) as H0.
  destruct (map_get m k0) as [g|] eqn:Eg; cbn [negb].
  - rewrite Eg. split.
    + rewrite vset_keys. unfold map_has. rewrite Eg. exact Hnd.
    + intros k. destruct (Z.eq_dec k k0) as [->|Hne].
      * rewrite vget_set_same. rewrite of_language_snoc.
        fold k0. rewrite Z.eqb_refl. cbn [language duration].
        destruct H0 as (Hk & Hd & Hn). repeat split.
        -- exact Hk.
        -- rewrite sessions_total_app. unfold sessions_total at 2. cbn.
           lia.
        -- intros E. apply app_eq_nil in E. destruct E. discriminate.
      * rewrite vget_set_other by exact Hne. rewrite of_language_snoc.
        fold k0. destruct (Z.eqb_spec k0 k); [congruence|].
        rewrite app_nil_r. apply Hget.
  - rewrite vget_set_same, vset_twice. split.
    + rewrite vset_keys. unfold map_has. rewrite Eg.
      apply NoDup_app; [exact Hnd|repeat constructor; cbn; tauto|].
      intros k Hin [<-|[]]. exact (vget_none_keys _ _ Eg Hin).
    + intros k. destruct (Z.eq_dec k k0) as [->|Hne].
      * rewrite vget_set_same. rewrite of_language_snoc.
        fold k0. rewrite Z.eqb_refl, H0. cbn. repeat split.
        -- unfold sessions_total. cbn. lia.
        -- discriminate.
      * rewrite vget_set_other by exact Hne. rewrite of_language_snoc.
        fold k0. destruct (Z.eqb_spec k0 k); [congruence|].
        rewrite app_nil_r. apply Hget.
Qed.

Lemma view_inv_fold sessions :
  view_inv sessions (fold_left group_step sessions []).
Proof.
  induction sessions as [|x l IH] using rev_ind.
  - split; [constructor|]. intros k. reflexivity.
  - rewrite fold_left_app. cbn. apply view_inv_step. exact IH.
Qed.

Lemma groups_total_perm l1 l2 :
  Permutation l1 l2 -> groups_total l1 = groups_total l2.
Proof.
  unfold groups_total. induction 1; cbn; lia.
Qed.

Lemma view_step_total m x :
  groups_total (map snd (group_step m x))
  = groups_total (map snd m) + Session.duration x.
Proof.
  unfold group_step, map_has.
  set (k0 := LanguageService.id (Session.language x)).
  assert (Hset : forall m g v, map_get m k0 = Some g ->
    groups_total (map snd (map_set m k0 v))
    = groups_total (map snd m) - duration g + duration v).
  { clear. unfold groups_total. intros m g v.
    induction m as [|[k1 v1] m IH]; cbn; [discriminate|].
    destruct (k1 =? k0).
    - intros [= ->]. cbn. lia.
    - intros H. cbn. rewrite (IH H). lia. }
  assert (Hnew : forall m v, map_get m k0 = None ->
    groups_total (map snd (map_set m k0 v))
    = groups_total (map snd m) + duration v).
  { clear. unfold groups_total. intros m v.
    induction m as [|[k1 v1] m IH]; cbn; [lia|].
    destruct (k1 =? k0); [discriminate|].
    intros H. cbn. rewrite (IH H). lia. }
  destruct (map_get m k0) as [g|] eqn:Eg; cbn [negb].
  - rewrite Eg. rewrite (Hset m g _ Eg). cbn. lia.
  - rewrite vget_set_same, vset_twice. rewrite (Hnew m _ Eg). cbn. lia.
Qed.

Lemma view_fold_total l m :
  groups_total (map snd (fold_left group_step l m))
  = groups_total (map snd m) + sessions_total l.
Proof.
  revert m. induction l as [|x l IH]; intros m; cbn [fold_left].
  - unfold sessions_total. cbn [fold_right]. lia.
  - rewrite IH, view_step_total. unfold sessions_total.
    cbn [fold_right]. lia.
Qed.

(** Property X22.  The language summary of the view is in descending
    order of duration, has one group per language id, gives each group the
    total duration of the sessions of its language, covers every session,
    and adds up to the total duration of all sessions. *)
Theorem summary_groups_are_sorted_and_complete
    (sessions : list Session.t) :
  let groups := groupSessionsByLanguage sessions in
  Sorted (fun a b => duration b <= duration a) groups /\
  NoDup (map (fun g => LanguageService.id (language g)) groups) /\
  (forall g, In g groups ->
     let mine := of_language (LanguageService.id (language g)) sessions in
     mine <> [] /\ duration g = calculateTotalDuration mine) /\
  (forall s, In s sessions ->
     exists g, In g groups
               /\ LanguageService.id (language g)
                  = LanguageService.id (Session.language s)) /\
  groups_total groups = calculateTotalDuration sessions.
Proof.
  cbv zeta. unfold groupSessionsByLanguage.
  set (m := fold_left group_step sessions []).
  destruct (view_inv_fold sessions) as [Hnd Hget]. fold m in Hnd, Hget.
  pose proof (sort_perm (fun a b => duration b - duration a) (map snd m))
    as Hperm.
  assert (Hkeys : map (fun g => LanguageService.id (language g)) (map snd m)
                  = map fst m).
  { rewrite map_map. apply map_ext_in. intros [k g] Hin. cbn.
    pose proof (vget_in _ _ _ Hnd Hin) as E.
    specialize (Hget k). rewrite E in Hget. apply Hget. }
  split; [apply sort_sorted|]. split; [|split; [|split]].
  - eapply Permutation_NoDup.
    + apply Permutation_map. symmetry. exact Hperm.
    + rewrite Hkeys. exact Hnd.
  - intros g Hin. eapply Permutation_in in Hin; [|exact Hperm].
    apply in_map_iff in Hin. destruct Hin as ([k g'] & <- & Hin). cbn.
    pose proof (vget_in _ _ _ Hnd Hin) as E.
    specialize (Hget k). rewrite E in Hget.
    destruct Hget as (Hk & Hd & Hn). rewrite Hk.
    split; [exact Hn|]. rewrite calculateTotalDuration_spec. exact Hd.
  - intros s Hs.
    specialize (Hget (LanguageService.id (Session.language s))).
    destruct (map_get m _) as [g|] eqn:E.
    + exists g. split; [|apply Hget].
      eapply Permutation_in; [symmetry; exact Hperm|].
      apply in_map_iff. exists (LanguageService.id (Session.language s), g).
      split; [reflexivity|].
      clear - E. induction m as [|[k1 v1] m IH]; cbn in *; [discriminate|].
      destruct (Z.eqb_spec k1 (LanguageService.id (Session.language s))).
      * injection E as ->. left. congruence.
      * right. auto.
    + exfalso.
      assert (In s (of_language (LanguageService.id (Session.language s))
                      sessions)).
      { apply filter_In. split; [exact Hs|apply Z.eqb_refl]. }
      rewrite Hget in H. exact H.
  - rewrite (groups_total_perm _ _ Hperm).
    unfold m. rewrite view_fold_total, calculateTotalDuration_spec.
    unfold groups_total, sessions_total. cbn. lia.
Qed.

End ViewFacts.

(** ** Language detection *)
Module LanguageFacts.
Import LanguageService.

Section WithStrings.
Variable toLowerCase : string -> string.
Variable extname : string -> string.

Lemma lget_set_same m k v : map_get (map_set m k v) k = Some v.
Proof.
  induction m as [|[k' v'] m IH]; cbn.
  - rewrite String.eqb_refl. reflexivity.
  - destruct (String.eqb k' k) eqn:E; cbn; rewrite E; auto.
Qed.

Lemma lget_set_other m k v k' :
  k' <> k -> map_get (map_set m k v) k' = map_get m k'.
Proof.
  intros Hne. induction m as [|[k1 v1] m IH]; cbn.
  - destruct (String.eqb_spec k k'); [congruence|reflexivity].
  - destruct (String.eqb_spec k1 k); cbn.
    + subst. destruct (String.eqb_spec k k'); [congruence|reflexivity].
    + destruct (String.eqb k1 k'); auto.
Qed.

Lemma lget_set_values m k v k' r P :
  (forall k0 r0, map_get m k0 = Some r0 -> P r0) -> P v ->
  map_get (map_set m k v) k' = Some r -> P r.
Proof.
  intros Hm Hv. destruct (string_dec k' k) as [->|Hne].
  - rewrite lget_set_same. intros [= <-]. exact Hv.
  - rewrite lget_set_other by exact Hne. apply Hm.
Qed.

Lemma fold_set_values exts m v k r (P : Language -> Prop) :
  (forall k0 r0, map_get m k0 = Some r0 -> P r0) -> P v ->
  map_get (fold_left (fun m ext => map_set m ext v) exts m) k = Some r ->
  P r.
Proof.
  revert m. induction exts as [|e exts IH]; intros m Hm Hv; cbn.
  - apply Hm.
  - apply IH; [|exact Hv]. intros k0 r0. eapply lget_set_values; eassumption.
Qed.

Lemma find_append {A} (f : A -> bool) l1 l2 :
  find f (l1 ++ l2)
  = match find f l1 with
    | Some x => Some x
    | None => find f l2
    end.
Proof.
  induction l1 as [|a l1 IH]; cbn; [reflexivity|].
  destruct (f a); [reflexivity|exact IH].
Qed.

Lemma register_all_spec languages : forall e i e' i',
  register_all toLowerCase (e, i) languages = Some (e', i') ->
  (forall k,
     map_get i' k
     = match last_named toLowerCase k languages with
       | Some l => Some l
       | None => map_get i k
       end) /\
  (forall (P : Language -> Prop),
     (forall k r, map_get e k = Some r -> P r) ->
     (forall l, In l languages -> P l) ->
     forall k r, map_get e' k = Some r -> P r).
Proof.
  induction languages as [|lang rest IH]; intros e i e' i'.
  - cbn. intros [= <- <-]. split; [reflexivity|]. intros P He _. exact He.
  - cbn [register_all]. unfold register at 1.
    destruct (getExtensionsForLanguage (toLowerCase (name lang)))
      as [exts|]; [|discriminate].
    intros H. destruct (IH _ _ _ _ H) as [Hi He]. split.
    + intros k. rewrite Hi. unfold last_named. cbn [rev].
      rewrite find_append.
      destruct (find _ (rev rest)); [reflexivity|]. cbn [find].
      destruct (String.eqb_spec (toLowerCase (name lang)) k) as [->|Hne].
      * apply lget_set_same.
      * apply lget_set_other. congruence.
    + intros P Hp Hl. apply He.
      * intros k r. apply fold_set_values; [exact Hp|].
        apply Hl. left. reflexivity.
      * intros l Hin. apply Hl. right. exact Hin.
Qed.

(** Property X23.  After a [setLanguages] that completes, the service
    lists the languages it was given; [detectLanguage] returns one of them
    or the unknown language with id 0; and a non-empty language id whose
    lower-cased form names a listed language yields the last such
    language of the list, whatever the file path. *)
Theorem detection_after_setLanguages (languages : list Language)
    (service : Service) :
  setLanguages toLowerCase languages = Some service ->
  getAllLanguages service = languages /\
  (forall filePath languageId,
     let found := detectLanguage toLowerCase extname service filePath
                    languageId in
     In found languages \/ found = unknown_language languageId) /\
  (forall filePath languageId l,
     languageId <> ""%string ->
     last_named toLowerCase (toLowerCase languageId) languages = Some l ->
     detectLanguage toLowerCase extname service filePath languageId = l).
Proof.
  unfold setLanguages.
  destruct (register_all toLowerCase ([], []) languages) as [[e i]|] eqn:E;
    [|discriminate].
  intros [= <-]. destruct (register_all_spec _ _ _ _ _ E) as [Hi He].
  split; [reflexivity|]. split.
  - intros filePath languageId. cbv zeta. unfold detectLanguage.
    cbn [languageIdMap extensionMap].
    destruct (String.eqb languageId "") eqn:Eid.
    + destruct (String.eqb filePath "").
      * right. unfold unknown_language. rewrite Eid. reflexivity.
      * destruct (map_get e _) as [r|] eqn:Er.
        -- left. refine (He (fun r => In r languages) _ _ _ _ Er);
             [discriminate|auto].
        -- right. unfold unknown_language. rewrite Eid. reflexivity.
    + rewrite Hi. unfold last_named.
      destruct (find _ (rev languages)) as [r|] eqn:Ef.
      * left. apply find_some in Ef. apply in_rev. apply Ef.
      * cbn [map_get]. destruct (String.eqb filePath "").
        -- right. unfold unknown_language. rewrite Eid. reflexivity.
        -- destruct (map_get e _) as [r|] eqn:Er.
           ++ left. refine (He (fun r => In r languages) _ _ _ _ Er);
                [discriminate|auto].
           ++ right. unfold unknown_language. rewrite Eid. reflexivity.
  - intros filePath languageId l Hne Hl. unfold detectLanguage.
    cbn [languageIdMap extensionMap].
    destruct (String.eqb_spec languageId ""); [contradiction|].
    rewrite Hi, Hl. reflexivity.
Qed.

End WithStrings.

End LanguageFacts.
(** ** The statements at concrete inputs *)
Module Instances.
Import Env Extension Observe Grouping.
Import JSDate LocalClock.
Import DateFacts GroupingFacts TrackerFacts QueueFacts.

Lemma failed_drain_keeps_queue_witness :
  sendOfflineSessions_start Demo.host Demo.cfg Demo.queued
  = (Some (drain_frame Demo.cfg Demo.queued),
     snd (sendOfflineSessions_start Demo.host Demo.cfg Demo.queued)) /\
  offlineSessions
    (exec (sendOfflineSessions_resume (drain_frame Demo.cfg Demo.queued)
             Rejected true)
       (snd (sendOfflineSessions_start Demo.host Demo.cfg Demo.queued)))
  = offlineSessions Demo.queued.
Proof.
  split; [reflexivity|].
  apply (failed_drain_keeps_queue Demo.host Demo.cfg Demo.queued
           (drain_frame Demo.cfg Demo.queued)
           (snd (sendOfflineSessions_start Demo.host Demo.cfg Demo.queued))
           true).
  reflexivity.
Defined.

Lemma endSession_duration_and_filter_witness :
  activeSession (Demo.tracking 7) = Some Demo.open_session /\
  exists closed,
    history (exec (endSession Demo.host Demo.cfg) (Demo.tracking 7))
    = history (Demo.tracking 7) ++ [Closed closed]
    /\ Session.duration closed = 7.
Proof.
  split; [reflexivity|].
  destruct (endSession_duration_and_filter Demo.host Demo.cfg
              (Demo.tracking 7) Demo.open_session eq_refl)
    as (closed & Hh & _ & _ & Hd & _).
  exists closed. split; [exact Hh|exact Hd].
Defined.

Lemma backoff_delays_start_at_2000_witness :
  uploadRetryCount Demo.queued = 0 /\
  timeouts (trace (failed_drains Demo.host Demo.cfg 5 Demo.queued))
  = [2000; 4000; 8000; 16000; 32000].
Proof.
  split; [reflexivity|].
  apply (backoff_delays_start_at_2000 Demo.host Demo.cfg Demo.queued
           (drain_frame Demo.cfg Demo.queued)
           (snd (sendOfflineSessions_start Demo.host Demo.cfg Demo.queued))).
  - reflexivity.
  - reflexivity.
Defined.

(** Claim C3 as it is written fails: the first retry comes after 2000 ms,
    not 1000 ms. *)
Lemma backoff_delays_not_from_1000 :
  timeouts (trace (failed_drains Demo.host Demo.cfg 5 Demo.queued))
  <> [1000; 2000; 4000; 8000; 16000].
Proof. vm_compute. discriminate. Qed.


Lemma group_labels_from_first_member_witness :
  (exists g,
     In g (ApiService.groupSessionsByLanguage (fixed 0)
             [Demo.tuesday_session; Demo.monday_session]) /\
     SessionData.project_name g = Some "app"%string /\
     SessionData.file_path g = Some "main.js"%string) /\
  (exists g,
     In g (ApiService.groupSessionsByLanguage (fixed 0)
             [Demo.monday_session; Demo.tuesday_session]) /\
     SessionData.project_name g = Some "Unknown"%string /\
     SessionData.file_path g = Some ""%string) /\
  ApiService.groupSessionsByLanguage (fixed 0)
    ([Demo.monday_session]
     ++ with_labels Demo.tuesday_session None None :: [])
  = ApiService.groupSessionsByLanguage (fixed 0)
      [Demo.monday_session; Demo.tuesday_session].
Proof.
  split; [|split].
  - destruct (group_labels_from_first_member (fixed 0)
                [Demo.tuesday_session; Demo.monday_session])
      as (Hcover & Hlabels & _).
    destruct (Hcover Demo.tuesday_session (or_introl eq_refl))
      as (g & Hin & Hkey).
    destruct (Hlabels g Hin) as (f & Hf & Hp & _ & Hpath & _).
    rewrite Hkey in Hf. vm_compute in Hf. injection Hf as <-.
    exists g. split; [exact Hin|]. split.
    + apply (Hp "app"%string); [reflexivity|discriminate].
    + apply (Hpath "main.js"%string). reflexivity.
  - destruct (group_labels_from_first_member (fixed 0)
                [Demo.monday_session; Demo.tuesday_session])
      as (Hcover & Hlabels & _).
    destruct (Hcover Demo.monday_session (or_introl eq_refl))
      as (g & Hin & Hkey).
    destruct (Hlabels g Hin) as (f & Hf & _ & Hp & _ & Hpath).
    rewrite Hkey in Hf. vm_compute in Hf. injection Hf as <-.
    exists g. split; [exact Hin|]. split.
    + apply Hp. left. reflexivity.
    + apply Hpath. reflexivity.
  - apply (proj2 (proj2 (group_labels_from_first_member (fixed 0)
                           [Demo.monday_session; Demo.tuesday_session]))
             [Demo.monday_session] Demo.tuesday_session []
             Demo.monday_session None None).
    + reflexivity.
    + left. reflexivity.
    + reflexivity.
Defined.

Lemma at_most_one_open_session_witness :
  open_sessions
    (history (run Demo.host
                [(Demo.cfg, StartTracking (Some Demo.document));
                 (Demo.cfg, EditorChange (Some Demo.document))]
                initial))
  = [1%nat].
Proof.
  rewrite (proj1 (at_most_one_open_session Demo.host
            [(Demo.cfg, StartTracking (Some Demo.document));
             (Demo.cfg, EditorChange (Some Demo.document))])).
  reflexivity.
Defined.

Lemma save_sends_once_or_queues_once_witness :
  Session.endTime Demo.closed_session = Some 1800000 /\
  trace (exec (saveSession Demo.closed_session) initial)
  = [HttpPostSession (SessionData.mk 1 0 (Some 1800000) 1800 None None)] /\
  offlineSessions
    (step Demo.host (exec (saveSession Demo.closed_session) initial)
       (Demo.cfg, SaveSettled 0 Rejected true))
  = [OfflineSession.mk 0 Demo.javascript 0 (Some 1800000) 1800].
Proof.
  split; [reflexivity|].
  destruct (save_sends_once_or_queues_once initial Demo.closed_session
              1800000 eq_refl) as (H1 & _ & _ & H4).
  split; [apply H1|].
  apply (H4 Demo.host Demo.cfg).
Defined.

Lemma backlog_warning_exact_match_witness :
  snd (StorageService.addOfflineSession Demo.closed_session true
         (repeat (StorageService.to_offline Demo.closed_session) 9))
  = [ShowWarningMessage (MsgOfflineBacklog 10)] /\
  snd (StorageService.addOfflineSession Demo.closed_session true
         (repeat (StorageService.to_offline Demo.closed_session) 10))
  = [].
Proof.
  split.
  - apply (backlog_warning_exact_match Demo.closed_session
             (repeat (StorageService.to_offline Demo.closed_session) 9)).
    reflexivity.
  - apply (backlog_warning_exact_match Demo.closed_session
             (repeat (StorageService.to_offline Demo.closed_session) 10)).
    reflexivity.
Defined.

Lemma idle_close_counts_idle_gap_witness :
  clock Demo.host (clockReads (Demo.tracking 130)) - 0 > 120 * 1000 /\
  history (exec (checkActivity Demo.host Demo.cfg 120) (Demo.tracking 130))
  = history (Demo.tracking 130)
    ++ [Closed (stamp Demo.open_session 131000)] /\
  Session.duration (stamp Demo.open_session 131000) = 131.
Proof.
  split; [reflexivity|].
  destruct (idle_close_counts_idle_gap Demo.host Demo.cfg 120
              (Demo.tracking 130) Demo.open_session 0 eq_refl eq_refl
              eq_refl) as (_ & Hh & _ & Hd & _).
  split; [exact Hh|exact Hd].
Defined.

Lemma week_start_contract_witness :
  let d := 1678647600000 in
  let ws := ApiService.getWeekStart Zones.eastern d in
  let we := Utils.getWeekEnd Zones.eastern d in
  ws = 1678078800000 /\ we = 1678679999999 /\
  (getDay Zones.eastern ws = 1 /\ getHours Zones.eastern ws = 0 /\
   getMinutes Zones.eastern ws = 0 /\ getSeconds Zones.eastern ws = 0 /\
   getMilliseconds Zones.eastern ws = 0) /\
  (getDay Zones.eastern we = 0 /\ getHours Zones.eastern we = 23 /\
   getMinutes Zones.eastern we = 59 /\ getSeconds Zones.eastern we = 59 /\
   getMilliseconds Zones.eastern we = 999) /\
  we - ws = 6 * msPerDay + MakeTime 22 59 59 999.
Proof.
  cbv zeta.
  split; [vm_compute; reflexivity|]. split; [vm_compute; reflexivity|].
  destruct (week_start_contract Zones.eastern 1678647600000)
    as (_ & H).
  destruct H as (Hs & _ & H);
    [vm_compute; reflexivity|vm_compute; reflexivity|].
  destruct H as (_ & He & Hd);
    [vm_compute; reflexivity|vm_compute; reflexivity|].
  split; [exact Hs|]. split; [exact He|].
  rewrite Hd. vm_compute. reflexivity.
Defined.

(** Claim C5 as it is written fails where the clocks change.  In Tehran
    the clocks skipped the midnight of Monday 22 March 2010: the week
    start of Wednesday 24 March 2010, 12:30 local time, is that Monday at
    01:00:00.000 local time, the instant of the change, and not at
    00:00:00.000.  In US Eastern time the clocks went forward on Sunday 12
    March 2023: the week end of that day is 6 days 22:59:59.999 after the
    week start, not 6 days 23:59:59.999. *)
Lemma week_contract_fails_at_clock_changes :
  (ApiService.getWeekStart Zones.tehran 1269417600000 = 1269203400000 /\
   getDay Zones.tehran (ApiService.getWeekStart Zones.tehran 1269417600000)
   = 1 /\
   getHours Zones.tehran (ApiService.getWeekStart Zones.tehran 1269417600000)
   <> 0) /\
  Utils.getWeekEnd Zones.eastern 1678647600000
  <> ApiService.getWeekStart Zones.eastern 1678647600000
     + 6 * msPerDay + MakeTime 23 59 59 999.
Proof. vm_compute. repeat split; discriminate. Qed.

End Instances.

(** ** The further statements at concrete inputs *)
Module MoreInstances.
Import Env Extension Observe Grouping.
Import JSDate LocalClock.
Import DateMore QueueMore EventFacts ViewFacts LanguageFacts.


Lemma drain_guards_do_nothing_witness :
  offlineSessions (Demo.tracking 3) = [] /\
  sendOfflineSessions_start Demo.host Demo.cfg (Demo.tracking 3)
  = (None, Demo.tracking 3).
Proof.
  split; [reflexivity|].
  apply (drain_guards_do_nothing Demo.host Demo.cfg (Demo.tracking 3)).
  left. reflexivity.
Defined.

Lemma drain_batch_size_witness :
  sendOfflineSessions_start Demo.host Demo.cfg Demo.queued
  = (Some Scenario.frame, Scenario.in_flight_state) /\
  totalSessions Scenario.frame = 1 /\
  batchSize Scenario.frame = 10 /\
  pendingUpload Scenario.in_flight_state = true.
Proof.
  split; [reflexivity|].
  destruct (drain_batch_size Demo.host Demo.cfg Demo.queued Scenario.frame
              Scenario.in_flight_state eq_refl) as (H1 & H2 & _ & _ & H5).
  split; [exact H1|]. split; [exact H2|exact H5].
Defined.


Lemma tracking_flag_governs_timers_and_session_witness :
  isTracking (run Demo.host Scenario.events initial) = true /\
  activityCheckInterval (run Demo.host Scenario.events initial) <> None.
Proof.
  split; [reflexivity|].
  apply (tracking_flag_governs_timers_and_session Demo.host
           Scenario.events).
  reflexivity.
Defined.

Lemma idle_check_closes_only_past_threshold_witness :
  clock Demo.host (clockReads (Demo.tracking 100)) - 0 <= 120 * 1000 /\
  exec (checkActivity Demo.host Demo.cfg 120) (Demo.tracking 100)
  = set_clockReads 101 (Demo.tracking 100).
Proof.
  split; [discriminate|].
  apply (proj2 (idle_check_closes_only_past_threshold Demo.host Demo.cfg
                  120 (Demo.tracking 100))
           Demo.open_session 0 eq_refl eq_refl).
  discriminate.
Defined.

Lemma excluded_projects_are_never_tracked_witness :
  Forall (fun ce => excludedProjects (fst ce) = ["/work/app"%string])
    Scenario.private_events /\
  forall a,
    activeSession (run Demo.host Scenario.private_events initial) = Some a ->
    ~ In (Session.projectName a) ["/work/app"%string].
Proof.
  split; [repeat constructor|].
  apply (excluded_projects_are_never_tracked Demo.host
           ["/work/app"%string] Scenario.private_events).
  repeat constructor.
Defined.

Lemma short_sessions_never_leave_the_tracker_witness :
  Forall (fun ce => 5 <= minSessionDuration (fst ce))
    Scenario.rejected_events /\
  length (offlineSessions
            (run Scenario.slow_host Scenario.rejected_events initial))
  = 1%nat /\
  Forall (fun o => 5 <= OfflineSession.duration o)
    (offlineSessions
       (run Scenario.slow_host Scenario.rejected_events initial)).
Proof.
  split; [repeat constructor; discriminate|].
  split; [reflexivity|].
  apply (short_sessions_never_leave_the_tracker Scenario.slow_host 5
           Scenario.rejected_events).
  repeat constructor; discriminate.
Defined.

Lemma events_are_ignored_while_not_tracking_witness :
  isTracking (run Demo.host [(Demo.cfg, StopTracking)] initial) = false /\
  step Demo.host (run Demo.host [(Demo.cfg, StopTracking)] initial)
    (Demo.cfg, EditorChange (Some Demo.document))
  = run Demo.host [(Demo.cfg, StopTracking)] initial.
Proof.
  split; [reflexivity|].
  apply (events_are_ignored_while_not_tracking Demo.host
           [(Demo.cfg, StopTracking)] Demo.cfg
           (EditorChange (Some Demo.document)) eq_refl I).
Defined.

Lemma stopTracking_closes_and_clears_witness :
  isTracking (Demo.tracking 7) = true /\
  history (exec (stopTracking Demo.host Demo.cfg) (Demo.tracking 7))
  = history (Demo.tracking 7) ++ [Closed (stamp Demo.open_session 7000)].
Proof.
  split; [reflexivity|].
  destruct (proj2 (stopTracking_closes_and_clears Demo.host Demo.cfg
                     (Demo.tracking 7)) eq_refl)
    as (_ & _ & _ & _ & H & _).
  exact H.
Defined.


Lemma summary_groups_are_sorted_and_complete_witness :
  exists g,
    In g (SummaryView.groupSessionsByLanguage
            [Demo.closed_session; Demo.open_session])
    /\ LanguageService.id (SummaryView.language g) = 1.
Proof.
  destruct (summary_groups_are_sorted_and_complete
              [Demo.closed_session; Demo.open_session])
    as (_ & _ & _ & H & _).
  apply (H Demo.closed_session). left. reflexivity.
Defined.

Lemma detection_after_setLanguages_witness :
  exists service,
    LanguageService.setLanguages (fun s => s)
      [Scenario.typescript; Scenario.shadow] = Some service /\
    LanguageService.detectLanguage (fun s => s) (fun _ => ""%string)
      service "/work/app/main.py" "typescript"
    = Scenario.shadow.
Proof.
  eexists. split; [reflexivity|].
  apply (proj2 (proj2 (detection_after_setLanguages (fun s => s)
                         (fun _ => ""%string)
                         [Scenario.typescript; Scenario.shadow]
                         _ eq_refl))
           "/work/app/main.py"%string "typescript"%string Scenario.shadow).
  - discriminate.
  - reflexivity.
Defined.

Lemma isInSameWeek_spec_witness :
  monday (LocalTime Zones.eastern 1678647600000)
  = monday (LocalTime Zones.eastern 1678122000000) /\
  Utils.isInSameWeek Zones.eastern 1678647600000 1678122000000 = true.
Proof.
  split; [vm_compute; reflexivity|].
  apply (isInSameWeek_spec Zones.eastern 1678647600000 1678122000000);
    vm_compute; reflexivity.
Defined.

End MoreInstances.
